(** * SID ubridge: command pipeline and worker/observer state machine

    A shallow embedding of the ubridge part of SID (the code that follows
    kv-store.h in [src/include/kv-store.h]): decoding of the udev
    environment of an [identify] request, the command dispatch table, the
    identify phase loop, the response header, the observer side of the
    worker state machine, the two ends of the control channel, and the
    ubridge: the search for an idle worker, the spawning of a worker
    around [fork] and the dispatch of a connection.

    Conventions.
    - A C integer is a [Z]; where the C type wraps or truncates the
      wrap-around is written out ([wrap]).
    - A C string is the [string] of its characters before the
      terminating NUL; a byte buffer is the [string] of its bytes; an
      offset into a buffer is a [nat].
    - A function that logs, writes to a descriptor or sends a signal
      returns the list of these [event]s, in program order.
    - What the environment answers (the result of a read, of an
      allocation, of the creation of an iterator, of [fork]) is an
      argument of the function that asks, so that every failure path
      of the code is a case of the function.
    - An observer, its worker and the socket pair between them form a
      [service], whose steps are runs of the handlers. *)

From Stdlib Require Import ZArith List String Ascii Bool Lia.
Import ListNotations.

Open Scope string_scope.
Open Scope list_scope.
Open Scope Z_scope.

(** ** The C library functions the code calls *)

Module CLib.

Definition NUL : ascii := "000"%char.

(** The value of a character as [unsigned char]. *)
Definition uchar (c : ascii) : Z := Z.of_N (N_of_ascii c).

(** [w]-bit unsigned and signed wrap-around. *)
Definition wrap (w : Z) (x : Z) : Z := x mod 2 ^ w.
Definition swrap (w : Z) (x : Z) : Z :=
  let y := wrap w x in if y <? 2 ^ (w - 1) then y else y - 2 ^ w.

Definition EINVAL : Z := 22.
Definition EINTR : Z := 4.
Definition EAGAIN : Z := 11.
Definition ULLONG_MAX : Z := 2 ^ 64 - 1.
Definition LONG_MAX : Z := 2 ^ 63 - 1.
Definition LONG_MIN : Z := - 2 ^ 63.

(** [s + n] and the first [n] characters of [s]. *)
Fixpoint drop (n : nat) (s : string) : string :=
  match n, s with
  | O, _ => s
  | S n', String _ r => drop n' r
  | S _, EmptyString => EmptyString
  end.

Fixpoint take (n : nat) (s : string) : string :=
  match n, s with
  | O, _ => EmptyString
  | S n', String a r => String a (take n' r)
  | S _, EmptyString => EmptyString
  end.

(** [strchr(s, c)]: the offset of the first [c] in the C string [s]. *)
Fixpoint strchr (s : string) (c : ascii) : option nat :=
  match s with
  | EmptyString => if Ascii.eqb c NUL then Some O else None
  | String a r => if Ascii.eqb a c then Some O else option_map S (strchr r c)
  end.

(** [memchr(s, c, n)]: the offset of the first [c] in the first [n]
    bytes of the buffer [s]. *)
Fixpoint memchr (s : string) (c : ascii) (n : nat) : option nat :=
  match n, s with
  | S n', String a r => if Ascii.eqb a c then Some O else option_map S (memchr r c n')
  | _, _ => None
  end.

(** [strncmp(s1, s2, n)]: at most [n] characters are compared; the
    comparison stops at the first difference or at a terminator. *)
Fixpoint strncmp (s1 s2 : string) (n : nat) {struct n} : Z :=
  match n with
  | O => 0
  | S n' =>
    match s1, s2 with
    | EmptyString, EmptyString => 0
    | EmptyString, String c2 _ => 0 - uchar c2
    | String c1 _, EmptyString => uchar c1
    | String c1 r1, String c2 r2 =>
      if Ascii.eqb c1 c2 then strncmp r1 r2 n' else uchar c1 - uchar c2
    end
  end.

Definition isspace (c : ascii) : bool :=
  let v := uchar c in (v =? 32) || ((9 <=? v) && (v <=? 13)).

Fixpoint skip_space (s : string) : string :=
  match s with
  | String c r => if isspace c then skip_space r else s
  | EmptyString => s
  end.

(** The value of a digit character in the bases up to 36. *)
Definition digit_val (c : ascii) : option Z :=
  let v := uchar c in
  if (48 <=? v) && (v <=? 57) then Some (v - 48)
  else if (97 <=? v) && (v <=? 122) then Some (v - 97 + 10)
  else if (65 <=? v) && (v <=? 90) then Some (v - 65 + 10)
  else None.

(** The longest prefix of [s] made of digits of [base], accumulated from
    [acc]; conversion stops at the first character that is not one. *)
Fixpoint digits (base : Z) (s : string) (acc : Z) : Z :=
  match s with
  | EmptyString => acc
  | String c r =>
    match digit_val c with
    | Some d => if d <? base then digits base r (acc * base + d) else acc
    | None => acc
    end
  end.

(** An optional sign: whether it is a minus, and the rest. *)
Definition sign (s : string) : bool * string :=
  match s with
  | String "-" r => (true, r)
  | String "+" r => (false, r)
  | _ => (false, s)
  end.

(** The base to use and the rest of the subject, after an optional
    [0x] (base 16 or 0) and the detection of base 0. *)
Definition radix (base : Z) (s : string) : Z * string :=
  match s with
  | String "0" (String x r) =>
    if (Ascii.eqb x "x" || Ascii.eqb x "X") && ((base =? 0) || (base =? 16))
    then (16, r)
    else if base =? 0 then (8, s) else (base, s)
  | String "0" EmptyString => if base =? 0 then (8, s) else (base, s)
  | _ => if base =? 0 then (10, s) else (base, s)
  end.

(** [strtoull(nptr, NULL, base)] as the C standard has it: white space
    and a sign are skipped, digits of the base are converted, a base
    that is neither 0 nor in 2..36 gives 0 (errno EINVAL), a value out of
    range gives ULLONG_MAX, and a minus sign negates in the unsigned
    type. *)
Definition strtoull (nptr : string) (base : Z) : Z :=
  if (base <? 0) || (base =? 1) || (36 <? base) then 0
  else
    let (neg, s) := sign (skip_space nptr) in
    let (b, s') := radix base s in
    let v := digits b s' 0 in
    if ULLONG_MAX <? v then ULLONG_MAX
    else if neg then wrap 64 (- v) else v.

(** [strtol(nptr, NULL, base)] on a 64-bit [long]. *)
Definition strtol (nptr : string) (base : Z) : Z :=
  if (base <? 0) || (base =? 1) || (36 <? base) then 0
  else
    let (neg, s) := sign (skip_space nptr) in
    let (b, s') := radix base s in
    let v := digits b s' 0 in
    if neg then (if - v <? LONG_MIN then LONG_MIN else - v)
    else (if LONG_MAX <? v then LONG_MAX else v).

(** [atoi(nptr)] is [(int) strtol(nptr, NULL, 10)]. *)
Definition atoi (nptr : string) : Z := swrap 32 (strtol nptr 10).

End CLib.

Import CLib.

(** ** Constants and enumerations of ubridge.c *)

Definition UBRIDGE_PROTOCOL : Z := 1.
Definition WORKER_IDLE_TIMEOUT_USEC : Z := 5000000.
Definition INTERNAL_COMMS_CMD_RUNNING : Z := 1.
Definition INTERNAL_COMMS_CMD_IDLE : Z := 2.
Definition COMMAND_STATUS_MASK_OVERALL : Z := 1.
Definition COMMAND_STATUS_SUCCESS : Z := 0.
Definition COMMAND_STATUS_FAILURE : Z := 1.

(** Values of the system headers. *)
Definition SIGTERM : Z := 15.
Definition CLOCK_MONOTONIC : Z := 1.
Definition EPOLLERR : Z := 8.
Definition EPOLLHUP : Z := 16.

Inductive worker_state_t : Type :=
| WORKER_IDLE
| WORKER_INIT
| WORKER_RUNNING
| WORKER_FINI.

(** [command_t]; [__CMD_END] is the enumerator after [CMD_CHECKPOINT]. *)
Definition __CMD_START : Z := 0.
Definition CMD_UNKNOWN : Z := 0.
Definition CMD_REPLY : Z := 1.
Definition CMD_VERSION : Z := 2.
Definition CMD_IDENTIFY : Z := 3.
Definition CMD_CHECKPOINT : Z := 4.
Definition __CMD_END : Z := 5.

(** [cmd_ident_phase_t]; a phase is the index of its entry in the phase
    table. *)
Definition __CMD_IDENT_PHASE_START : nat := 0.
Definition CMD_IDENT_PHASE_IDENT : nat := 0.
Definition CMD_IDENT_PHASE_SCAN_PRE : nat := 1.
Definition CMD_IDENT_PHASE_SCAN_CORE_CURRENT : nat := 2.
Definition CMD_IDENT_PHASE_SCAN_CORE_NEXT_BASIC : nat := 3.
Definition CMD_IDENT_PHASE_SCAN_CORE_NEXT_EXTENDED : nat := 4.
Definition CMD_IDENT_PHASE_SCAN_POST : nat := 5.
Definition __CMD_IDENT_PHASE_END : nat := CMD_IDENT_PHASE_SCAN_POST.
Definition CMD_IDENT_PHASE_TRIGGER_ACTION_CURRENT : nat := 6.
Definition __CMD_IDENT_TRIGGER_ACTION_START : nat := CMD_IDENT_PHASE_TRIGGER_ACTION_CURRENT.
Definition CMD_IDENT_PHASE_TRIGGER_ACTION_NEXT : nat := 7.
Definition __CMD_IDENT_TRIGGER_ACTION_END : nat := CMD_IDENT_PHASE_TRIGGER_ACTION_NEXT.
Definition CMD_IDENT_PHASE_ERROR : nat := 8.

(** Modelled from the spec: [udev_action_t] and
    [util_get_udev_action_from_string] belong to types.h and util.c,
    which are not among the sources. The spec: ACTION is mapped through
    a string to enum table (add, remove, change, move, online, offline,
    bind, unbind). A string outside the table is taken to give
    [UDEV_ACTION_UNKNOWN]. *)
Inductive udev_action_t : Type :=
| UDEV_ACTION_UNKNOWN
| UDEV_ACTION_ADD
| UDEV_ACTION_REMOVE
| UDEV_ACTION_CHANGE
| UDEV_ACTION_MOVE
| UDEV_ACTION_ONLINE
| UDEV_ACTION_OFFLINE
| UDEV_ACTION_BIND
| UDEV_ACTION_UNBIND.

Definition udev_action_table : list (string * udev_action_t) :=
  [ ("add", UDEV_ACTION_ADD); ("remove", UDEV_ACTION_REMOVE);
    ("change", UDEV_ACTION_CHANGE); ("move", UDEV_ACTION_MOVE);
    ("online", UDEV_ACTION_ONLINE); ("offline", UDEV_ACTION_OFFLINE);
    ("bind", UDEV_ACTION_BIND); ("unbind", UDEV_ACTION_UNBIND) ].

Definition util_get_udev_action_from_string (str : string) : udev_action_t :=
  match find (fun e => String.eqb (fst e) str) udev_action_table with
  | Some e => snd e
  | None => UDEV_ACTION_UNKNOWN
  end.

(** ** Structures *)

(** [struct raw_command_header] (packed: 1 + 1 + 8 bytes). *)
Record raw_command_header : Type := mk_header {
  hdr_protocol : Z;      (* uint8_t *)
  hdr_cmd_number : Z;    (* uint8_t; IN: cmd number  OUT: CMD_RESPONSE *)
  hdr_status : Z         (* uint64_t; IN: udev seqnum OUT: response status *)
}.

Definition sizeof_raw_command_header : Z := 10.

(** [struct raw_command]: the header and the [data] that follows it;
    [len] is header + data. *)
Record raw_command : Type := mk_raw_command {
  rc_header : raw_command_header;
  rc_data : string
}.

Definition rc_len (raw_cmd : raw_command) : Z :=
  sizeof_raw_command_header + Z.of_nat (String.length (rc_data raw_cmd)).

(** [struct device]. A [const char *] field is [None] when NULL and
    otherwise the C string it points to (always a part of
    [raw_udev_env]). The [custom] pointer is never used and left out. *)
Record device : Type := mk_device {
  dev_action : udev_action_t;
  dev_major : Z;          (* int *)
  dev_minor : Z;          (* int *)
  dev_name : option string;
  dev_type : option string;
  dev_seqnum : Z;         (* uint64_t *)
  dev_synth_uuid : option string;
  raw_udev_env : string;
  raw_udev_env_len : nat  (* size_t *)
}.

(** An entry of the vector-shape result buffer: [buffer_add] records the
    address it is given, so an entry names the object it points to. *)
Inductive iov_ref : Type :=
| ref_response_header   (* &response_header, a local of _cmd_handler *)
| ref_this_version.     (* &this_version, a static of _cmd_execute_version *)

(** [struct command]; [cmd_es] tells whether the deferred event source
    is registered. *)
Record command : Type := mk_command {
  cmd_protocol : Z;       (* uint8_t *)
  cmd_type : Z;           (* command_t *)
  cmd_status : Z;         (* uint16_t *)
  cmd_es : bool;
  cmd_dev : device;
  result_buf : list iov_ref
}.

(** A timer event source: clock, expiry and accuracy. *)
Record time_event_source : Type := mk_timer {
  timer_clock : Z;
  timer_usec : Z;         (* uint64_t *)
  timer_accuracy : Z
}.

(** [struct observer]; [comms_es] and [child_es] tell whether the event
    source is registered, [idle_timeout_es] is the armed timer. *)
Record observer : Type := mk_observer {
  obs_worker_pid : Z;
  obs_comms_fd : Z;
  obs_comms_es : bool;
  obs_child_es : bool;
  idle_timeout_es : option time_event_source;
  worker_state : worker_state_t
}.

(** A resource: the identifier given at its creation and its data. *)
Record sid_resource (D : Type) : Type := mk_resource {
  res_id : string;
  res_data : D
}.

Arguments mk_resource {D} _ _.
Arguments res_id {D} _.
Arguments res_data {D} _.

(** [struct worker]. [wrk_conn_es] tells whether the event source of the
    connection is registered; the content of [buf] is what the
    environment reports about it (see [conn_env]); [wrk_commands] are
    the children of the worker resource, in the order of their
    creation: all of them are command resources. *)
Record worker : Type := mk_worker {
  wrk_comms_fd : Z;
  wrk_conn_fd : Z;
  wrk_conn_es : bool;
  wrk_commands : list (sid_resource command)
}.

Definition sid_resource_get_data {D : Type} (res : sid_resource D) : D :=
  res_data res.

(** [ID(res)]: log lines carry the identifier of the resource they are
    issued for. *)
Definition ID {D : Type} (res : sid_resource D) : string := res_id res.

(** The iovec entries as they are when the buffer is written. *)
Inductive iov_data : Type :=
| data_header (h : raw_command_header)
| data_version.

Definition iov_len (d : iov_data) : Z :=
  match d with
  | data_header _ => sizeof_raw_command_header
  | data_version => 6
  end.

(** A frame as [buffer_write] sends it: the length prefix and the
    entries. *)
Record frame : Type := mk_frame {
  frame_len : Z;
  frame_iov : list iov_data
}.

(** ** Effects *)

Inductive event : Type :=
| ev_log_debug (id msg : string)
| ev_log_error (id msg : string)
| ev_log_error_errno (id : string) (err : Z) (msg : string)
| ev_log_sys_error (id : string) (call : string)
| ev_phase_call (phase : nat)               (* _cmd_ident_phase_regs[phase].execute(cmd_res) *)
| ev_buffer_write (fd : Z) (f : frame)
| ev_comms_send (fd : Z) (byte : option Z) (fd_sent : Z)
| ev_close (fd : Z)
| ev_kill (pid sig : Z).

(** A computation on a state [S]: [None] when the C code has no defined
    result (an index outside a table, a loop out of fuel), otherwise the
    value, the new state and the events. *)
Definition M (S A : Type) : Type := S -> option (A * S * list event).

Definition ret {S A : Type} (a : A) : M S A := fun s => Some (a, s, []).

Definition bind {S A B : Type} (m : M S A) (f : A -> M S B) : M S B :=
  fun s =>
    match m s with
    | Some (a, s', ev) =>
      match f a s' with
      | Some (b, s'', ev') => Some (b, s'', ev ++ ev')
      | None => None
      end
    | None => None
    end.

Definition emit {S : Type} (e : event) : M S unit := fun s => Some (tt, s, [e]).
Definition get_state {S : Type} : M S S := fun s => Some (s, s, []).
Definition put_state {S : Type} (s : S) : M S unit := fun _ => Some (tt, s, []).
Definition undefined {S A : Type} : M S A := fun _ => None.

Declare Scope m_scope.
Delimit Scope m_scope with M.
Notation "x <- m ;; k" := (bind m (fun x => k))
  (at level 61, m at next level, right associativity) : m_scope.
Notation "m ;;; k" := (bind m (fun _ => k))
  (at level 61, right associativity) : m_scope.
Open Scope m_scope.

Section Resource.
Context {D : Type}.

Definition get_data : M (sid_resource D) D :=
  res <- get_state ;; ret (sid_resource_get_data res).

Definition set_data (d : D) : M (sid_resource D) unit :=
  res <- get_state ;; put_state (mk_resource (res_id res) d).

Definition log_debug (msg : string) : M (sid_resource D) unit :=
  res <- get_state ;; emit (ev_log_debug (ID res) msg).

Definition log_error (msg : string) : M (sid_resource D) unit :=
  res <- get_state ;; emit (ev_log_error (ID res) msg).

Definition log_error_errno (err : Z) (msg : string) : M (sid_resource D) unit :=
  res <- get_state ;; emit (ev_log_error_errno (ID res) err msg).
End Resource.

(** ** Decoding the udev environment *)

Definition set_dev_action (dev : device) (v : udev_action_t) : device :=
  mk_device v (dev_major dev) (dev_minor dev) (dev_name dev) (dev_type dev)
            (dev_seqnum dev) (dev_synth_uuid dev) (raw_udev_env dev) (raw_udev_env_len dev).
Definition set_dev_major (dev : device) (v : Z) : device :=
  mk_device (dev_action dev) v (dev_minor dev) (dev_name dev) (dev_type dev)
            (dev_seqnum dev) (dev_synth_uuid dev) (raw_udev_env dev) (raw_udev_env_len dev).
Definition set_dev_minor (dev : device) (v : Z) : device :=
  mk_device (dev_action dev) (dev_major dev) v (dev_name dev) (dev_type dev)
            (dev_seqnum dev) (dev_synth_uuid dev) (raw_udev_env dev) (raw_udev_env_len dev).
Definition set_dev_name (dev : device) (v : string) : device :=
  mk_device (dev_action dev) (dev_major dev) (dev_minor dev) (Some v) (dev_type dev)
            (dev_seqnum dev) (dev_synth_uuid dev) (raw_udev_env dev) (raw_udev_env_len dev).
Definition set_dev_type (dev : device) (v : string) : device :=
  mk_device (dev_action dev) (dev_major dev) (dev_minor dev) (dev_name dev) (Some v)
            (dev_seqnum dev) (dev_synth_uuid dev) (raw_udev_env dev) (raw_udev_env_len dev).
Definition set_dev_seqnum (dev : device) (v : Z) : device :=
  mk_device (dev_action dev) (dev_major dev) (dev_minor dev) (dev_name dev) (dev_type dev)
            v (dev_synth_uuid dev) (raw_udev_env dev) (raw_udev_env_len dev).
Definition set_dev_synth_uuid (dev : device) (v : string) : device :=
  mk_device (dev_action dev) (dev_major dev) (dev_minor dev) (dev_name dev) (dev_type dev)
            (dev_seqnum dev) (Some v) (raw_udev_env dev) (raw_udev_env_len dev).

(** [_device_add_field(cmd_res, dev, key)]; [cmd_res] is not used.
    [value0] is the offset of the '=' that [strchr] finds; the
    character that [!*(value++)] reads is the one at that offset, and
    [value] is one further afterwards, so [key_len = value - key - 1] is
    [value0]. The third argument of [strtoull] is [key_len]. *)
Definition _device_add_field (dev : device) (key : string) : Z * device :=
  match strchr key "=" with
  | None => (-1, dev)
  | Some value0 =>
    match String.get value0 key with
    | None => (-1, dev)
    | Some c =>
      if Ascii.eqb c NUL then (-1, dev)
      else
        let value := drop (S value0) key in
        let key_len := value0 in
        if strncmp key "ACTION" key_len =? 0 then
          (0, set_dev_action dev (util_get_udev_action_from_string value))
        else if strncmp key "DEVNAME" key_len =? 0 then
          (0, set_dev_name dev value)
        else if strncmp key "DEVTYPE" key_len =? 0 then
          (0, set_dev_type dev value)
        else if strncmp key "MAJOR" key_len =? 0 then
          (0, set_dev_major dev (atoi value))
        else if strncmp key "MINOR" key_len =? 0 then
          (0, set_dev_minor dev (atoi value))
        else if strncmp key "SEQNUM" key_len =? 0 then
          (0, set_dev_seqnum dev (strtoull value (Z.of_nat key_len)))
        else if strncmp key "SYNTH_UUID" key_len =? 0 then
          (0, set_dev_synth_uuid dev value)
        else (0, dev)
    end
  end.

(** The [while] loop of [_parse_cmd_nullstr_udev_env], from offset [i].
    [delim] is the offset of the NUL from [str]; the C string at [str]
    is what precedes it. Each turn advances [i], so a fuel of
    [raw_udev_env_len] turns is never used up
    (see [parse_loop_enough_fuel]). *)
Fixpoint _parse_cmd_nullstr_udev_env_loop (fuel : nat) (i : nat) (dev : device)
  : option (Z * device) :=
  if (i <? raw_udev_env_len dev)%nat then
    match fuel with
    | O => None
    | S fuel' =>
      let str := drop i (raw_udev_env dev) in
      match memchr str NUL (raw_udev_env_len dev - i) with
      | None => Some (- EINVAL, dev)
      | Some delim =>
        let (r, dev') := _device_add_field dev (take delim str) in
        if r <? 0 then Some (- EINVAL, dev')
        else _parse_cmd_nullstr_udev_env_loop fuel' (i + delim + 1) dev'
      end
    end
  else Some (0, dev).

Definition set_cmd_dev (cmd : command) (dev : device) : command :=
  mk_command (cmd_protocol cmd) (cmd_type cmd) (cmd_status cmd) (cmd_es cmd)
             dev (result_buf cmd).

Definition set_result_buf (cmd : command) (buf : list iov_ref) : command :=
  mk_command (cmd_protocol cmd) (cmd_type cmd) (cmd_status cmd) (cmd_es cmd)
             (cmd_dev cmd) buf.

Definition _parse_cmd_nullstr_udev_env (cmd : command) : option (Z * command) :=
  match _parse_cmd_nullstr_udev_env_loop
          (raw_udev_env_len (cmd_dev cmd)) 0 (cmd_dev cmd) with
  | Some (r, dev) => Some (r, set_cmd_dev cmd dev)
  | None => None
  end.

(** A function of the data of a resource, run on the resource. *)
Definition on_data {D A : Type} (f : D -> option (A * D)) : M (sid_resource D) A :=
  fun res =>
    match f (res_data res) with
    | Some (a, d) => Some (a, mk_resource (res_id res) d, [])
    | None => None
    end.

Definition _init_device : M (sid_resource command) Z :=
  r <- on_data _parse_cmd_nullstr_udev_env ;;
  if r <? 0 then
    log_error_errno r "Failed to parse udev environment variables." ;;;
    ret (-1)
  else ret 0.

(** ** Commands *)

(** [struct command_reg]. *)
Record command_reg : Type := mk_command_reg {
  name : string;
  execute : M (sid_resource command) Z
}.

(** Modelled from the spec: buffer.c is not among the sources. The spec:
    on a vector-shape buffer, append records a (ptr, len) entry; in
    size-prefix mode the first 4 bytes hold the length of the whole
    frame, prefix included; write sends the current frame. An entry is
    a pointer, so the header sent is [response_header] as it is when
    [buffer_write] is called. *)
Definition buffer_add (buf : list iov_ref) (entry : iov_ref) : list iov_ref :=
  buf ++ [entry].

Definition iov_resolve (response_header : raw_command_header) (e : iov_ref) : iov_data :=
  match e with
  | ref_response_header => data_header response_header
  | ref_this_version => data_version
  end.

Definition buffer_frame (buf : list iov_ref) (response_header : raw_command_header) : frame :=
  let iov := map (iov_resolve response_header) buf in
  mk_frame (4 + fold_right (fun d n => iov_len d + n) 0 iov) iov.

Definition buffer_write {S : Type} (buf : list iov_ref)
           (response_header : raw_command_header) (fd : Z) : M S unit :=
  emit (ev_buffer_write fd (buffer_frame buf response_header)).

Definition _cmd_execute_unknown : M (sid_resource command) Z := ret 0.

Definition _cmd_execute_reply : M (sid_resource command) Z := ret 0.

Definition _cmd_execute_version : M (sid_resource command) Z :=
  cmd <- get_data ;;
  set_data (set_result_buf cmd (buffer_add (result_buf cmd) ref_this_version)) ;;;
  ret 0.

Definition _cmd_execute_identify_ident : M (sid_resource command) Z := ret 0.
Definition _cmd_execute_identify_scan_pre : M (sid_resource command) Z := ret 0.
Definition _cmd_execute_identify_scan_core_current : M (sid_resource command) Z := ret 0.
Definition _cmd_execute_identify_scan_core_next_basic : M (sid_resource command) Z := ret 0.
Definition _cmd_execute_identify_scan_core_next_extended : M (sid_resource command) Z := ret 0.
Definition _cmd_execute_identify_scan_post : M (sid_resource command) Z := ret 0.

Definition _cmd_ident_phase_regs : list command_reg :=
  [ mk_command_reg "ident" _cmd_execute_identify_ident;
    mk_command_reg "scan-pre" _cmd_execute_identify_scan_pre;
    mk_command_reg "scan-core-current" _cmd_execute_identify_scan_core_current;
    mk_command_reg "scan-core-next-basic" _cmd_execute_identify_scan_core_next_basic;
    mk_command_reg "scan-core-next-extended" _cmd_execute_identify_scan_core_next_extended;
    mk_command_reg "scan-post" _cmd_execute_identify_scan_post ].

(** The body of the [for] loop of [_cmd_execute_identify] over the
    phases still to run; [r] is the value of the C variable on entry. *)
Fixpoint _cmd_execute_identify_loop (phase_regs : list command_reg)
         (phases : list nat) (r : Z) : M (sid_resource command) Z :=
  match phases with
  | [] => ret r
  | phase :: rest =>
    match nth_error phase_regs phase with
    | None => undefined
    | Some reg =>
      log_debug ("Executing " ++ name reg ++ " phase.")%string ;;;
      emit (ev_phase_call phase) ;;;
      r <- execute reg ;;
      if r <? 0 then
        log_error (name reg ++ " phase failed.")%string ;;;
        ret r
      else _cmd_execute_identify_loop phase_regs rest r
    end
  end.

(** The phases from [__CMD_IDENT_PHASE_START] to [__CMD_IDENT_PHASE_END]
    inclusive. *)
Definition ident_phases : list nat :=
  seq __CMD_IDENT_PHASE_START (S __CMD_IDENT_PHASE_END - __CMD_IDENT_PHASE_START).

(** [_cmd_execute_identify], the phase table being its argument. The
    condition is [(r = _init_device(cmd_res) < 0)]: [r] receives the
    value of the comparison, 1 or 0. *)
Definition _cmd_execute_identify (phase_regs : list command_reg)
  : M (sid_resource command) Z :=
  r0 <- _init_device ;;
  let r := if r0 <? 0 then 1 else 0 in
  if negb (r =? 0) then ret r
  else _cmd_execute_identify_loop phase_regs ident_phases r.

Definition _cmd_execute_checkpoint : M (sid_resource command) Z := ret 0.

Definition _command_regs : list command_reg :=
  [ mk_command_reg "unknown" _cmd_execute_unknown;
    mk_command_reg "reply" _cmd_execute_reply;
    mk_command_reg "version" _cmd_execute_version;
    mk_command_reg "identify" (_cmd_execute_identify _cmd_ident_phase_regs);
    mk_command_reg "checkpoint" _cmd_execute_checkpoint ].

(** [regs[type]]; an index outside the table has no defined result. *)
Definition command_reg_at (regs : list command_reg) (type : Z) : option command_reg :=
  if type <? 0 then None else nth_error regs (Z.to_nat type).

Definition set_hdr_protocol (h : raw_command_header) (v : Z) : raw_command_header :=
  mk_header v (hdr_cmd_number h) (hdr_status h).

Definition set_hdr_status (h : raw_command_header) (v : Z) : raw_command_header :=
  mk_header (hdr_protocol h) (hdr_cmd_number h) v.

Definition set_hdr_cmd_number (h : raw_command_header) (v : Z) : raw_command_header :=
  mk_header (hdr_protocol h) v (hdr_status h).

(** [_cmd_handler], the command table being its argument and [worker]
    the data of the parent of the command. The local [response_header]
    starts as [{0}]; what the branch on the protocol leaves is the pair
    of [r] and [response_header]. *)
Definition _cmd_handler (regs : list command_reg) (worker : worker)
  : M (sid_resource command) Z :=
  let response_header := mk_header 0 0 0 in
  cmd <- get_data ;;
  set_data (set_result_buf cmd (buffer_add (result_buf cmd) ref_response_header)) ;;;
  st <- (if cmd_protocol cmd <=? UBRIDGE_PROTOCOL then
           let response_header := set_hdr_protocol response_header (cmd_protocol cmd) in
           match command_reg_at regs (cmd_type cmd) with
           | None => undefined
           | Some reg =>
             r <- execute reg ;;
             (if r <? 0 then log_error_errno r "Failed to execute command"
              else ret tt) ;;;
             ret (r, response_header)
           end
         else ret (-1, response_header)) ;;
  let r := fst st in
  let response_header := snd st in
  let response_header :=
    if r <? 0
    then set_hdr_status response_header
           (Z.lor (hdr_status response_header) COMMAND_STATUS_FAILURE)
    else response_header in
  cmd <- get_data ;;
  buffer_write (result_buf cmd) response_header (wrk_conn_fd worker) ;;;
  ret r.

(** The frame that the handler wrote: [buffer_write] is the last thing
    it does. *)
Definition written_frame (evs : list event) : option frame :=
  match rev evs with
  | ev_buffer_write _ f :: _ => Some f
  | _ => None
  end.

(** The response header of a frame: the header entry that comes first. *)
Definition frame_header (f : frame) : option raw_command_header :=
  match find (fun d => match d with data_header _ => true | _ => false end) (frame_iov f) with
  | Some (data_header h) => Some h
  | _ => None
  end.

(** The status of the response that a run of the handler sent. *)
Definition response_status (evs : list event) : option Z :=
  match written_frame evs with
  | Some f => option_map hdr_status (frame_header f)
  | None => None
  end.

Definition response_cmd_number (evs : list event) : option Z :=
  match written_frame evs with
  | Some f => option_map hdr_cmd_number (frame_header f)
  | None => None
  end.

(** The phases called, in order. *)
Definition phase_calls (evs : list event) : list nat :=
  flat_map (fun e => match e with ev_phase_call p => [p] | _ => [] end) evs.

(** ** Creation of a command *)

(** The device of a zero-allocated command, [raw_udev_env] being set.
    The enumerator of [udev_action_t] with value 0 is taken to be
    [UDEV_ACTION_UNKNOWN]. *)
Definition zeroed_device (env : string) (len : nat) : device :=
  mk_device UDEV_ACTION_UNKNOWN 0 0 None None 0 None env len.

(** [_init_command] where its allocations succeed: the length of the
    environment is [raw_cmd->len - sizeof(struct raw_command_header)],
    the status is truncated to 16 bits, and the deferred event source
    is registered with [_cmd_handler]. *)
Definition _init_command (raw_cmd : raw_command) : command :=
  let len := Z.to_nat (wrap 64 (rc_len raw_cmd - sizeof_raw_command_header)) in
  mk_command (hdr_protocol (rc_header raw_cmd))
             (hdr_cmd_number (rc_header raw_cmd))
             (wrap 16 (hdr_status (rc_header raw_cmd)))
             true
             (zeroed_device (take len (rc_data raw_cmd)) len)
             [].

(** ** The worker's connection *)

(** Which of the allocations and registrations of the creation of a
    command succeed: the node of [sid_resource_create] and the four
    steps of [_init_command]. *)
Record command_init_env : Type := mk_command_init_env {
  ci_node_ok : bool;       (* the node of sid_resource_create *)
  ci_alloc_ok : bool;      (* zalloc of the command structure *)
  ci_buf_ok : bool;        (* buffer_create *)
  ci_env_ok : bool;        (* malloc(raw_udev_env_len) *)
  ci_es_ok : bool          (* sid_resource_create_deferred_event_source *)
}.

(** What the environment answers during [_on_worker_conn_event].
    [env_short] tells that the frame is shorter than a header
    ([raw_stream_len < sizeof(struct raw_command_header)], which a
    length prefix of 4 to 13 gives): [env_raw_cmd] then has the bytes
    that the buffer holds at the place of the header, and no data. *)
Record conn_env : Type := mk_conn_env {
  env_pid : Z;               (* getpid() *)
  env_read : Z;              (* buffer_read(worker->buf, fd) *)
  env_errno : Z;             (* errno after it *)
  env_complete : bool;       (* buffer_is_complete(worker->buf) *)
  env_short : bool;          (* raw_stream_len < sizeof(struct raw_command_header) *)
  env_raw_cmd : raw_command; (* the frame that buffer_get_data gives *)
  env_create : command_init_env;
  env_iter_ok : bool;        (* whether sid_resource_iter_create of _worker_cleanup succeeds *)
  env_send : Z               (* comms_unix_send(...) of _worker_cleanup *)
}.

(** ["%d"]: the decimal digits of [n] before [acc], the most significant
    first; [fuel] is the number of digits that may follow the last one,
    9 for an [int]. *)
Fixpoint decimal (fuel : nat) (n : Z) (acc : string) : string :=
  let acc' := String (ascii_of_N (Z.to_N (48 + n mod 10))) acc in
  match fuel with
  | O => acc'
  | S fuel' => if n / 10 =? 0 then acc' else decimal fuel' (n / 10) acc'
  end.

Definition string_of_int (n : Z) : string :=
  if n <? 0 then String "-" (decimal 9 (- n) EmptyString)
  else decimal 9 n EmptyString.

Definition set_wrk_commands (w : worker) (l : list (sid_resource command)) : worker :=
  mk_worker (wrk_comms_fd w) (wrk_conn_fd w) (wrk_conn_es w) l.

Definition set_wrk_conn_es (w : worker) (b : bool) : worker :=
  mk_worker (wrk_comms_fd w) (wrk_conn_fd w) b (wrk_commands w).

Definition emit_all {S : Type} (evs : list event) : M S unit :=
  fun s => Some (tt, s, evs).

(** [_init_command] with its failure paths: the command, or nothing
    when a step fails, and what is logged for the new resource [id].
    [short] tells that [raw_cmd->len] is less than the size of a
    header: [raw_udev_env_len] is then [len - 10] wrapped around, at
    least 2^64 - 10, which [malloc] does not give. On success the
    command is [_init_command raw_cmd]. *)
Definition _init_command_hook (c : command_init_env) (short : bool) (id : string)
           (raw_cmd : raw_command) : option command * list event :=
  if negb (ci_alloc_ok c) then
    (None, [ev_log_error id "Failed to allocate new command structure."])
  else if negb (ci_buf_ok c) then
    (None, [ev_log_error id "Failed to create response buffer."])
  else if short || negb (ci_env_ok c) then
    (None, [ev_log_error id "Failed to allocate memory for command's environment variables."])
  else if negb (ci_es_ok c) then
    (None, [ev_log_error id "Failed to register command handler."])
  else (Some (_init_command raw_cmd), []).

(** Modelled from the spec: resource.c is not among the sources. The
    spec: create allocates the node, appends it to the parent's child
    list and invokes the init hook of the type on the kickstart data;
    creation fails when an allocation fails or when the hook fails, and
    the parent is then left as it was. The result tells whether a
    resource was created. *)
Definition sid_resource_create_command (c : command_init_env) (short : bool) (id : string)
           (raw_cmd : raw_command) : M (sid_resource worker) bool :=
  if negb (ci_node_ok c) then ret false
  else
    match _init_command_hook c short id raw_cmd with
    | (Some cmd, evs) =>
      emit_all evs ;;;
      w <- get_data ;;
      set_data (set_wrk_commands w (wrk_commands w ++ [mk_resource id cmd])) ;;;
      ret true
    | (None, evs) =>
      emit_all evs ;;;
      ret false
    end.

(** Modelled from the spec: the iterator of resource.c is not among the
    sources. The spec: the children of a resource are ordered by
    insertion and an iterator walks them forward; its creation
    allocates, and gives NULL when the allocation fails. [ok] tells
    whether it succeeds; the iterator is the list of the children still
    to come. *)
Definition sid_resource_iter_create {A : Type} (ok : bool) (children : list A)
  : option (list A) :=
  if ok then Some children else None.

(** [_worker_cleanup]; [iter_ok] tells whether the iterator is created
    and [send_ret] is what [comms_unix_send] returns. Without an
    iterator the function returns -1 at once: nothing is destroyed and
    nothing is sent. Otherwise every child that the iterator gives is
    destroyed (all the children of a worker are commands), the event
    source of the connection too, and IDLE is sent to the observer. *)
Definition _worker_cleanup (iter_ok : bool) (send_ret : Z) : M (sid_resource worker) Z :=
  w <- get_data ;;
  match sid_resource_iter_create iter_ok (wrk_commands w) with
  | None => ret (-1)
  | Some _ =>
    set_data (set_wrk_conn_es (set_wrk_commands w []) false) ;;;
    emit (ev_comms_send (wrk_comms_fd w) (Some INTERNAL_COMMS_CMD_IDLE) (-1)) ;;;
    if send_ret =? 0 then ret (-1) else ret 0
  end.

(** [_on_worker_conn_event]. The command number of the frame is
    sanitised in place, before the identifier is built and the command
    resource created. [snprintf] is given the size 31 and writes at
    most 30 characters. *)
Definition _on_worker_conn_event (env : conn_env) (revents : Z)
  : M (sid_resource worker) Z :=
  if negb (Z.land revents EPOLLERR =? 0) then
    (if negb (Z.land revents EPOLLHUP =? 0)
     then log_error "Peer connection closed prematurely."
     else log_error "Connection error.") ;;;
    _worker_cleanup (env_iter_ok env) (env_send env) ;;;
    ret (-1)
  else
    let n := env_read env in
    if 0 <? n then
      (if env_complete env then
         let raw_cmd := env_raw_cmd env in
         let header := rc_header raw_cmd in
         let header :=
           if (hdr_cmd_number header <=? __CMD_START) || (__CMD_END <=? hdr_cmd_number header)
           then set_hdr_cmd_number header CMD_UNKNOWN
           else header in
         let raw_cmd := mk_raw_command header (rc_data raw_cmd) in
         match command_reg_at _command_regs (hdr_cmd_number header) with
         | None => undefined
         | Some reg =>
           let id := take 30 (string_of_int (env_pid env) ++ "/" ++ name reg)%string in
           created <- sid_resource_create_command (env_create env) (env_short env)
                                                  id raw_cmd ;;
           if created then ret tt
           else log_error "Failed to register command for processing."
         end
       else ret tt) ;;;
      ret 0
    else
      if (n <? 0) && ((env_errno env =? EAGAIN) || (env_errno env =? EINTR)) then ret 0
      else
        (if n <? 0 then
           res <- get_state ;; emit (ev_log_sys_error (ID res) "buffer_read_msg")
         else ret tt) ;;;
        c <- _worker_cleanup (env_iter_ok env) (env_send env) ;;
        if c <? 0 then ret (-1)
        else ret (if n <? 0 then -1 else 0).

(** ** The observer *)

(** What [comms_unix_recv] answers: its result, [buf[0]] after the call
    and the descriptor received. *)
Record recv_result : Type := mk_recv {
  recv_ret : Z;
  recv_buf0 : Z;
  recv_fd : Z
}.

Definition set_worker_state (o : observer) (st : worker_state_t) : observer :=
  mk_observer (obs_worker_pid o) (obs_comms_fd o) (obs_comms_es o) (obs_child_es o)
              (idle_timeout_es o) st.

Definition set_idle_timeout_es (o : observer) (es : option time_event_source) : observer :=
  mk_observer (obs_worker_pid o) (obs_comms_fd o) (obs_comms_es o) (obs_child_es o)
              es (worker_state o).

(** Modelled from the spec: resource.c is not among the sources. The
    spec: an event source is registered with the event loop and owned by
    the resource that created it; the code stores its handle in the
    observer's [idle_timeout_es], and destroying it clears the handle.
    The registration is taken to succeed. *)
Definition sid_resource_create_time_event_source (clock usec accuracy : Z)
  : M (sid_resource observer) Z :=
  o <- get_data ;;
  set_data (set_idle_timeout_es o (Some (mk_timer clock usec accuracy))) ;;;
  ret 0.

Definition sid_resource_destroy_idle_timeout_es : M (sid_resource observer) Z :=
  o <- get_data ;;
  set_data (set_idle_timeout_es o None) ;;;
  ret 0.

(** The handler of the idle timer. *)
Definition _on_idle_task_timeout_event : M (sid_resource observer) Z :=
  log_debug "Idle timeout expired." ;;;
  o <- get_data ;;
  set_data (set_worker_state o WORKER_FINI) ;;;
  log_debug "Worker state changed to WORKER_FINI." ;;;
  emit (ev_kill (obs_worker_pid o) SIGTERM) ;;;
  ret 0.

(** [_on_observer_comms_event]; [now] is
    [util_get_now_usec(CLOCK_MONOTONIC)]. *)
Definition _on_observer_comms_event (rcv : recv_result) (now : Z)
  : M (sid_resource observer) Z :=
  if recv_ret rcv <? 0 then ret (-1)
  else
    (if recv_buf0 rcv =? INTERNAL_COMMS_CMD_RUNNING then
       o <- get_data ;;
       set_data (set_worker_state o WORKER_RUNNING) ;;;
       log_debug "Worker state changed to WORKER_RUNNING."
     else if recv_buf0 rcv =? INTERNAL_COMMS_CMD_IDLE then
       let timeout_usec := wrap 64 (now + WORKER_IDLE_TIMEOUT_USEC) in
       sid_resource_create_time_event_source CLOCK_MONOTONIC timeout_usec 0 ;;;
       o <- get_data ;;
       set_data (set_worker_state o WORKER_IDLE) ;;;
       log_debug "Worker state changed to WORKER_IDLE."
     else ret tt) ;;;
    ret 0.

(** [_accept_connection_and_pass_to_worker] on an existing observer;
    [conn_fd] is what [accept4] gives, [send_ret] what
    [comms_unix_send] gives, [ubridge_id] the identifier of the ubridge
    resource. *)
Definition _accept_connection_and_pass_to_worker (ubridge_id : string)
           (conn_fd send_ret : Z) : M (sid_resource observer) Z :=
  if conn_fd <? 0 then
    emit (ev_log_sys_error ubridge_id "accept") ;;;
    ret (-1)
  else
    o <- get_data ;;
    emit (ev_comms_send (obs_comms_fd o) None conn_fd) ;;;
    if send_ret <? 0 then
      emit (ev_log_sys_error ubridge_id "comms_unix_send") ;;;
      emit (ev_close conn_fd) ;;;
      ret (-1)
    else
      emit (ev_close conn_fd) ;;;
      sid_resource_destroy_idle_timeout_es ;;;
      o <- get_data ;;
      set_data (set_worker_state o WORKER_INIT) ;;;
      log_debug "Worker state changed to WORKER_INIT." ;;;
      ret 0.

(** ** What the specification says of a payload *)

(** Whether the character [c] occurs in [s]. *)
Fixpoint string_has (c : ascii) (s : string) : bool :=
  match s with
  | EmptyString => false
  | String a r => Ascii.eqb a c || string_has c r
  end.

(** A payload as a concatenation of NUL-terminated entries: the
    entries, and what remains after the last NUL. *)
Fixpoint nul_split (s : string) : list string * string :=
  match s with
  | EmptyString => ([], EmptyString)
  | String c r =>
    let (es, rest) := nul_split r in
    if Ascii.eqb c NUL then (EmptyString :: es, rest)
    else match es with
         | [] => ([], String c rest)
         | e :: es' => (String c e :: es', rest)
         end
  end.

Definition entries (payload : string) : list string := fst (nul_split payload).
Definition unterminated (payload : string) : string := snd (nul_split payload).

(** Some entry contains no '=', or the remaining payload contains no
    NUL terminator. *)
Definition malformed (payload : string) : Prop :=
  (exists e, In e (entries payload) /\ string_has "=" e = false)
  \/ unterminated payload <> EmptyString.

(** The recognised keys. *)
Definition recognised_keys : list string :=
  [ "ACTION"; "DEVNAME"; "DEVTYPE"; "MAJOR"; "MINOR"; "SEQNUM"; "SYNTH_UUID" ].

(** Whether [k] is a prefix of [s]. *)
Fixpoint is_prefix (k s : string) : bool :=
  match k, s with
  | EmptyString, _ => true
  | String a k', String b s' => Ascii.eqb a b && is_prefix k' s'
  | String _ _, EmptyString => false
  end.

(** ** Auxiliary definitions: the results in closed form and the inputs
    of the examples *)

(** The result that the specification gives for a payload. *)
Definition malformedb (payload : string) : bool :=
  existsb (fun e => negb (string_has "=" e)) (entries payload)
  || negb (String.eqb (unterminated payload) EmptyString).

Definition nul : string := String NUL EmptyString.

(** The payload of the identify scenario of the specification. *)
Definition identify_payload : string :=
  ("ACTION=add" ++ nul ++ "MAJOR=8" ++ nul ++ "MINOR=0" ++ nul ++ "SEQNUM=42" ++ nul)%string.

Definition identify_request (payload : string) : raw_command :=
  mk_raw_command (mk_header UBRIDGE_PROTOCOL CMD_IDENTIFY 0) payload.

Definition empty_value_command : command :=
  _init_command (identify_request ("DEVNAME=" ++ nul ++ "MAJOR=8" ++ nul)%string).

Definition init_device_failure_msg : string :=
  "Failed to parse udev environment variables.".

(** What the loop emits with the phase table of the code: every phase
    is announced and called, returns 0 and changes nothing. *)
Definition six_phases_events (id : string) : list event :=
  [ ev_log_debug id "Executing ident phase."; ev_phase_call 0;
    ev_log_debug id "Executing scan-pre phase."; ev_phase_call 1;
    ev_log_debug id "Executing scan-core-current phase."; ev_phase_call 2;
    ev_log_debug id "Executing scan-core-next-basic phase."; ev_phase_call 3;
    ev_log_debug id "Executing scan-core-next-extended phase."; ev_phase_call 4;
    ev_log_debug id "Executing scan-post phase."; ev_phase_call 5 ].

(** A phase table whose scan-pre phase fails. *)
Definition failing_scan_pre_regs : list command_reg :=
  [ mk_command_reg "ident" _cmd_execute_identify_ident;
    mk_command_reg "scan-pre" (ret (-5));
    mk_command_reg "scan-core-current" _cmd_execute_identify_scan_core_current;
    mk_command_reg "scan-core-next-basic" _cmd_execute_identify_scan_core_next_basic;
    mk_command_reg "scan-core-next-extended" _cmd_execute_identify_scan_core_next_extended;
    mk_command_reg "scan-post" _cmd_execute_identify_scan_post ].

Definition identify_resource : sid_resource command :=
  mk_resource "1234/identify" (_init_command (identify_request identify_payload)).

Definition execute_failure_msg : string := "Failed to execute command".

(** The command resource once the response header is added to its
    result buffer. *)
Definition with_response_header (res : sid_resource command) : sid_resource command :=
  mk_resource (res_id res)
    (set_result_buf (res_data res)
       (buffer_add (result_buf (res_data res)) ref_response_header)).

(** The response header at the time of [buffer_write]. *)
Definition final_response_header (protocol r : Z) : raw_command_header :=
  mk_header protocol 0 (if r <? 0 then COMMAND_STATUS_FAILURE else 0).

Definition some_worker : worker := mk_worker 3 7 true [].

(** The version request of the specification: protocol 1, command 2,
    status 0, no payload. *)
Definition version_resource : sid_resource command :=
  mk_resource "1234/version"
    (_init_command (mk_raw_command (mk_header UBRIDGE_PROTOCOL CMD_VERSION 0) EmptyString)).

Definition add_command (res : sid_resource worker) (cmd_res : sid_resource command)
  : sid_resource worker :=
  mk_resource (res_id res)
    (set_wrk_commands (res_data res) (wrk_commands (res_data res) ++ [cmd_res])).

(** The command resource created for a frame whose command number is
    out of range. *)
Definition unknown_command (env : conn_env) : sid_resource command :=
  mk_resource (string_of_int (env_pid env) ++ "/unknown")
    (_init_command
       (mk_raw_command (set_hdr_cmd_number (rc_header (env_raw_cmd env)) CMD_UNKNOWN)
                       (rc_data (env_raw_cmd env)))).

(** A frame with the command number 99 and the protocol 2, and what the
    environment answers when it is read. *)
Definition all_created : command_init_env :=
  mk_command_init_env true true true true true.

Definition unsupported_protocol_env : conn_env :=
  mk_conn_env 1234 14 0 true false (mk_raw_command (mk_header 2 99 0) EmptyString)
              all_created true 1.

Definition supported_protocol_env : conn_env :=
  mk_conn_env 1234 14 0 true false (mk_raw_command (mk_header 1 99 0) EmptyString)
              all_created true 1.

Definition worker_resource : sid_resource worker := mk_resource "1234" some_worker.

Definition running_msg : string := "Worker state changed to WORKER_RUNNING.".
Definition idle_msg : string := "Worker state changed to WORKER_IDLE.".
Definition init_msg : string := "Worker state changed to WORKER_INIT.".
Definition fini_msg : string := "Worker state changed to WORKER_FINI.".

(** The timer that a report of IDLE arms. *)
Definition idle_timer (now : Z) : time_event_source :=
  mk_timer CLOCK_MONOTONIC (wrap 64 (now + WORKER_IDLE_TIMEOUT_USEC)) 0.

Definition idle_timer_example : time_event_source := idle_timer 1000.

(** An observer whose worker is idle, the idle timer being armed. *)
Definition armed_observer : sid_resource observer :=
  mk_resource "4321" (mk_observer 4321 5 true true (Some idle_timer_example) WORKER_IDLE).

(** ** The decoding, entry by entry *)

(** The entries given to [_device_add_field] in order, up to the first
    that it refuses. *)
Fixpoint decode_entries (es : list string) (dev : device) : Z * device :=
  match es with
  | [] => (0, dev)
  | e :: es' =>
    let (r, dev') := _device_add_field dev e in
    if r <? 0 then (- EINVAL, dev') else decode_entries es' dev'
  end.

(** A payload decoded as its entries, what remains after the last NUL
    being an error. *)
Definition decode_payload (payload : string) (dev : device) : Z * device :=
  let (r, dev') := decode_entries (entries payload) dev in
  if r <? 0 then (r, dev')
  else if String.eqb (unterminated payload) EmptyString then (0, dev')
       else (- EINVAL, dev').

(** The device after the entries [es], each one being accepted. *)
Definition add_fields (es : list string) (dev : device) : device :=
  fold_left (fun d e => snd (_device_add_field d e)) es dev.

(** What the branch of a recognised key does with the value, [key_len]
    being the length of the key of the entry. *)
Definition apply_key (key : string) (key_len : nat) (value : string) (dev : device)
  : device :=
  if String.eqb key "ACTION" then
    set_dev_action dev (util_get_udev_action_from_string value)
  else if String.eqb key "DEVNAME" then set_dev_name dev value
  else if String.eqb key "DEVTYPE" then set_dev_type dev value
  else if String.eqb key "MAJOR" then set_dev_major dev (atoi value)
  else if String.eqb key "MINOR" then set_dev_minor dev (atoi value)
  else if String.eqb key "SEQNUM" then
    set_dev_seqnum dev (strtoull value (Z.of_nat key_len))
  else if String.eqb key "SYNTH_UUID" then set_dev_synth_uuid dev value
  else dev.

(** The payload made of the entries [es], each one NUL-terminated. *)
Fixpoint payload_of (es : list string) : string :=
  match es with
  | [] => EmptyString
  | e :: es' => (e ++ String NUL (payload_of es'))%string
  end.

Definition command_of_payload (payload : string) : command :=
  _init_command (identify_request payload).

(** ** The worker's control channel *)

Definition set_wrk_conn_fd (w : worker) (fd : Z) : worker :=
  mk_worker (wrk_comms_fd w) fd (wrk_conn_es w) (wrk_commands w).

(** [_on_worker_comms_event]; [rcv] is what [comms_unix_recv] answers,
    [es_ret] what [sid_resource_create_io_event_source] returns for the
    connection, [send_ret] what [comms_unix_send] returns. *)
Definition _on_worker_comms_event (rcv : recv_result) (es_ret send_ret : Z)
  : M (sid_resource worker) Z :=
  if recv_ret rcv <? 0 then ret (-1)
  else if negb (recv_fd rcv =? -1) then
    w <- get_data ;;
    set_data (set_wrk_conn_fd w (recv_fd rcv)) ;;;
    if es_ret <? 0 then
      log_error "Failed to register new connection." ;;;
      ret (-1)
    else
      w <- get_data ;;
      set_data (set_wrk_conn_es w true) ;;;
      emit (ev_comms_send (wrk_comms_fd w) (Some INTERNAL_COMMS_CMD_RUNNING) (-1)) ;;;
      if send_ret =? 0 then ret (-1) else ret 0
  else ret 0.

(** ** Closed forms for the worker and its commands *)

(** The command number after the sanitising of [_on_worker_conn_event]. *)
Definition sanitised (cmd_number : Z) : Z :=
  if (cmd_number <=? __CMD_START) || (__CMD_END <=? cmd_number)
  then CMD_UNKNOWN else cmd_number.

Definition command_name (type : Z) : string :=
  match command_reg_at _command_regs type with
  | Some reg => name reg
  | None => EmptyString
  end.

(** The command resource that a complete frame gives. *)
Definition created_command (env : conn_env) : sid_resource command :=
  let c := sanitised (hdr_cmd_number (rc_header (env_raw_cmd env))) in
  mk_resource (string_of_int (env_pid env) ++ "/" ++ command_name c)
    (_init_command
       (mk_raw_command (set_hdr_cmd_number (rc_header (env_raw_cmd env)) c)
                       (rc_data (env_raw_cmd env)))).

(** The worker after [_worker_cleanup]. *)
Definition cleaned_up (res : sid_resource worker) : sid_resource worker :=
  mk_resource (res_id res)
    (mk_worker (wrk_comms_fd (res_data res)) (wrk_conn_fd (res_data res)) false []).

(** The messages sent on a control channel, the descriptors closed and
    the signals sent, in order. *)
Definition comms_sent (evs : list event) : list (Z * option Z * Z) :=
  flat_map (fun e => match e with
                     | ev_comms_send fd b fd_sent => [(fd, b, fd_sent)]
                     | _ => []
                     end) evs.

Definition closed_fds (evs : list event) : list Z :=
  flat_map (fun e => match e with ev_close fd => [fd] | _ => [] end) evs.

Definition signals_sent (evs : list event) : list (Z * Z) :=
  flat_map (fun e => match e with ev_kill pid sig => [(pid, sig)] | _ => [] end) evs.

Definition an_observer : sid_resource observer :=
  mk_resource "4321" (mk_observer 4321 5 true true None WORKER_RUNNING).

Definition busy_worker : sid_resource worker :=
  mk_resource "1234"
    (mk_worker 3 7 true [mk_resource "1234/version" (command_of_payload EmptyString)]).

(** ** The ubridge: its observers, the spawning of a worker and the
    dispatch of a connection *)

Definition EXIT_FAILURE : Z := 1.
Definition CLD_EXITED : Z := 1.
Definition CLD_KILLED : Z := 2.
Definition CLD_DUMPED : Z := 3.

(** [struct ubridge]; [ubr_es] tells whether the event source of the
    socket is registered. [ubr_observers] are the children of the
    ubridge resource, in the order of their creation: all of them are
    observer resources. *)
Record ubridge : Type := mk_ubridge {
  ubr_socket_fd : Z;
  ubr_es : bool;
  ubr_observers : list (sid_resource observer)
}.

Definition set_ubr_observers (u : sid_resource ubridge) (l : list (sid_resource observer))
  : sid_resource ubridge :=
  mk_resource (res_id u) (mk_ubridge (ubr_socket_fd (res_data u)) (ubr_es (res_data u)) l).

(** [struct kickstart]. *)
Record kickstart : Type := mk_kickstart {
  ks_worker_pid : Z;
  ks_comms_fd : Z
}.

(** What a process does besides the events of the handlers: the calls
    around [fork], the destruction of the inherited resource tree and
    the exit of the process. *)
Inductive sys_event : Type :=
| sys_ev (e : event)
| sys_socketpair (fd0 fd1 : Z)        (* socketpair gave the pair *)
| sys_sigprocmask_block (ret : Z)     (* sigprocmask(SIG_SETMASK, &new_sigmask, &original_sigmask) *)
| sys_fork (ret : Z)
| sys_sigprocmask_restore (ret : Z)   (* sigprocmask(SIG_SETMASK, &original_sigmask, NULL) *)
| sys_destroy_tree (ret : Z)          (* sid_resource_destroy of the top level, in the child *)
| sys_destroy_observer (id : string)  (* sid_resource_destroy of an observer *)
| sys_exit (code : Z).

(** Which of the allocations and registrations of [_init_observer] and
    of [_init_worker] succeed. *)
Record observer_init_env : Type := mk_observer_init_env {
  oi_alloc_ok : bool;
  oi_child_es_ok : bool;
  oi_comms_es_ok : bool
}.

Record worker_init_env : Type := mk_worker_init_env {
  wi_alloc_ok : bool;
  wi_sigterm_es_ok : bool;
  wi_sigint_es_ok : bool;
  wi_comms_es_ok : bool;
  wi_buf_ok : bool
}.

(** [_init_observer]: the observer on success, and what is logged for
    the resource [id]. On failure the event sources that were created
    are destroyed and the structure is freed. *)
Definition _init_observer (env : observer_init_env) (id : string) (ks : kickstart)
  : option observer * list event :=
  if negb (oi_alloc_ok env) then
    (None, [ev_log_error id "Failed to allocate new observer structure."])
  else if negb (oi_child_es_ok env) then
    (None, [ev_log_error id "Failed to register child process monitoring."])
  else if negb (oi_comms_es_ok env) then
    (None, [ev_log_error id "Failed to register worker <-> observer channel."])
  else
    (Some (mk_observer (ks_worker_pid ks) (ks_comms_fd ks) true true None WORKER_IDLE), []).

(** [_init_worker]: no connection yet ([conn_fd] is -1). The second
    signal source is not created when the first failed. *)
Definition _init_worker (env : worker_init_env) (id : string) (ks : kickstart)
  : option worker * list event :=
  if negb (wi_alloc_ok env) then
    (None, [ev_log_error id "Failed to allocate new worker structure."])
  else if negb (wi_sigterm_es_ok env) || negb (wi_sigint_es_ok env) then
    (None, [ev_log_error id "Failed to create signal handlers."])
  else if negb (wi_comms_es_ok env) then
    (None, [ev_log_error id "Failed to register worker <-> observer channel."])
  else if negb (wi_buf_ok env) then
    (None, [ev_log_error id "Failed to create buffer for connection."])
  else (Some (mk_worker (ks_comms_fd ks) (-1) false []), []).

(** [_destroy_observer]: the idle timer is destroyed when there is one,
    then the two other event sources, and the control channel is
    closed. *)
Definition _destroy_observer (res : sid_resource observer) : list event :=
  [ev_close (obs_comms_fd (res_data res))].

Definition worker_state_eqb (a b : worker_state_t) : bool :=
  match a, b with
  | WORKER_IDLE, WORKER_IDLE => true
  | WORKER_INIT, WORKER_INIT => true
  | WORKER_RUNNING, WORKER_RUNNING => true
  | WORKER_FINI, WORKER_FINI => true
  | _, _ => false
  end.

(** The loop of [_find_observer_for_idle_worker] over the children from
    the [i]-th on: the result is the position of the child at which the
    loop breaks. *)
Fixpoint _find_observer_for_idle_worker_loop (l : list (sid_resource observer)) (i : nat)
  : option nat :=
  match l with
  | [] => None
  | res :: rest =>
    if worker_state_eqb (worker_state (res_data res)) WORKER_IDLE then Some i
    else _find_observer_for_idle_worker_loop rest (S i)
  end.

(** [_find_observer_for_idle_worker]; [iter_ok] tells whether the
    iterator is created: without it the function returns NULL at once.
    A resource is named by its position among the children, all of
    which are observers. *)
Definition _find_observer_for_idle_worker (iter_ok : bool)
           (ubridge_res : sid_resource ubridge) : option nat :=
  match sid_resource_iter_create iter_ok (ubr_observers (res_data ubridge_res)) with
  | None => None
  | Some iter => _find_observer_for_idle_worker_loop iter 0
  end.

(** The children with the [i]-th replaced. *)
Fixpoint replace_nth {A : Type} (i : nat) (x : A) (l : list A) : list A :=
  match l, i with
  | [], _ => []
  | _ :: rest, O => x :: rest
  | y :: rest, S i' => y :: replace_nth i' x rest
  end.

Fixpoint remove_nth {A : Type} (i : nat) (l : list A) : list A :=
  match l, i with
  | [], _ => []
  | _ :: rest, O => rest
  | y :: rest, S i' => y :: remove_nth i' rest
  end.

(** What the environment answers during [_spawn_worker]. *)
Record spawn_env : Type := mk_spawn_env {
  sp_socketpair : Z;            (* socketpair(...) *)
  sp_comms_fd0 : Z;             (* comms_fd[0] *)
  sp_comms_fd1 : Z;             (* comms_fd[1] *)
  sp_sigfillset : Z;            (* sigfillset(...) *)
  sp_sigprocmask : Z;           (* sigprocmask that blocks *)
  sp_fork : Z;                  (* fork() *)
  sp_getpid : Z;                (* getpid() in the child *)
  sp_destroy : Z;               (* sid_resource_destroy of the top level, in the child *)
  sp_worker_init : worker_init_env;
  sp_observer_init : observer_init_env;
  sp_restore : Z                (* sigprocmask that restores *)
}.

(** What [_spawn_worker] leaves: in the parent, NULL or the new observer
    (its position among the children of the ubridge); in the child, the
    worker resource on its own root, or the exit of the process. *)
Inductive spawn_outcome : Type :=
| spawn_null (ubridge_res : sid_resource ubridge)
| spawn_observer (ubridge_res : sid_resource ubridge) (i : nat)
| spawn_worker (worker_res : sid_resource worker)
| spawn_exit (code : Z).

Definition sys_log_sys_error (id call : string) : sys_event :=
  sys_ev (ev_log_sys_error id call).

(** The code at the label [out]: the mask is restored when the signals
    were blocked and [pid] is not 0. *)
Definition spawn_out (env : spawn_env) (id : string) (signals_blocked : bool) (pid : Z)
  : list sys_event :=
  if signals_blocked && negb (pid =? 0) then
    sys_sigprocmask_restore (sp_restore env)
    :: (if sp_restore env <? 0 then [sys_log_sys_error id "sigprocmask"] else [])
  else [].

(** [_spawn_worker]; [pid_to_string] is [util_pid_to_string] of util.c,
    which is not among the sources. Modelled from the spec for
    [sid_resource_create]: the node is appended to the children of its
    parent and the init hook is run; when the hook fails the creation
    fails. [pid] is -1 until [fork] is called. *)
Definition _spawn_worker (pid_to_string : Z -> string) (env : spawn_env)
           (ubridge_res : sid_resource ubridge) : spawn_outcome * list sys_event :=
  let uid := ID ubridge_res in
  if sp_socketpair env <? 0 then
    (spawn_null ubridge_res,
     [sys_log_sys_error uid "socketpair"] ++ spawn_out env uid false (-1))
  else
    let pair := sys_socketpair (sp_comms_fd0 env) (sp_comms_fd1 env) in
    if sp_sigfillset env <? 0 then
      (spawn_null ubridge_res,
       [pair; sys_log_sys_error uid "sigfillset"] ++ spawn_out env uid false (-1))
    else if sp_sigprocmask env <? 0 then
      (spawn_null ubridge_res,
       [pair; sys_sigprocmask_block (sp_sigprocmask env);
        sys_log_sys_error uid "sigprocmask"] ++ spawn_out env uid false (-1))
    else
      let pid := sp_fork env in
      let before := [pair; sys_sigprocmask_block (sp_sigprocmask env); sys_fork pid] in
      if pid <? 0 then
        (spawn_null ubridge_res,
         before ++ [sys_log_sys_error uid "fork"] ++ spawn_out env uid true pid)
      else if pid =? 0 then
        let ks := mk_kickstart (sp_getpid env) (sp_comms_fd1 env) in
        let cleaned :=
          [sys_ev (ev_close (sp_comms_fd0 env)); sys_destroy_tree (sp_destroy env)]
          ++ (if sp_destroy env <? 0
              then [sys_ev (ev_log_error uid
                      "Failed to clean resource tree after forking a new worker.")]
              else []) in
        let id := pid_to_string (ks_worker_pid ks) in
        match _init_worker (sp_worker_init env) id ks with
        | (Some w, evs) =>
          (spawn_worker (mk_resource id w),
           before ++ cleaned ++ map sys_ev evs ++ spawn_out env uid true pid)
        | (None, evs) =>
          (spawn_exit EXIT_FAILURE,
           before ++ cleaned ++ map sys_ev evs ++ [sys_exit EXIT_FAILURE])
        end
      else
        let ks := mk_kickstart pid (sp_comms_fd0 env) in
        let parent :=
          [sys_ev (ev_log_debug uid
                     ("Spawned new worker process with PID " ++ string_of_int pid ++ "."));
           sys_ev (ev_close (sp_comms_fd1 env))] in
        let id := pid_to_string (ks_worker_pid ks) in
        match _init_observer (sp_observer_init env) id ks with
        | (Some o, evs) =>
          let l := ubr_observers (res_data ubridge_res) in
          (spawn_observer (set_ubr_observers ubridge_res (l ++ [mk_resource id o]))
                          (List.length l),
           before ++ parent ++ map sys_ev evs ++ spawn_out env uid true pid)
        | (None, evs) =>
          (spawn_null ubridge_res,
           before ++ parent ++ map sys_ev evs ++ spawn_out env uid true pid)
        end.

(** [_accept_connection_and_pass_to_worker] on the [i]-th observer of
    the ubridge, which is updated in place. *)
Definition accept_on (i : nat) (conn_fd send_ret : Z) (ubridge_res : sid_resource ubridge)
  : option (Z * sid_resource ubridge * list event) :=
  match nth_error (ubr_observers (res_data ubridge_res)) i with
  | None => None
  | Some observer_res =>
    match _accept_connection_and_pass_to_worker (ID ubridge_res) conn_fd send_ret
                                                observer_res with
    | Some (r, observer_res', evs) =>
      Some (r, set_ubr_observers ubridge_res
                 (replace_nth i observer_res' (ubr_observers (res_data ubridge_res))),
            evs)
    | None => None
    end
  end.

(** How [_on_ubridge_interface_event] ends: in the parent it returns;
    in a child that became a worker the process runs the event loop of
    the worker, destroys it and exits; a child whose worker could not
    be created has exited in [_spawn_worker]. *)
Inductive ubridge_outcome : Type :=
| ub_return (r : Z) (ubridge_res : sid_resource ubridge)
| ub_worker (worker_res : sid_resource worker)
| ub_exit (code : Z).

(** [_on_ubridge_interface_event]; [iter_ok] tells whether the
    iterator of the search is created, [conn_fd] and [send_ret] are
    what [accept4] and [comms_unix_send] give. [None] when the resource
    found is not a child (which does not happen). *)
Definition _on_ubridge_interface_event (pid_to_string : Z -> string) (env : spawn_env)
           (iter_ok : bool) (conn_fd send_ret : Z) (ubridge_res : sid_resource ubridge)
  : option (ubridge_outcome * list sys_event) :=
  let uid := ID ubridge_res in
  let received := sys_ev (ev_log_debug uid "Received an event.") in
  match _find_observer_for_idle_worker iter_ok ubridge_res with
  | Some i =>
    match accept_on i conn_fd send_ret ubridge_res with
    | Some (r, ubridge_res', evs) =>
      Some (ub_return r ubridge_res', received :: map sys_ev evs)
    | None => None
    end
  | None =>
    let spawning :=
      sys_ev (ev_log_debug uid "Idle worker not found, spawning a new one.") in
    match _spawn_worker pid_to_string env ubridge_res with
    | (spawn_null ubridge_res', evs) =>
      Some (ub_return (-1) ubridge_res', received :: spawning :: evs)
    | (spawn_observer ubridge_res' i, evs) =>
      match accept_on i conn_fd send_ret ubridge_res' with
      | Some (r, ubridge_res'', evs') =>
        Some (ub_return r ubridge_res'', received :: spawning :: evs ++ map sys_ev evs')
      | None => None
      end
    | (spawn_worker worker_res, evs) =>
      Some (ub_worker worker_res, received :: spawning :: evs)
    | (spawn_exit code, evs) => Some (ub_exit code, received :: spawning :: evs)
    end
  end.

(** [_on_observer_child_event] for the [i]-th observer of the ubridge.
    Modelled from the spec for [sid_resource_destroy]: the node is
    taken out of the children of its parent and its destroy hook is
    run. Whatever [si_code], the observer is destroyed and 0 is
    returned. *)
Definition _on_observer_child_event (si_code si_status : Z) (i : nat)
           (ubridge_res : sid_resource ubridge)
  : option (Z * sid_resource ubridge * list sys_event) :=
  match nth_error (ubr_observers (res_data ubridge_res)) i with
  | None => None
  | Some observer_res =>
    let pid := string_of_int (obs_worker_pid (res_data observer_res)) in
    let msg :=
      if si_code =? CLD_EXITED then
        ("Worker " ++ pid ++ " exited with exit code "
                   ++ string_of_int si_status ++ ".")%string
      else if (si_code =? CLD_KILLED) || (si_code =? CLD_DUMPED) then
        ("Worker " ++ pid ++ " terminated by signal "
                   ++ string_of_int si_status ++ ".")%string
      else ("Worker " ++ pid ++ " failed unexpectedly.")%string in
    Some (0,
          set_ubr_observers ubridge_res
            (remove_nth i (ubr_observers (res_data ubridge_res))),
          sys_ev (ev_log_debug (ID observer_res) msg)
          :: sys_destroy_observer (ID observer_res)
          :: map sys_ev (_destroy_observer observer_res))
  end.

(** The calls on the signal mask and [fork], the descriptors closed
    and the descriptors sent, in order. *)
Definition mask_and_fork_calls (evs : list sys_event) : list sys_event :=
  filter (fun e => match e with
                   | sys_sigprocmask_block _ | sys_fork _ | sys_sigprocmask_restore _ => true
                   | _ => false
                   end) evs.

Definition handler_events (evs : list sys_event) : list event :=
  flat_map (fun e => match e with sys_ev e' => [e'] | _ => [] end) evs.

Definition a_spawn_env (fork_ret : Z) : spawn_env :=
  mk_spawn_env 0 10 11 0 0 fork_ret 777 0
               (mk_worker_init_env true true true true true)
               (mk_observer_init_env true true true) 0.

Definition an_ubridge : sid_resource ubridge :=
  mk_resource "ubridge"
    (mk_ubridge 4 true
       [ mk_resource "100" (mk_observer 100 20 true true None WORKER_RUNNING);
         armed_observer;
         mk_resource "300" (mk_observer 300 22 true true None WORKER_IDLE) ]).

Definition a_busy_ubridge : sid_resource ubridge :=
  mk_resource "ubridge"
    (mk_ubridge 4 true
       [ mk_resource "100" (mk_observer 100 20 true true None WORKER_RUNNING) ]).

(** ** The creation of a command, closed forms and examples *)

(** Whether the command of a frame is created: the frame holds a whole
    header and every allocation and registration succeeds. *)
Definition command_created (env : conn_env) : bool :=
  ci_node_ok (env_create env) && ci_alloc_ok (env_create env)
  && ci_buf_ok (env_create env)
  && negb (env_short env) && ci_env_ok (env_create env)
  && ci_es_ok (env_create env).

(** What a creation logs for the command [id]: the line of
    [_init_command] for the step that failed, nothing when the node
    itself could not be allocated and nothing on success. *)
Definition creation_log (env : conn_env) (id : string) : list event :=
  if negb (ci_node_ok (env_create env)) then []
  else snd (_init_command_hook (env_create env) (env_short env) id (env_raw_cmd env)).

Definition register_failure_msg : string := "Failed to register command for processing.".

(** A frame of 14 bytes with the command number 99 and the protocol 1,
    the allocation of the command structure failing. *)
Definition failed_allocation_env : conn_env :=
  mk_conn_env 1234 14 0 true false (mk_raw_command (mk_header 1 99 0) EmptyString)
              (mk_command_init_env true false true true true) true 1.

(** A frame of 6 bytes: the length prefix, the protocol 1 and the
    command number 99. *)
Definition short_frame_env : conn_env :=
  mk_conn_env 1234 6 0 true true (mk_raw_command (mk_header 1 99 0) EmptyString)
              all_created true 1.

(** The table of the code with a phase table whose scan-pre phase
    fails. *)
Definition failing_command_regs : list command_reg :=
  [ mk_command_reg "unknown" _cmd_execute_unknown;
    mk_command_reg "reply" _cmd_execute_reply;
    mk_command_reg "version" _cmd_execute_version;
    mk_command_reg "identify" (_cmd_execute_identify failing_scan_pre_regs);
    mk_command_reg "checkpoint" _cmd_execute_checkpoint ].

(** What [_spawn_worker] itself does to descriptors and to the
    inherited tree, in order: its calls of [close] and the destruction
    of the tree. The descriptors that the destroy hooks of the tree
    close in the child are within [sys_destroy_tree]. *)
Definition close_and_destroy_calls (evs : list sys_event) : list sys_event :=
  filter (fun e => match e with
                   | sys_ev (ev_close _) | sys_destroy_tree _ => true
                   | _ => false
                   end) evs.

(** ** The states of an observer *)

(** The observers that the handlers give, whatever the environment
    answers and in whatever order they run: an observer starts as
    [_init_observer] leaves it and changes only in
    [_accept_connection_and_pass_to_worker], in
    [_on_observer_comms_event] and in [_on_idle_task_timeout_event]. *)
Inductive observer_reachable : sid_resource observer -> Prop :=
| obs_created (env : observer_init_env) (id : string) (ks : kickstart)
              (o : observer) (evs : list event) :
    _init_observer env id ks = (Some o, evs) ->
    observer_reachable (mk_resource id o)
| obs_accept (ubridge_id : string) (conn_fd send_ret : Z)
             (res res' : sid_resource observer) (r : Z) (evs : list event) :
    observer_reachable res ->
    _accept_connection_and_pass_to_worker ubridge_id conn_fd send_ret res
    = Some (r, res', evs) ->
    observer_reachable res'
| obs_comms (rcv : recv_result) (now : Z)
            (res res' : sid_resource observer) (r : Z) (evs : list event) :
    observer_reachable res ->
    _on_observer_comms_event rcv now res = Some (r, res', evs) ->
    observer_reachable res'
| obs_timeout (res res' : sid_resource observer) (r : Z) (evs : list event) :
    observer_reachable res ->
    _on_idle_task_timeout_event res = Some (r, res', evs) ->
    observer_reachable res'.

(** An observer to whose worker a connection was just passed. *)
Definition an_init_observer : sid_resource observer :=
  mk_resource "500" (mk_observer 500 10 true true None WORKER_INIT).

(** ** An observer, its worker and the control channel between them *)

(** The observer in the parent, the worker in the child, and what is on
    its way between them on the socket pair, the oldest first: the
    descriptors that the observer sent and the worker did not yet
    receive, and the bytes that the worker sent and the observer did
    not yet receive. *)
Record service : Type := mk_service {
  svc_observer : sid_resource observer;
  svc_worker : sid_resource worker;
  svc_descriptors : list Z;
  svc_bytes : list Z
}.

(** The bytes given to [comms_unix_send], in order. *)
Definition bytes_sent (evs : list event) : list Z :=
  flat_map (fun e => match e with
                     | ev_comms_send _ (Some b) _ => [b]
                     | _ => []
                     end) evs.

(** One handler run in one of the two processes, or one loss on the
    channel.
    - The ubridge passes a connection only to an observer that
      [_find_observer_for_idle_worker] found IDLE or that
      [_spawn_worker] just created, IDLE as well; the descriptor is on
      its way when [comms_unix_send] did not fail, that is when the
      result is 0.
    - The worker receives the oldest descriptor (under a number of its
      own) and runs [_on_worker_comms_event].
    - The event source of the connection calls [_on_worker_conn_event]
      while it is registered.
    - What the worker gives to [comms_unix_send] arrives or not.
    - The observer receives the oldest byte and runs
      [_on_observer_comms_event]; the idle timer fires only while it is
      armed.
    - A datagram may be lost; none is duplicated or overtaken. *)
Inductive service_step : service -> service -> Prop :=
| step_accept (ubridge_id : string) (conn_fd send_ret : Z)
              (o o' : sid_resource observer) (w : sid_resource worker)
              (ds bs : list Z) (r : Z) (evs : list event) :
    worker_state (res_data o) = WORKER_IDLE ->
    _accept_connection_and_pass_to_worker ubridge_id conn_fd send_ret o
    = Some (r, o', evs) ->
    service_step (mk_service o w ds bs)
                 (mk_service o' w (ds ++ (if r =? 0 then [conn_fd] else [])) bs)
| step_worker_comms (n b fd fd' es_ret send_ret : Z)
                    (o : sid_resource observer) (w w' : sid_resource worker)
                    (ds bs delivered : list Z) (r : Z) (evs : list event) :
    0 <= n -> 0 <= fd' ->
    _on_worker_comms_event (mk_recv n b fd') es_ret send_ret w = Some (r, w', evs) ->
    delivered = bytes_sent evs \/ delivered = [] ->
    service_step (mk_service o w (fd :: ds) bs)
                 (mk_service o w' ds (bs ++ delivered))
| step_worker_conn (env : conn_env) (revents : Z)
                   (o : sid_resource observer) (w w' : sid_resource worker)
                   (ds bs delivered : list Z) (r : Z) (evs : list event) :
    wrk_conn_es (res_data w) = true ->
    _on_worker_conn_event env revents w = Some (r, w', evs) ->
    delivered = bytes_sent evs \/ delivered = [] ->
    service_step (mk_service o w ds bs)
                 (mk_service o w' ds (bs ++ delivered))
| step_observer_comms (n b now : Z)
                      (o o' : sid_resource observer) (w : sid_resource worker)
                      (ds bs : list Z) (r : Z) (evs : list event) :
    0 <= n ->
    _on_observer_comms_event (mk_recv n b (-1)) now o = Some (r, o', evs) ->
    service_step (mk_service o w ds (b :: bs)) (mk_service o' w ds bs)
| step_timeout (o o' : sid_resource observer) (w : sid_resource worker)
               (ds bs : list Z) (r : Z) (evs : list event) :
    idle_timeout_es (res_data o) <> None ->
    _on_idle_task_timeout_event o = Some (r, o', evs) ->
    service_step (mk_service o w ds bs) (mk_service o' w ds bs)
| step_descriptor_lost (fd : Z) (o : sid_resource observer) (w : sid_resource worker)
                       (ds bs : list Z) :
    service_step (mk_service o w (fd :: ds) bs) (mk_service o w ds bs)
| step_byte_lost (b : Z) (o : sid_resource observer) (w : sid_resource worker)
                 (ds bs : list Z) :
    service_step (mk_service o w ds (b :: bs)) (mk_service o w ds bs).

(** The states that an observer and its worker reach: they start as
    [_init_observer] and [_init_worker] leave them, with nothing on the
    channel. *)
Inductive service_reachable : service -> Prop :=
| reach_start (oenv : observer_init_env) (wenv : worker_init_env)
              (oid wid : string) (oks wks : kickstart)
              (o : observer) (w : worker) (oevs wevs : list event) :
    _init_observer oenv oid oks = (Some o, oevs) ->
    _init_worker wenv wid wks = (Some w, wevs) ->
    service_reachable (mk_service (mk_resource oid o) (mk_resource wid w) [] [])
| reach_step (s s' : service) :
    service_reachable s -> service_step s s' -> service_reachable s'.

(** What holds of every reachable state. While the observer records
    IDLE or FINI nothing is on the channel and the worker has no
    connection. While it records INIT or RUNNING no idle timer is
    armed; a descriptor is on its way only in INIT, before the worker
    took it; RUNNING is on its way only in INIT, and IDLE only once the
    worker gave up its connection, after RUNNING if both are. *)
Definition service_inv (s : service) : Prop :=
  let o := res_data (svc_observer s) in
  let c := wrk_conn_es (res_data (svc_worker s)) in
  let ds := svc_descriptors s in
  let bs := svc_bytes s in
  match worker_state o with
  | WORKER_IDLE | WORKER_FINI => ds = [] /\ bs = [] /\ c = false
  | WORKER_INIT =>
    idle_timeout_es o = None
    /\ (((exists fd, ds = [fd]) /\ bs = [] /\ c = false)
        \/ (ds = []
            /\ (bs = [] \/ bs = [INTERNAL_COMMS_CMD_RUNNING]
                \/ (bs = [INTERNAL_COMMS_CMD_IDLE] /\ c = false)
                \/ (bs = [INTERNAL_COMMS_CMD_RUNNING; INTERNAL_COMMS_CMD_IDLE]
                    /\ c = false))))
  | WORKER_RUNNING =>
    idle_timeout_es o = None
    /\ ds = []
    /\ (bs = [] \/ (bs = [INTERNAL_COMMS_CMD_IDLE] /\ c = false))
  end.

(** An observer and a worker just created, and the two steps after
    which RUNNING is on its way: a connection is passed to the worker,
    and the worker takes it. *)
Definition a_new_service : service :=
  mk_service (mk_resource "500" (mk_observer 500 10 true true None WORKER_IDLE))
             (mk_resource "500" (mk_worker 11 (-1) false []))
             [] [].

Definition a_service_with_running_sent : service :=
  mk_service an_init_observer
             (mk_resource "500" (mk_worker 11 8 true []))
             [] [INTERNAL_COMMS_CMD_RUNNING].

(** * Properties *)

(** ** Strings *)

Lemma length_drop (n : nat) (s : string) :
  String.length (drop n s) = (String.length s - n)%nat.
Proof.
  revert s; induction n as [|n IH]; intros [|a r]; simpl; auto.
Qed.

Lemma drop_drop (n m : nat) (s : string) : drop m (drop n s) = drop (n + m) s.
Proof.
  revert s; induction n as [|n IH]; intros s; simpl; auto.
  destruct s as [|a r]; auto.
  destruct m; reflexivity.
Qed.

Lemma drop_all (n : nat) (s : string) :
  (String.length s <= n)%nat -> drop n s = EmptyString.
Proof.
  revert s; induction n as [|n IH]; intros [|a r]; simpl; intros H; auto; try lia.
  apply IH; lia.
Qed.

Lemma strchr_eq_get (s : string) (n : nat) :
  strchr s "=" = Some n -> String.get n s = Some "="%char.
Proof.
  revert n; induction s as [|a r IH]; intros n; simpl.
  - discriminate.
  - destruct (Ascii.eqb a "=") eqn:E.
    + intros [= <-]. apply Ascii.eqb_eq in E. now subst.
    + destruct (strchr r "=") as [m|]; simpl; [|discriminate].
      intros [= <-]. now apply IH.
Qed.

Lemma strchr_eq_has (s : string) :
  strchr s "=" = None <-> string_has "=" s = false.
Proof.
  induction s as [|a r IH]; simpl.
  - tauto.
  - destruct (Ascii.eqb a "="); simpl.
    + split; discriminate.
    + destruct (strchr r "="); simpl in *; split; intros H; try discriminate.
      * apply IH in H. discriminate.
      * now apply IH.
      * reflexivity.
Qed.

Lemma strchr_append_eq (k v : string) :
  strchr (k ++ String "=" v) "=" <> None.
Proof.
  induction k as [|a r IH]; simpl.
  - discriminate.
  - destruct (Ascii.eqb a "="); [discriminate|].
    destruct (strchr (r ++ String "=" v) "="); simpl; [discriminate|congruence].
Qed.

Lemma memchr_nul_none (s : string) :
  memchr s NUL (String.length s) = None -> nul_split s = ([], s).
Proof.
  induction s as [|c r IH]; simpl; auto.
  destruct (Ascii.eqb c NUL); [discriminate|].
  destruct (memchr r NUL (String.length r)); [discriminate|].
  intros _. now rewrite IH.
Qed.

Lemma memchr_nul_some (s : string) (d : nat) :
  memchr s NUL (String.length s) = Some d ->
  nul_split s = (take d s :: entries (drop (S d) s), unterminated (drop (S d) s))
  /\ (d < String.length s)%nat.
Proof.
  unfold entries, unterminated.
  revert d; induction s as [|c r IH]; intros d; simpl; [discriminate|].
  destruct (Ascii.eqb c NUL) eqn:E.
  - intros [= <-]. simpl. destruct (nul_split r). split; [reflexivity|lia].
  - destruct (memchr r NUL (String.length r)) as [d'|]; simpl; [|discriminate].
    intros [= <-]. destruct (IH d' eq_refl) as [-> Hlt].
    split; [reflexivity|lia].
Qed.

(** ** Decoding *)

Ltac break_ifs :=
  repeat match goal with
         | |- context [if ?b then _ else _] => destruct b
         end.

Lemma device_add_field_result (dev : device) (key : string) :
  fst (_device_add_field dev key) =
  match strchr key "=" with None => -1 | Some _ => 0 end.
Proof.
  unfold _device_add_field.
  destruct (strchr key "=") as [n|] eqn:E; [|reflexivity].
  rewrite (strchr_eq_get _ _ E). simpl Ascii.eqb. cbv iota.
  break_ifs; reflexivity.
Qed.

Lemma device_add_field_env (dev : device) (key : string) :
  raw_udev_env (snd (_device_add_field dev key)) = raw_udev_env dev
  /\ raw_udev_env_len (snd (_device_add_field dev key)) = raw_udev_env_len dev.
Proof.
  unfold _device_add_field.
  destruct (strchr key "="); [|now split].
  destruct (String.get n key); [|now split].
  break_ifs; now split.
Qed.

Lemma malformedb_spec (payload : string) :
  malformedb payload = true <-> malformed payload.
Proof.
  unfold malformedb, malformed. rewrite orb_true_iff, existsb_exists, negb_true_iff.
  rewrite String.eqb_neq.
  split; (intros [[e [Hin He]]|H]; [left; exists e; split; auto|now right]).
  - now apply negb_true_iff in He.
  - now apply negb_true_iff.
Qed.

(** The loop is total with a fuel of what is left of the buffer, and
    gives the result of the specification on that part. *)
Lemma parse_loop_enough_fuel (fuel i : nat) (dev : device) :
  raw_udev_env_len dev = String.length (raw_udev_env dev) ->
  (raw_udev_env_len dev - i <= fuel)%nat ->
  exists dev',
    _parse_cmd_nullstr_udev_env_loop fuel i dev =
      Some (if malformedb (drop i (raw_udev_env dev)) then - EINVAL else 0, dev')
    /\ raw_udev_env dev' = raw_udev_env dev
    /\ raw_udev_env_len dev' = raw_udev_env_len dev.
Proof.
  revert i dev; induction fuel as [|fuel IH]; intros i dev Hlen Hfuel.
  - simpl. destruct (Nat.ltb_spec i (raw_udev_env_len dev)); [lia|].
    exists dev. rewrite drop_all by lia. auto.
  - simpl. destruct (Nat.ltb_spec i (raw_udev_env_len dev)) as [Hi|Hi].
    2:{ exists dev. rewrite drop_all by lia. auto. }
    set (str := drop i (raw_udev_env dev)).
    assert (Hstr : String.length str = (raw_udev_env_len dev - i)%nat)
      by (unfold str; rewrite length_drop; lia).
    rewrite <- Hstr.
    destruct (memchr str NUL (String.length str)) as [delim|] eqn:Hm.
    + destruct (memchr_nul_some _ _ Hm) as [Hsplit Hd].
      assert (Hrest : drop (S delim) str = drop (i + delim + 1) (raw_udev_env dev)).
      { unfold str. rewrite drop_drop. f_equal. lia. }
      rewrite Hrest in Hsplit.
      pose proof (device_add_field_result dev (take delim str)) as Hr.
      pose proof (device_add_field_env dev (take delim str)) as [He Hl].
      destruct (_device_add_field dev (take delim str)) as [r dev1].
      simpl in Hr, He, Hl.
      assert (Hmal : malformedb str =
                     negb (string_has "=" (take delim str))
                     || malformedb (drop (i + delim + 1) (raw_udev_env dev))).
      { unfold malformedb at 1, entries at 1, unterminated at 1.
        rewrite Hsplit. simpl. now rewrite <- orb_assoc. }
      rewrite Hmal.
      destruct (strchr (take delim str) "=") as [n|] eqn:Hk.
      * assert (Hh : string_has "=" (take delim str) = true).
        { destruct (string_has "=" (take delim str)) eqn:Hh; auto.
          apply strchr_eq_has in Hh. congruence. }
        rewrite Hh, Hr. simpl.
        destruct (IH (i + delim + 1)%nat dev1) as [dev' [Hrun [He' Hl']]];
          [congruence|lia|].
        exists dev'. rewrite Hrun, He.
        repeat split; congruence.
      * apply strchr_eq_has in Hk. rewrite Hk, Hr. simpl.
        exists dev1. auto.
    + exists dev. repeat split; auto.
      unfold malformedb, entries, unterminated. rewrite (memchr_nul_none _ Hm). simpl.
      destruct str; [simpl in Hstr; lia|reflexivity].
Qed.

Lemma parse_total (cmd : command) :
  raw_udev_env_len (cmd_dev cmd) = String.length (raw_udev_env (cmd_dev cmd)) ->
  exists cmd',
    _parse_cmd_nullstr_udev_env cmd =
      Some (if malformedb (raw_udev_env (cmd_dev cmd)) then - EINVAL else 0, cmd')
    /\ result_buf cmd' = result_buf cmd
    /\ cmd_protocol cmd' = cmd_protocol cmd
    /\ cmd_type cmd' = cmd_type cmd.
Proof.
  intros Hlen. unfold _parse_cmd_nullstr_udev_env.
  destruct (parse_loop_enough_fuel (raw_udev_env_len (cmd_dev cmd)) 0 (cmd_dev cmd) Hlen)
    as [dev' [Hrun _]]; [lia|].
  rewrite Hrun. simpl drop. eexists. split; [reflexivity|]. now simpl.
Qed.

(** ** Examples of the decoding *)

Example identify_payload_env_len :
  raw_udev_env_len (cmd_dev (_init_command (identify_request identify_payload))) = 37%nat.
Proof. reflexivity. Qed.

Example strtoull_base_10 : strtoull "42" 10 = 42.
Proof. reflexivity. Qed.

Example strtoull_base_6 : strtoull "42" 6 = 26.
Proof. reflexivity. Qed.

Example strtoull_base_1 : strtoull "42" 1 = 0.
Proof. reflexivity. Qed.

Example atoi_8 : atoi "8" = 8.
Proof. reflexivity. Qed.

(** C9: an entry [KEY=] with an empty value is accepted:
    [_device_add_field] returns 0 for it; and on a buffer whose length
    is [raw_udev_env_len], [_parse_cmd_nullstr_udev_env] returns either
    [-EINVAL] or 0, and [-EINVAL] exactly when some entry contains no
    '=' or what remains of the payload contains no NUL. *)
Theorem empty_value_accepted_einval_when_malformed :
  (forall (dev : device) (k : string),
      fst (_device_add_field dev (k ++ "=")) = 0)
  /\ (forall cmd : command,
         raw_udev_env_len (cmd_dev cmd) = String.length (raw_udev_env (cmd_dev cmd)) ->
         exists r cmd',
           _parse_cmd_nullstr_udev_env cmd = Some (r, cmd')
           /\ (r = - EINVAL \/ r = 0)
           /\ (r = - EINVAL <-> malformed (raw_udev_env (cmd_dev cmd)))).
Proof.
  split.
  - intros dev k. rewrite device_add_field_result.
    pose proof (strchr_append_eq k EmptyString) as H.
    destruct (strchr (k ++ "=") "="); [reflexivity|congruence].
  - intros cmd Hlen.
    destruct (parse_total cmd Hlen) as [cmd' [Hrun _]].
    rewrite Hrun.
    pose proof (malformedb_spec (raw_udev_env (cmd_dev cmd))) as Hm.
    destruct (malformedb (raw_udev_env (cmd_dev cmd))); do 2 eexists;
      (split; [reflexivity|]); split; auto.
    + split; intros _; [now apply Hm|reflexivity].
    + split; [discriminate|]. intros H. apply Hm in H. discriminate.
Qed.

Lemma empty_value_accepted_witness :
  exists r cmd',
    _parse_cmd_nullstr_udev_env empty_value_command = Some (r, cmd')
    /\ (r = - EINVAL \/ r = 0)
    /\ (r = - EINVAL <-> malformed (raw_udev_env (cmd_dev empty_value_command))).
Proof.
  apply (proj2 empty_value_accepted_einval_when_malformed empty_value_command).
  reflexivity.
Defined.

Example empty_value_parse :
  option_map fst (_parse_cmd_nullstr_udev_env empty_value_command) = Some 0.
Proof. reflexivity. Qed.

Example no_equals_parse :
  option_map fst (_parse_cmd_nullstr_udev_env
                    (_init_command (identify_request ("MAJOR=8" ++ nul ++ "FOO" ++ nul)%string)))
  = Some (- EINVAL).
Proof. reflexivity. Qed.

Example no_terminator_parse :
  option_map fst (_parse_cmd_nullstr_udev_env
                    (_init_command (identify_request ("MAJOR=8" ++ nul ++ "MINOR=1")%string)))
  = Some (- EINVAL).
Proof. reflexivity. Qed.

(** C2: the third argument of [strtoull] is [key_len], which is 6 for
    SEQNUM: an entry [SEQNUM=<digits>] sets [seqnum] to the value of the
    digits read in base 6, and the payload of the identify scenario
    decodes to action ADD, major 8, minor 0 and seqnum 26, not 42. *)
Theorem seqnum_is_read_in_base_6 :
  (forall (dev : device) (digits : string),
      _device_add_field dev ("SEQNUM=" ++ digits)
      = (0, set_dev_seqnum dev (strtoull digits 6)))
  /\ exists cmd',
      _parse_cmd_nullstr_udev_env (_init_command (identify_request identify_payload))
      = Some (0, cmd')
      /\ dev_action (cmd_dev cmd') = UDEV_ACTION_ADD
      /\ dev_major (cmd_dev cmd') = 8
      /\ dev_minor (cmd_dev cmd') = 0
      /\ dev_seqnum (cmd_dev cmd') = 26
      /\ dev_seqnum (cmd_dev cmd') <> 42.
Proof.
  split.
  - intros dev ds. reflexivity.
  - eexists. split; [reflexivity|]. cbn. repeat split; discriminate.
Qed.

(** C8: the keys are compared with [strncmp] over [key_len] characters
    only, so a key that is a proper prefix of a recognised key is taken
    for it: [M=5] is not ignored, it sets [major] to 5; and an entry
    with an empty key is taken for ACTION. *)
Theorem prefix_key_is_not_ignored :
  ~ In "M" recognised_keys
  /\ _device_add_field (zeroed_device "" 0) "M=5"
     = (0, set_dev_major (zeroed_device "" 0) 5)
  /\ dev_major (snd (_device_add_field (zeroed_device "" 0) "M=5"))
     <> dev_major (zeroed_device "" 0)
  /\ _device_add_field (zeroed_device "" 0) "=add"
     = (0, set_dev_action (zeroed_device "" 0) UDEV_ACTION_ADD).
Proof.
  repeat split.
  - simpl. intros H. repeat (destruct H as [H|H]; [discriminate H|]). exact H.
  - discriminate.
Qed.

(** ** The identify command *)

Lemma init_device_run (res : sid_resource command) (p : Z) (cmd' : command) :
  _parse_cmd_nullstr_udev_env (res_data res) = Some (p, cmd') ->
  _init_device res =
    Some (if p <? 0 then -1 else 0,
          mk_resource (res_id res) cmd',
          if p <? 0
          then [ev_log_error_errno (res_id res) p init_device_failure_msg]
          else []).
Proof.
  intros H. unfold _init_device, bind, on_data. rewrite H.
  destruct (p <? 0); reflexivity.
Qed.

Lemma init_device_inv (res res0 : sid_resource command) (r0 : Z) (ev0 : list event) :
  _init_device res = Some (r0, res0, ev0) ->
  exists p cmd',
    _parse_cmd_nullstr_udev_env (res_data res) = Some (p, cmd')
    /\ r0 = (if p <? 0 then -1 else 0)
    /\ res0 = mk_resource (res_id res) cmd'
    /\ phase_calls ev0 = [].
Proof.
  destruct (_parse_cmd_nullstr_udev_env (res_data res)) as [[p cmd']|] eqn:E.
  - rewrite (init_device_run _ _ _ E). intros [= <- <- <-].
    exists p, cmd'. destruct (p <? 0); auto.
  - unfold _init_device, bind, on_data. rewrite E. discriminate.
Qed.

Lemma phase_calls_app (e1 e2 : list event) :
  phase_calls (e1 ++ e2) = phase_calls e1 ++ phase_calls e2.
Proof. apply flat_map_app. Qed.

(** One turn of the loop. *)
Lemma identify_loop_cons (phase_regs : list command_reg) (phase : nat)
      (rest : list nat) (r : Z) (res : sid_resource command)
      (reg : command_reg) (rk : Z) (resk : sid_resource command) (evk : list event) :
  nth_error phase_regs phase = Some reg ->
  execute reg res = Some (rk, resk, evk) ->
  _cmd_execute_identify_loop phase_regs (phase :: rest) r res =
    if rk <? 0 then
      Some (rk, resk,
            [ev_log_debug (ID res) ("Executing " ++ name reg ++ " phase.");
             ev_phase_call phase]
              ++ evk
              ++ [ev_log_error (ID resk) (name reg ++ " phase failed.")])
    else
      match _cmd_execute_identify_loop phase_regs rest rk resk with
      | Some (r', res', ev') =>
        Some (r', res',
              [ev_log_debug (ID res) ("Executing " ++ name reg ++ " phase.");
               ev_phase_call phase] ++ evk ++ ev')
      | None => None
      end.
Proof.
  intros Hreg Hexec. simpl. rewrite Hreg.
  unfold bind, log_debug, log_error, emit, get_state, ret. simpl. rewrite Hexec.
  destruct (rk <? 0).
  - simpl. rewrite ?app_nil_r. reflexivity.
  - destruct (_cmd_execute_identify_loop phase_regs rest rk resk) as [[[r' res'] ev']|];
      reflexivity.
Qed.

(** Phases that did not fail are followed by the remaining ones. *)
Lemma identify_loop_app (phase_regs : list command_reg) (pre post : list nat) :
  forall (r : Z) (res : sid_resource command) r1 res1 ev1,
    _cmd_execute_identify_loop phase_regs pre r res = Some (r1, res1, ev1) ->
    0 <= r1 ->
    _cmd_execute_identify_loop phase_regs (pre ++ post) r res =
      match _cmd_execute_identify_loop phase_regs post r1 res1 with
      | Some (r2, res2, ev2) => Some (r2, res2, ev1 ++ ev2)
      | None => None
      end.
Proof.
  induction pre as [|phase pre IH]; intros r res r1 res1 ev1 Hrun Hr1.
  - simpl in Hrun. injection Hrun as <- <- <-. simpl.
    destruct (_cmd_execute_identify_loop phase_regs post r res) as [[[r2 res2] ev2]|];
      reflexivity.
  - destruct (nth_error phase_regs phase) as [reg|] eqn:Hreg.
    2:{ simpl in Hrun. rewrite Hreg in Hrun. discriminate. }
    destruct (execute reg res) as [[[rk resk] evk]|] eqn:Hexec.
    2:{ simpl in Hrun. rewrite Hreg in Hrun.
        unfold bind, log_debug, emit, get_state in Hrun. simpl in Hrun.
        rewrite Hexec in Hrun. discriminate. }
    rewrite (identify_loop_cons _ _ _ _ _ _ _ _ _ Hreg Hexec) in Hrun.
    rewrite <- app_comm_cons.
    rewrite (identify_loop_cons _ _ _ _ _ _ _ _ _ Hreg Hexec).
    destruct (rk <? 0) eqn:Hk.
    + injection Hrun as <- <- <-. apply Z.ltb_lt in Hk. lia.
    + destruct (_cmd_execute_identify_loop phase_regs pre rk resk)
        as [[[r' res'] ev']|] eqn:Hpre; [|discriminate].
      injection Hrun as <- <- <-.
      rewrite (IH _ _ _ _ _ Hpre Hr1).
      destruct (_cmd_execute_identify_loop phase_regs post r' res') as [[[r2 res2] ev2]|];
        [|reflexivity].
      simpl. now rewrite <- app_assoc.
Qed.

Lemma identify_loop_code (res : sid_resource command) :
  _cmd_execute_identify_loop _cmd_ident_phase_regs ident_phases 0 res =
    Some (0, res, six_phases_events (res_id res)).
Proof. reflexivity. Qed.

Lemma identify_run (phase_regs : list command_reg) (res res0 : sid_resource command)
      (r0 : Z) (ev0 : list event) :
  _init_device res = Some (r0, res0, ev0) ->
  _cmd_execute_identify phase_regs res =
    if r0 <? 0 then Some (1, res0, ev0)
    else match _cmd_execute_identify_loop phase_regs ident_phases 0 res0 with
         | Some (r, res', ev) => Some (r, res', ev0 ++ ev)
         | None => None
         end.
Proof.
  intros H. unfold _cmd_execute_identify, bind. rewrite H.
  destruct (r0 <? 0); simpl; rewrite ?app_nil_r; reflexivity.
Qed.

(** What the identify command of the code does, whatever the payload. *)
Lemma identify_code (res : sid_resource command) :
  raw_udev_env_len (cmd_dev (res_data res))
  = String.length (raw_udev_env (cmd_dev (res_data res))) ->
  exists cmd',
    result_buf cmd' = result_buf (res_data res)
    /\ _cmd_execute_identify _cmd_ident_phase_regs res =
         if malformedb (raw_udev_env (cmd_dev (res_data res)))
         then Some (1, mk_resource (res_id res) cmd',
                    [ev_log_error_errno (res_id res) (- EINVAL) init_device_failure_msg])
         else Some (0, mk_resource (res_id res) cmd', six_phases_events (res_id res)).
Proof.
  intros Hlen. destruct (parse_total _ Hlen) as [cmd' [Hrun [Hbuf _]]].
  exists cmd'. split; [exact Hbuf|].
  rewrite (identify_run _ _ _ _ _ (init_device_run _ _ _ Hrun)).
  destruct (malformedb (raw_udev_env (cmd_dev (res_data res)))).
  - reflexivity.
  - simpl (0 <? 0). cbv iota. rewrite identify_loop_code. reflexivity.
Qed.

(** C6: when the decoding of the device succeeds, the identify command
    of the code calls the six phases ident, scan-pre, scan-core-current,
    scan-core-next-basic, scan-core-next-extended and scan-post, in this
    order, and returns 0; whatever the phase table, when the phases
    before phase [k] did not fail and phase [k] returns a negative value,
    that value is returned and nothing follows but the report of the
    failure; and the two trigger-action phases are never called. *)
Theorem identify_six_phases_in_order :
  (forall (res res0 : sid_resource command) (r0 : Z) (ev0 : list event),
      _init_device res = Some (r0, res0, ev0) ->
      0 <= r0 ->
      exists evs,
        _cmd_execute_identify _cmd_ident_phase_regs res = Some (0, res0, evs)
        /\ phase_calls evs =
           [ CMD_IDENT_PHASE_IDENT; CMD_IDENT_PHASE_SCAN_PRE;
             CMD_IDENT_PHASE_SCAN_CORE_CURRENT; CMD_IDENT_PHASE_SCAN_CORE_NEXT_BASIC;
             CMD_IDENT_PHASE_SCAN_CORE_NEXT_EXTENDED; CMD_IDENT_PHASE_SCAN_POST ])
  /\ (forall (phase_regs : list command_reg)
             (res res0 res1 resk : sid_resource command)
             (r0 r1 rk : Z) (ev0 ev1 evk : list event)
             (pre post : list nat) (k : nat) (reg : command_reg),
         _init_device res = Some (r0, res0, ev0) ->
         0 <= r0 ->
         ident_phases = pre ++ k :: post ->
         _cmd_execute_identify_loop phase_regs pre 0 res0 = Some (r1, res1, ev1) ->
         0 <= r1 ->
         nth_error phase_regs k = Some reg ->
         execute reg res1 = Some (rk, resk, evk) ->
         rk < 0 ->
         _cmd_execute_identify phase_regs res =
           Some (rk, resk,
                 ev0 ++ ev1
                     ++ [ev_log_debug (ID res1) ("Executing " ++ name reg ++ " phase.");
                         ev_phase_call k]
                     ++ evk
                     ++ [ev_log_error (ID resk) (name reg ++ " phase failed.")]))
  /\ (forall (res res' : sid_resource command) (r : Z) (evs : list event),
         _cmd_execute_identify _cmd_ident_phase_regs res = Some (r, res', evs) ->
         ~ In CMD_IDENT_PHASE_TRIGGER_ACTION_CURRENT (phase_calls evs)
         /\ ~ In CMD_IDENT_PHASE_TRIGGER_ACTION_NEXT (phase_calls evs)).
Proof.
  split; [|split].
  - intros res res0 r0 ev0 Hinit Hr0.
    rewrite (identify_run _ _ _ _ _ Hinit).
    destruct (Z.ltb_spec r0 0); [lia|].
    rewrite identify_loop_code. eexists. split; [reflexivity|].
    destruct (init_device_inv _ _ _ _ Hinit) as [p [cmd' [_ [_ [_ Hcalls]]]]].
    rewrite phase_calls_app, Hcalls. reflexivity.
  - intros phase_regs res res0 res1 resk r0 r1 rk ev0 ev1 evk pre post k reg
           Hinit Hr0 Hsplit Hpre Hr1 Hreg Hexec Hrk.
    rewrite (identify_run _ _ _ _ _ Hinit).
    destruct (Z.ltb_spec r0 0); [lia|].
    rewrite Hsplit, (identify_loop_app _ _ _ _ _ _ _ _ Hpre Hr1).
    rewrite (identify_loop_cons _ _ _ _ _ _ _ _ _ Hreg Hexec).
    destruct (Z.ltb_spec rk 0); [reflexivity|lia].
  - intros res res' r evs Hrun.
    destruct (_init_device res) as [[[r0 res0] ev0]|] eqn:Hinit.
    + destruct (init_device_inv _ _ _ _ Hinit) as [p [cmd' [_ [_ [_ Hcalls]]]]].
      rewrite (identify_run _ _ _ _ _ Hinit) in Hrun.
      destruct (r0 <? 0).
      * injection Hrun as <- <- <-. rewrite Hcalls. simpl. tauto.
      * rewrite identify_loop_code in Hrun. injection Hrun as <- <- <-.
        rewrite phase_calls_app, Hcalls. simpl.
        unfold CMD_IDENT_PHASE_TRIGGER_ACTION_CURRENT, CMD_IDENT_PHASE_TRIGGER_ACTION_NEXT.
        split; intros H; repeat (destruct H as [H|H]; [discriminate H|]); exact H.
    + unfold _cmd_execute_identify, bind in Hrun. rewrite Hinit in Hrun. discriminate.
Qed.

Lemma identify_six_phases_witness :
  (exists res0 evs,
      _cmd_execute_identify _cmd_ident_phase_regs identify_resource = Some (0, res0, evs)
      /\ phase_calls evs = [0; 1; 2; 3; 4; 5]%nat)
  /\ (exists resk evs,
         _cmd_execute_identify failing_scan_pre_regs identify_resource = Some (-5, resk, evs)
         /\ phase_calls evs = [0; 1]%nat).
Proof.
  assert (Hinit : exists res0, _init_device identify_resource = Some (0, res0, []))
    by (eexists; reflexivity).
  destruct Hinit as [res0 Hinit].
  destruct identify_six_phases_in_order as [Hsix [Hshort _]].
  split.
  - exists res0. apply (Hsix identify_resource res0 0 [] Hinit). lia.
  - exists res0. eexists. split.
    + apply (Hshort failing_scan_pre_regs identify_resource res0 res0 res0
                    0 0 (-5) [] _ [] [0%nat] [2; 3; 4; 5]%nat 1%nat
                    (mk_command_reg "scan-pre" (ret (-5)))
                    Hinit ltac:(lia) eq_refl eq_refl ltac:(lia) eq_refl eq_refl ltac:(lia)).
    + reflexivity.
Defined.

(** ** The command handler *)

Lemma cmd_handler_run (regs : list command_reg) (w : worker) (res : sid_resource command) :
  _cmd_handler regs w res =
    if cmd_protocol (res_data res) <=? UBRIDGE_PROTOCOL then
      match command_reg_at regs (cmd_type (res_data res)) with
      | None => None
      | Some reg =>
        match execute reg (with_response_header res) with
        | None => None
        | Some (r, res', ev) =>
          Some (r, res',
                ev ++ (if r <? 0
                       then [ev_log_error_errno (ID res') r execute_failure_msg]
                       else [])
                   ++ [ev_buffer_write (wrk_conn_fd w)
                         (buffer_frame (result_buf (res_data res'))
                            (final_response_header (cmd_protocol (res_data res)) r))])
        end
      end
    else
      Some (-1, with_response_header res,
            [ev_buffer_write (wrk_conn_fd w)
               (buffer_frame (result_buf (res_data (with_response_header res)))
                  (final_response_header 0 (-1)))]).
Proof.
  unfold _cmd_handler, bind, get_data, set_data, get_state, put_state, ret,
    buffer_write, emit, undefined, log_error_errno, sid_resource_get_data,
    with_response_header, final_response_header.
  simpl.
  destruct (cmd_protocol (res_data res) <=? UBRIDGE_PROTOCOL); [|reflexivity].
  destruct (command_reg_at regs (cmd_type (res_data res))) as [reg|]; [|reflexivity].
  match goal with |- context [execute reg ?x] => destruct (execute reg x) as [[[r res'] ev]|] end;
    [|reflexivity].
  simpl. destruct (r <? 0) eqn:E; simpl; rewrite ?E; simpl;
    rewrite <- ?app_assoc, ?app_nil_r; reflexivity.
Qed.

Lemma written_frame_last (evs : list event) (fd : Z) (f : frame) :
  written_frame (evs ++ [ev_buffer_write fd f]) = Some f.
Proof. unfold written_frame. now rewrite rev_unit. Qed.

Lemma buffer_frame_headers (buf : list iov_ref) (hdr h : raw_command_header) :
  In (data_header h) (frame_iov (buffer_frame buf hdr)) -> h = hdr.
Proof.
  unfold buffer_frame. simpl. rewrite in_map_iff.
  intros [[|] [Heq _]]; simpl in Heq; congruence.
Qed.

Lemma final_response_header_bit (protocol r : Z) :
  Z.testbit (hdr_status (final_response_header protocol r)) 0 = true <-> r < 0.
Proof.
  unfold final_response_header. simpl.
  destruct (Z.ltb_spec r 0); simpl; split; auto; try discriminate; lia.
Qed.

(** Whatever the command table, the response that the handler sends
    ends the run, and every header in it has the command number 0. *)
Lemma response_cmd_number_is_zero (regs : list command_reg) (w : worker)
      (res res' : sid_resource command) (r : Z) (evs : list event) :
  _cmd_handler regs w res = Some (r, res', evs) ->
  exists f,
    written_frame evs = Some f
    /\ forall h, In (data_header h) (frame_iov f) ->
                 hdr_cmd_number h = 0
                 /\ (Z.testbit (hdr_status h) 0 = true <-> r < 0).
Proof.
  rewrite cmd_handler_run.
  destruct (cmd_protocol (res_data res) <=? UBRIDGE_PROTOCOL).
  - destruct (command_reg_at regs (cmd_type (res_data res))) as [reg|]; [|discriminate].
    destruct (execute reg (with_response_header res)) as [[[r1 res1] ev1]|]; [|discriminate].
    intros [= <- <- <-]. eexists. split.
    + rewrite app_assoc. apply written_frame_last.
    + intros h Hin. apply buffer_frame_headers in Hin. subst h.
      split; [reflexivity|apply final_response_header_bit].
  - intros [= <- <- <-]. eexists. split.
    + apply (written_frame_last []).
    + intros h Hin. apply buffer_frame_headers in Hin. subst h.
      split; [reflexivity|apply final_response_header_bit].
Qed.

(** The header of a frame is the response header as soon as the buffer
    holds the entry that points to it. *)
Lemma frame_header_buffer_frame (buf : list iov_ref) (hdr : raw_command_header) :
  In ref_response_header buf -> frame_header (buffer_frame buf hdr) = Some hdr.
Proof.
  unfold frame_header, buffer_frame. cbn [frame_iov].
  induction buf as [|[|] buf IH]; simpl; intros H.
  - contradiction.
  - reflexivity.
  - apply IH. destruct H as [H|H]; [discriminate|exact H].
Qed.

Lemma with_response_header_has_header (res : sid_resource command) :
  In ref_response_header (result_buf (res_data (with_response_header res))).
Proof. simpl. unfold buffer_add. apply in_or_app. right. left. reflexivity. Qed.

(** Every entry of the table of the code returns, with a result that is
    not negative, and leaves in the result buffer what was there. *)
Lemma command_regs_return (res : sid_resource command) :
  0 <= cmd_type (res_data res) < __CMD_END ->
  raw_udev_env_len (cmd_dev (res_data res))
  = String.length (raw_udev_env (cmd_dev (res_data res))) ->
  exists reg r res' ev,
    command_reg_at _command_regs (cmd_type (res_data res)) = Some reg
    /\ execute reg res = Some (r, res', ev)
    /\ 0 <= r
    /\ (forall e, In e (result_buf (res_data res)) -> In e (result_buf (res_data res'))).
Proof.
  intros Htype Hlen. unfold __CMD_END in Htype.
  assert (H : cmd_type (res_data res) = 0 \/ cmd_type (res_data res) = 1
              \/ cmd_type (res_data res) = 2 \/ cmd_type (res_data res) = 3
              \/ cmd_type (res_data res) = 4) by lia.
  destruct H as [H|[H|[H|[H|H]]]]; rewrite H.
  - do 4 eexists. split; [reflexivity|]. split; [reflexivity|]. split; [lia|auto].
  - do 4 eexists. split; [reflexivity|]. split; [reflexivity|]. split; [lia|auto].
  - do 4 eexists. split; [reflexivity|]. split; [reflexivity|]. split; [lia|].
    intros e He. simpl. unfold buffer_add. apply in_or_app. left. exact He.
  - destruct (identify_code res Hlen) as [cmd' [Hbuf Hrun]].
    exists (mk_command_reg "identify" (_cmd_execute_identify _cmd_ident_phase_regs)).
    cbn [execute]. rewrite Hrun.
    destruct (malformedb _);
      do 3 eexists; (split; [reflexivity|]); (split; [reflexivity|]);
      (split; [lia|]); cbn [res_data]; rewrite Hbuf; auto.
  - do 4 eexists. split; [reflexivity|]. split; [reflexivity|]. split; [lia|auto].
Qed.

(** C5: whatever the command table, the handler sends one response,
    whose header has bit 0 of the status set if and only if the
    protocol of the request exceeds UBRIDGE_PROTOCOL or the entry of the
    table at the command number returns a negative value.
    - With a protocol above UBRIDGE_PROTOCOL nothing is executed: the
      handler returns -1 and only writes the response, whose header has
      the bit set.
    - Otherwise the entry at the command number is executed on the
      command: as soon as it returns and leaves the response header in
      the result buffer, the handler returns the same value and the
      same state, after the events of the entry it reports a negative
      value and writes the response, whose header carries the protocol
      of the request and has the bit set exactly when the value is
      negative.
    - The entries of the table of the code do return and keep the
      response header, for every command whose number is within the
      table.
    - Whenever the handler returns, the write of the response is the
      last thing it did, and every header in the frame has the bit set
      exactly under the condition above. *)
Theorem overall_bit_iff_protocol_or_execute_failure :
  forall (regs : list command_reg) (w : worker) (res : sid_resource command),
    let protocol := cmd_protocol (res_data res) in
    (UBRIDGE_PROTOCOL < protocol ->
     exists f h,
       _cmd_handler regs w res
       = Some (-1, with_response_header res, [ev_buffer_write (wrk_conn_fd w) f])
       /\ frame_header f = Some h
       /\ Z.testbit (hdr_status h) 0 = true)
    /\ (protocol <= UBRIDGE_PROTOCOL ->
        forall (reg : command_reg) (r : Z) (res' : sid_resource command)
               (ev : list event),
          command_reg_at regs (cmd_type (res_data res)) = Some reg ->
          execute reg (with_response_header res) = Some (r, res', ev) ->
          In ref_response_header (result_buf (res_data res')) ->
          exists f h,
            _cmd_handler regs w res
            = Some (r, res',
                    ev ++ (if r <? 0
                           then [ev_log_error_errno (ID res') r execute_failure_msg]
                           else [])
                       ++ [ev_buffer_write (wrk_conn_fd w) f])
            /\ frame_header f = Some h
            /\ hdr_protocol h = protocol
            /\ (Z.testbit (hdr_status h) 0 = true <-> r < 0))
    /\ (regs = _command_regs ->
        0 <= cmd_type (res_data res) < __CMD_END ->
        raw_udev_env_len (cmd_dev (res_data res))
        = String.length (raw_udev_env (cmd_dev (res_data res))) ->
        exists reg r res' ev,
          command_reg_at regs (cmd_type (res_data res)) = Some reg
          /\ execute reg (with_response_header res) = Some (r, res', ev)
          /\ In ref_response_header (result_buf (res_data res')))
    /\ (forall (r : Z) (res' : sid_resource command) (evs : list event),
          _cmd_handler regs w res = Some (r, res', evs) ->
          exists evs0 f,
            evs = evs0 ++ [ev_buffer_write (wrk_conn_fd w) f]
            /\ forall h, In (data_header h) (frame_iov f) ->
                 (Z.testbit (hdr_status h) 0 = true <->
                  UBRIDGE_PROTOCOL < protocol
                  \/ exists reg r0 res0 ev0,
                      command_reg_at regs (cmd_type (res_data res)) = Some reg
                      /\ execute reg (with_response_header res) = Some (r0, res0, ev0)
                      /\ r0 < 0)).
Proof.
  intros regs w res protocol. unfold protocol. clear protocol.
  split; [|split; [|split]].
  - intros Hp. rewrite cmd_handler_run.
    destruct (Z.leb_spec (cmd_protocol (res_data res)) UBRIDGE_PROTOCOL); [lia|].
    do 2 eexists. split; [reflexivity|]. split.
    + apply frame_header_buffer_frame, with_response_header_has_header.
    + reflexivity.
  - intros Hp reg r res' ev Hreg Hexec Hbuf. rewrite cmd_handler_run.
    destruct (Z.leb_spec (cmd_protocol (res_data res)) UBRIDGE_PROTOCOL); [|lia].
    rewrite Hreg, Hexec.
    do 2 eexists. split; [reflexivity|]. split.
    + apply frame_header_buffer_frame, Hbuf.
    + split; [reflexivity|apply final_response_header_bit].
  - intros -> Htype Hlen.
    destruct (command_regs_return (with_response_header res) Htype Hlen)
      as [reg [r [res' [ev [Hreg [Hexec [_ Hkeep]]]]]]].
    exists reg, r, res', ev. split; [exact Hreg|]. split; [exact Hexec|].
    apply Hkeep, with_response_header_has_header.
  - intros r res' evs. rewrite cmd_handler_run.
    destruct (Z.leb_spec (cmd_protocol (res_data res)) UBRIDGE_PROTOCOL) as [Hp|Hp].
    + destruct (command_reg_at regs (cmd_type (res_data res))) as [reg|]; [|discriminate].
      destruct (execute reg (with_response_header res)) as [[[r1 res1] ev1]|] eqn:Hexec;
        [|discriminate].
      intros [= <- <- <-]. do 2 eexists. split; [apply app_assoc|].
      intros h Hin. apply buffer_frame_headers in Hin. subst h.
      rewrite final_response_header_bit. split.
      * intros Hr. right. exists reg, r1, res1, ev1. auto.
      * intros [Hgt|[reg' [r0 [res0 [ev0 [Hreg [Hexec' Hr0]]]]]]]; [lia|].
        injection Hreg as <-. rewrite Hexec in Hexec'. now injection Hexec' as -> _ _.
    + intros [= <- <- <-]. exists [].
      eexists. split; [reflexivity|].
      intros h Hin. apply buffer_frame_headers in Hin. subst h.
      rewrite final_response_header_bit. split; [intros _; left; lia|lia].
Qed.

Lemma overall_bit_witness :
  (exists f h,
      _cmd_handler _command_regs some_worker version_resource
      = Some (0,
              mk_resource "1234/version"
                (set_result_buf (res_data version_resource)
                   [ref_response_header; ref_this_version]),
              [ev_buffer_write 7 f])
      /\ frame_header f = Some h
      /\ hdr_protocol h = 1
      /\ (Z.testbit (hdr_status h) 0 = true <-> 0 < 0))
  /\ (exists res' ev f h,
         _cmd_handler failing_command_regs some_worker identify_resource
         = Some (-5, res',
                 ev ++ [ev_log_error_errno (ID res') (-5) execute_failure_msg]
                    ++ [ev_buffer_write 7 f])
         /\ frame_header f = Some h
         /\ hdr_protocol h = 1
         /\ (Z.testbit (hdr_status h) 0 = true <-> -5 < 0)).
Proof.
  split.
  - destruct (overall_bit_iff_protocol_or_execute_failure _command_regs some_worker
                version_resource) as [_ [Hrun _]].
    apply (Hrun ltac:(simpl; unfold UBRIDGE_PROTOCOL; lia)
                (mk_command_reg "version" _cmd_execute_version) 0
                (mk_resource "1234/version"
                   (set_result_buf (res_data version_resource)
                      [ref_response_header; ref_this_version]))
                []).
    + reflexivity.
    + reflexivity.
    + simpl. auto.
  - destruct (overall_bit_iff_protocol_or_execute_failure failing_command_regs some_worker
                identify_resource) as [_ [Hrun _]].
    do 2 eexists.
    eapply (Hrun ltac:(simpl; unfold UBRIDGE_PROTOCOL; lia)
                 (mk_command_reg "identify" (_cmd_execute_identify failing_scan_pre_regs))
                 (-5)).
    + reflexivity.
    + reflexivity.
    + simpl. auto.
Defined.

(** C1: a payload that fails to decode makes [_init_device] return -1,
    but [_cmd_execute_identify] then returns 1, the value of the
    comparison [_init_device(cmd_res) < 0], not a negative value: no
    phase is called, and the response carries a status whose bit 0 is
    clear. *)
Theorem failed_decoding_is_answered_as_success :
  let res := mk_resource "1234/identify"
               (_init_command (identify_request ("FOO" ++ nul)%string)) in
  option_map (fun x => fst (fst x)) (_init_device res) = Some (-1)
  /\ option_map (fun x => (fst (fst x), phase_calls (snd x)))
                (_cmd_execute_identify _cmd_ident_phase_regs res) = Some (1, [])
  /\ option_map (fun x => (fst (fst x), phase_calls (snd x), response_status (snd x)))
                (_cmd_handler _command_regs some_worker res)
     = Some (1, [], Some COMMAND_STATUS_SUCCESS).
Proof. repeat split. Qed.

(** Any payload that fails to decode, whatever the phase table. *)
Lemma failed_decoding_returns_one (phase_regs : list command_reg)
      (res : sid_resource command) :
  raw_udev_env_len (cmd_dev (res_data res))
  = String.length (raw_udev_env (cmd_dev (res_data res))) ->
  malformed (raw_udev_env (cmd_dev (res_data res))) ->
  exists res0 ev0,
    _init_device res = Some (-1, res0, ev0)
    /\ _cmd_execute_identify phase_regs res = Some (1, res0, ev0)
    /\ phase_calls ev0 = [].
Proof.
  intros Hlen Hmal. apply malformedb_spec in Hmal.
  destruct (parse_total _ Hlen) as [cmd' [Hrun _]]. rewrite Hmal in Hrun.
  pose proof (init_device_run _ _ _ Hrun) as Hinit.
  do 2 eexists. split; [exact Hinit|]. split.
  - rewrite (identify_run _ _ _ _ _ Hinit). reflexivity.
  - reflexivity.
Qed.

(** C3: the response header starts as zeroes and its command number is
    never assigned: the answer to the version request of the
    specification is a frame of 20 bytes whose header has the status 0
    and the command number 0, not reply (1). *)
Theorem response_cmd_number_is_not_reply :
  option_map (fun x => (fst (fst x), written_frame (snd x), response_cmd_number (snd x)))
             (_cmd_handler _command_regs some_worker version_resource)
  = Some (0,
          Some (mk_frame 20 [data_header (mk_header UBRIDGE_PROTOCOL 0 0); data_version]),
          Some CMD_UNKNOWN)
  /\ CMD_UNKNOWN <> CMD_REPLY.
Proof. split; [reflexivity|discriminate]. Qed.

(** ** The connection of the worker *)

Lemma decimal_length (fuel : nat) (n : Z) (acc : string) :
  (String.length (decimal fuel n acc) <= S fuel + String.length acc)%nat.
Proof.
  revert n acc; induction fuel as [|fuel IH]; intros n acc; simpl.
  - lia.
  - destruct (n / 10 =? 0); simpl; [lia|].
    etransitivity; [apply IH|]. simpl. lia.
Qed.

Lemma string_of_int_length (n : Z) : (String.length (string_of_int n) <= 11)%nat.
Proof.
  unfold string_of_int. destruct (n <? 0); simpl String.length.
  - pose proof (decimal_length 9 (- n) EmptyString). simpl in *. lia.
  - pose proof (decimal_length 9 n EmptyString). simpl in *. lia.
Qed.

Lemma take_all (n : nat) (s : string) :
  (String.length s <= n)%nat -> take n s = s.
Proof.
  revert s; induction n as [|n IH]; intros [|a r]; simpl; intros H; auto; try lia.
  f_equal. apply IH. lia.
Qed.

Lemma length_append (s1 s2 : string) :
  String.length (s1 ++ s2) = (String.length s1 + String.length s2)%nat.
Proof. induction s1 as [|a r IH]; simpl; auto. Qed.

Example string_of_int_1234 : string_of_int 1234 = "1234".
Proof. reflexivity. Qed.

Example string_of_int_max : string_of_int 2147483647 = "2147483647".
Proof. reflexivity. Qed.

(** The identifier of an unknown command is never truncated. *)
Lemma unknown_id_fits (pid : Z) :
  take 30 (string_of_int pid ++ "/" ++ "unknown") = (string_of_int pid ++ "/unknown")%string.
Proof.
  apply take_all. rewrite length_append.
  pose proof (string_of_int_length pid). simpl. lia.
Qed.

(** A command number outside {1, 2, 3, 4} is sanitised to 0. *)
Lemma sanitised_unknown (c : Z) :
  ~ In c [CMD_REPLY; CMD_VERSION; CMD_IDENTIFY; CMD_CHECKPOINT] ->
  (c <=? __CMD_START) || (__CMD_END <=? c) = true.
Proof.
  unfold CMD_REPLY, CMD_VERSION, CMD_IDENTIFY, CMD_CHECKPOINT, __CMD_START, __CMD_END.
  simpl. intros H.
  destruct (Z.leb_spec c 0), (Z.leb_spec 5 c); auto.
  exfalso. apply H. assert (c = 1 \/ c = 2 \/ c = 3 \/ c = 4) by lia. intuition.
Qed.

Lemma bind_run {S A B : Type} (m : M S A) (f : A -> M S B) (s s' : S) (a : A)
      (ev : list event) :
  m s = Some (a, s', ev) ->
  bind m f s = match f a s' with
               | Some (b, s'', ev') => Some (b, s'', ev ++ ev')
               | None => None
               end.
Proof. intros H. unfold bind. now rewrite H. Qed.

Lemma sanitised_range (c : Z) : 0 <= sanitised c < __CMD_END.
Proof.
  unfold sanitised, __CMD_START, __CMD_END, CMD_UNKNOWN.
  destruct (Z.leb_spec c 0), (Z.leb_spec 5 c); simpl; lia.
Qed.

Lemma sanitised_cases (c : Z) :
  sanitised c = 0 \/ sanitised c = 1 \/ sanitised c = 2
  \/ sanitised c = 3 \/ sanitised c = 4.
Proof. pose proof (sanitised_range c). unfold __CMD_END in *. lia. Qed.

Lemma command_reg_at_sanitised (c : Z) :
  exists reg,
    command_reg_at _command_regs (sanitised c) = Some reg
    /\ name reg = command_name (sanitised c).
Proof.
  unfold command_name.
  destruct (sanitised_cases c) as [H|[H|[H|[H|H]]]]; rewrite H;
    eexists; split; reflexivity.
Qed.

Lemma command_id_fits (pid c : Z) :
  take 30 (string_of_int pid ++ "/" ++ command_name (sanitised c))
  = (string_of_int pid ++ "/" ++ command_name (sanitised c))%string.
Proof.
  apply take_all. rewrite length_append.
  pose proof (string_of_int_length pid) as Hpid.
  destruct (sanitised_cases c) as [H|[H|[H|[H|H]]]]; rewrite H; simpl; lia.
Qed.

(** What [_init_command] logs does not depend on the frame. *)
Lemma init_command_hook_log (c : command_init_env) (short : bool) (id : string)
      (raw_cmd raw_cmd' : raw_command) :
  snd (_init_command_hook c short id raw_cmd) = snd (_init_command_hook c short id raw_cmd').
Proof.
  unfold _init_command_hook.
  destruct (negb (ci_alloc_ok c)), (negb (ci_buf_ok c)), (short || negb (ci_env_ok c)),
    (negb (ci_es_ok c)); reflexivity.
Qed.

(** The creation of a command in closed form. *)
Lemma create_command_run (c : command_init_env) (short : bool) (id : string)
      (raw_cmd : raw_command) (res : sid_resource worker) :
  sid_resource_create_command c short id raw_cmd res
  = if ci_node_ok c && ci_alloc_ok c && ci_buf_ok c && negb short && ci_env_ok c
       && ci_es_ok c
    then Some (true, add_command res (mk_resource id (_init_command raw_cmd)), [])
    else Some (false, res,
               if negb (ci_node_ok c) then []
               else snd (_init_command_hook c short id raw_cmd)).
Proof.
  unfold sid_resource_create_command, _init_command_hook.
  destruct c as [n a b e s]; destruct short, n, a, b, e, s; destruct res; reflexivity.
Qed.

(** The connection handler when the read gave data. *)
Lemma conn_event_with_frame (env : conn_env) (revents : Z) (res : sid_resource worker) :
  Z.land revents EPOLLERR = 0 ->
  0 < env_read env ->
  _on_worker_conn_event env revents res
  = if env_complete env then
      if command_created env
      then Some (0, add_command res (created_command env), [])
      else Some (0, res,
                 creation_log env (res_id (created_command env))
                 ++ [ev_log_error (res_id res) register_failure_msg])
    else Some (0, res, []).
Proof.
  intros Herr Hread.
  unfold _on_worker_conn_event. rewrite Herr. simpl negb. cbv iota.
  destruct (Z.ltb_spec 0 (env_read env)); [|lia].
  destruct (env_complete env); [|destruct res; reflexivity].
  set (c := hdr_cmd_number (rc_header (env_raw_cmd env))).
  assert (Hhdr : (if (c <=? __CMD_START) || (__CMD_END <=? c)
                  then set_hdr_cmd_number (rc_header (env_raw_cmd env)) CMD_UNKNOWN
                  else rc_header (env_raw_cmd env))
                 = set_hdr_cmd_number (rc_header (env_raw_cmd env)) (sanitised c)).
  { unfold sanitised. destruct ((c <=? __CMD_START) || (__CMD_END <=? c)); [reflexivity|].
    unfold c. destruct (rc_header (env_raw_cmd env)). reflexivity. }
  rewrite Hhdr. cbn [set_hdr_cmd_number hdr_cmd_number].
  destruct (command_reg_at_sanitised c) as [reg [Hreg Hname]].
  rewrite Hreg, Hname, command_id_fits.
  change (negb (0 =? 0)) with false. cbv iota.
  unfold bind at 1 2. rewrite create_command_run.
  unfold command_created, creation_log, created_command. fold c. cbn [res_id].
  destruct (ci_node_ok (env_create env) && ci_alloc_ok (env_create env)
            && ci_buf_ok (env_create env)
            && negb (env_short env) && ci_env_ok (env_create env)
            && ci_es_ok (env_create env)).
  - reflexivity.
  - destruct res. cbn [res_id]. unfold log_error, bind, get_state, emit, ret, ID.
    cbn [res_id]. rewrite app_nil_r.
    rewrite (init_command_hook_log _ _ _ _ (env_raw_cmd env)). reflexivity.
Qed.

(** Every line that a creation logs is an error issued for the command
    that was to be created. *)
Lemma creation_log_id (env : conn_env) (id : string) (e : event) :
  In e (creation_log env id) -> exists msg, e = ev_log_error id msg.
Proof.
  unfold creation_log, _init_command_hook.
  destruct (negb (ci_node_ok (env_create env))); [intros []|].
  destruct (negb (ci_alloc_ok (env_create env)));
    [intros [<-|[]]; eexists; reflexivity|].
  destruct (negb (ci_buf_ok (env_create env)));
    [intros [<-|[]]; eexists; reflexivity|].
  destruct (env_short env || negb (ci_env_ok (env_create env)));
    [intros [<-|[]]; eexists; reflexivity|].
  destruct (negb (ci_es_ok (env_create env)));
    [intros [<-|[]]; eexists; reflexivity|intros []].
Qed.

(** The command of a frame whose number is out of range. *)
Lemma created_command_unknown (env : conn_env) :
  ~ In (hdr_cmd_number (rc_header (env_raw_cmd env)))
       [CMD_REPLY; CMD_VERSION; CMD_IDENTIFY; CMD_CHECKPOINT] ->
  created_command env = unknown_command env.
Proof.
  intros Hcmd. unfold created_command, unknown_command, sanitised.
  rewrite (sanitised_unknown _ Hcmd). reflexivity.
Qed.

(** C4: for a complete frame read without error whose command number is
    outside {1, 2, 3, 4}, the command number is set to unknown (0)
    before the command is created, under the identifier <pid>/unknown:
    when the creation succeeds the command is appended to the worker
    and nothing is logged; when it fails the worker is left as it is
    and what is logged is the error of [_init_command], under the
    identifier <pid>/unknown, and then the failure of the registration.
    The entry of the table for the command is "unknown", whose
    execution is a no-op returning 0. When the protocol of the request
    does not exceed UBRIDGE_PROTOCOL the handler returns 0 and its only
    effect is the write of the response, whose status has bit 0 clear;
    with a higher protocol nothing is executed, the handler returns -1
    and the status of the response has bit 0 set. *)
Theorem unknown_command_is_normalised_and_answered :
  forall (env : conn_env) (revents : Z) (res : sid_resource worker) (w : worker),
    Z.land revents EPOLLERR = 0 ->
    0 < env_read env ->
    env_complete env = true ->
    ~ In (hdr_cmd_number (rc_header (env_raw_cmd env)))
         [CMD_REPLY; CMD_VERSION; CMD_IDENTIFY; CMD_CHECKPOINT] ->
    let cmd_res := unknown_command env in
    let protocol := hdr_protocol (rc_header (env_raw_cmd env)) in
    _on_worker_conn_event env revents res
    = (if command_created env
       then Some (0, add_command res cmd_res, [])
       else Some (0, res,
                  creation_log env (ID cmd_res)
                  ++ [ev_log_error (ID res) register_failure_msg]))
    /\ ID cmd_res = (string_of_int (env_pid env) ++ "/unknown")%string
    /\ (forall e, In e (creation_log env (ID cmd_res)) ->
                  exists msg, e = ev_log_error (ID cmd_res) msg)
    /\ cmd_type (res_data cmd_res) = CMD_UNKNOWN
    /\ cmd_protocol (res_data cmd_res) = protocol
    /\ command_reg_at _command_regs (cmd_type (res_data cmd_res))
       = Some (mk_command_reg "unknown" _cmd_execute_unknown)
    /\ (forall c, _cmd_execute_unknown c = Some (0, c, []))
    /\ (protocol <= UBRIDGE_PROTOCOL ->
        exists f,
          _cmd_handler _command_regs w cmd_res
          = Some (0, with_response_header cmd_res, [ev_buffer_write (wrk_conn_fd w) f])
          /\ frame_header f = Some (mk_header protocol 0 COMMAND_STATUS_SUCCESS)
          /\ Z.land COMMAND_STATUS_SUCCESS COMMAND_STATUS_MASK_OVERALL = 0)
    /\ (UBRIDGE_PROTOCOL < protocol ->
        exists f,
          _cmd_handler _command_regs w cmd_res
          = Some (-1, with_response_header cmd_res, [ev_buffer_write (wrk_conn_fd w) f])
          /\ frame_header f = Some (mk_header 0 0 COMMAND_STATUS_FAILURE)
          /\ Z.land COMMAND_STATUS_FAILURE COMMAND_STATUS_MASK_OVERALL <> 0).
Proof.
  intros env revents res w Herr Hread Hcomplete Hcmd cmd_res protocol.
  unfold cmd_res, protocol. clear cmd_res protocol.
  split; [|split; [reflexivity|split; [|split; [reflexivity|split; [reflexivity|
    split; [reflexivity|split; [reflexivity|split]]]]]]].
  - rewrite (conn_event_with_frame _ _ _ Herr Hread), Hcomplete,
      (created_command_unknown _ Hcmd). reflexivity.
  - intros e. apply creation_log_id.
  - intros Hproto. rewrite cmd_handler_run.
    cbn [unknown_command res_data _init_command cmd_protocol cmd_type rc_header
         set_hdr_cmd_number hdr_protocol hdr_cmd_number].
    destruct (Z.leb_spec (hdr_protocol (rc_header (env_raw_cmd env))) UBRIDGE_PROTOCOL);
      [|lia].
    eexists. split; [reflexivity|]. split; reflexivity.
  - intros Hproto. rewrite cmd_handler_run.
    cbn [unknown_command res_data _init_command cmd_protocol cmd_type rc_header
         set_hdr_cmd_number hdr_protocol hdr_cmd_number].
    destruct (Z.leb_spec (hdr_protocol (rc_header (env_raw_cmd env))) UBRIDGE_PROTOCOL);
      [lia|].
    eexists. split; [reflexivity|]. split; [reflexivity|discriminate].
Qed.

Lemma unknown_command_witness :
  _on_worker_conn_event supported_protocol_env 1 worker_resource
  = Some (0, add_command worker_resource (unknown_command supported_protocol_env), [])
  /\ ID (unknown_command supported_protocol_env) = "1234/unknown"
  /\ (exists f,
         _cmd_handler _command_regs some_worker (unknown_command supported_protocol_env)
         = Some (0, with_response_header (unknown_command supported_protocol_env),
                 [ev_buffer_write (wrk_conn_fd some_worker) f])
         /\ frame_header f = Some (mk_header 1 0 COMMAND_STATUS_SUCCESS)
         /\ Z.land COMMAND_STATUS_SUCCESS COMMAND_STATUS_MASK_OVERALL = 0).
Proof.
  assert (Hcmd : ~ In (hdr_cmd_number (rc_header (env_raw_cmd supported_protocol_env)))
                      [CMD_REPLY; CMD_VERSION; CMD_IDENTIFY; CMD_CHECKPOINT]).
  { simpl. intros H. repeat (destruct H as [H|H]; [discriminate H|]). exact H. }
  destruct (unknown_command_is_normalised_and_answered supported_protocol_env 1
              worker_resource some_worker eq_refl eq_refl eq_refl Hcmd)
    as [Hrun [Hid [_ [_ [_ [_ [_ [Hok _]]]]]]]].
  split; [exact Hrun|]. split; [exact Hid|].
  apply Hok. simpl. unfold UBRIDGE_PROTOCOL. lia.
Defined.

(** The command number 99 is outside {1, 2, 3, 4}. With the protocol 2
    the command is created as <pid>/unknown, but nothing is executed,
    the handler returns -1 and the status of the response has bit 0
    set. With the protocol 1, when the command structure cannot be
    allocated, and when the frame is too short to hold a header, no
    command is registered: the worker is left as it is, the failure is
    logged and there is nothing to answer. *)
Lemma unknown_command_fails_or_is_not_registered :
  ~ In 99 [CMD_REPLY; CMD_VERSION; CMD_IDENTIFY; CMD_CHECKPOINT]
  /\ hdr_cmd_number (rc_header (env_raw_cmd unsupported_protocol_env)) = 99
  /\ hdr_cmd_number (rc_header (env_raw_cmd failed_allocation_env)) = 99
  /\ hdr_cmd_number (rc_header (env_raw_cmd short_frame_env)) = 99
  /\ _on_worker_conn_event unsupported_protocol_env 1 worker_resource
     = Some (0, add_command worker_resource (unknown_command unsupported_protocol_env), [])
  /\ res_id (unknown_command unsupported_protocol_env) = "1234/unknown"
  /\ cmd_type (res_data (unknown_command unsupported_protocol_env)) = CMD_UNKNOWN
  /\ option_map (fun x => (fst (fst x), response_status (snd x)))
                (_cmd_handler _command_regs some_worker
                              (unknown_command unsupported_protocol_env))
     = Some (-1, Some COMMAND_STATUS_FAILURE)
  /\ Z.land COMMAND_STATUS_FAILURE COMMAND_STATUS_MASK_OVERALL <> 0
  /\ _on_worker_conn_event failed_allocation_env 1 worker_resource
     = Some (0, worker_resource,
             [ev_log_error "1234/unknown" "Failed to allocate new command structure.";
              ev_log_error "1234" register_failure_msg])
  /\ _on_worker_conn_event short_frame_env 1 worker_resource
     = Some (0, worker_resource,
             [ev_log_error "1234/unknown"
                "Failed to allocate memory for command's environment variables.";
              ev_log_error "1234" register_failure_msg]).
Proof.
  split; [|repeat split; discriminate].
  simpl. intros H. repeat (destruct H as [H|H]; [discriminate H|]). exact H.
Qed.

(** ** The observer *)

(** C10: a control message whose byte is neither 1 nor 2 makes
    [_on_observer_comms_event] return 0 and changes nothing in the
    observer: neither [worker_state] nor [idle_timeout_es]. *)
Theorem other_control_byte_changes_nothing :
  forall (res : sid_resource observer) (rcv : recv_result) (now : Z),
    0 <= recv_ret rcv ->
    recv_buf0 rcv <> INTERNAL_COMMS_CMD_RUNNING ->
    recv_buf0 rcv <> INTERNAL_COMMS_CMD_IDLE ->
    _on_observer_comms_event rcv now res = Some (0, res, []).
Proof.
  intros res rcv now Hret Hrun Hidle. unfold _on_observer_comms_event.
  destruct (Z.ltb_spec (recv_ret rcv) 0); [lia|].
  destruct (Z.eqb_spec (recv_buf0 rcv) INTERNAL_COMMS_CMD_RUNNING); [contradiction|].
  destruct (Z.eqb_spec (recv_buf0 rcv) INTERNAL_COMMS_CMD_IDLE); [contradiction|].
  reflexivity.
Qed.

Lemma other_control_byte_witness :
  _on_observer_comms_event (mk_recv 1 3 (-1)) 2000 armed_observer
  = Some (0, armed_observer, []).
Proof.
  apply other_control_byte_changes_nothing.
  - simpl. lia.
  - discriminate.
  - discriminate.
Defined.

(** ** Which entries are ignored *)

Lemma uchar_inj (a b : ascii) : uchar a = uchar b -> a = b.
Proof.
  unfold uchar. intros H. apply N2Z.inj in H.
  rewrite <- (ascii_N_embedding a), <- (ascii_N_embedding b). now rewrite H.
Qed.

Lemma strchr_key (k v : string) :
  string_has "=" k = false ->
  strchr (k ++ String "=" v) "=" = Some (String.length k).
Proof.
  induction k as [|a r IH]; simpl.
  - reflexivity.
  - intros H. apply orb_false_iff in H as [Ha Hr].
    rewrite Ha, (IH Hr). reflexivity.
Qed.

(** Over the length of the key, [strncmp] tells whether the key is a
    prefix of the name it is compared with. *)
Lemma strncmp_key (k rest lit : string) :
  string_has NUL k = false ->
  (strncmp (k ++ rest) lit (String.length k) =? 0) = is_prefix k lit.
Proof.
  revert lit; induction k as [|a r IH]; intros lit Hnul.
  - reflexivity.
  - simpl in Hnul. apply orb_false_iff in Hnul as [Ha Hr].
    simpl. destruct lit as [|c l].
    + apply Z.eqb_neq. intros H0. apply Ascii.eqb_neq in Ha. apply Ha.
      apply uchar_inj. rewrite H0. reflexivity.
    + destruct (Ascii.eqb_spec a c) as [->|Hne]; simpl.
      * now apply IH.
      * apply Z.eqb_neq. intros H0. apply Hne, uchar_inj. lia.
Qed.

(** X6: An entry whose key is a prefix of no recognised key is ignored: the
    device is left as it is, and 0 is returned. *)
Lemma unrelated_key_is_ignored (dev : device) (k v : string) :
  string_has "=" k = false ->
  string_has NUL k = false ->
  (forall key, In key recognised_keys -> is_prefix k key = false) ->
  _device_add_field dev (k ++ String "=" v) = (0, dev).
Proof.
  intros Heq Hnul Hpre. unfold _device_add_field.
  pose proof (strchr_key k v Heq) as Hk. rewrite Hk, (strchr_eq_get _ _ Hk).
  simpl Ascii.eqb. cbv iota.
  rewrite !strncmp_key by assumption.
  rewrite !Hpre by (simpl; tauto).
  reflexivity.
Qed.

Example unrelated_key_example :
  _device_add_field (zeroed_device "" 0) "SUBSYSTEM=block" = (0, zeroed_device "" 0).
Proof. reflexivity. Qed.

(** An entry with a recognised key sets the field of that key. *)
Lemma recognised_keys_set_fields (dev : device) (v : string) :
  _device_add_field dev ("ACTION=" ++ v)
  = (0, set_dev_action dev (util_get_udev_action_from_string v))
  /\ _device_add_field dev ("DEVNAME=" ++ v) = (0, set_dev_name dev v)
  /\ _device_add_field dev ("DEVTYPE=" ++ v) = (0, set_dev_type dev v)
  /\ _device_add_field dev ("MAJOR=" ++ v) = (0, set_dev_major dev (atoi v))
  /\ _device_add_field dev ("MINOR=" ++ v) = (0, set_dev_minor dev (atoi v))
  /\ _device_add_field dev ("SYNTH_UUID=" ++ v) = (0, set_dev_synth_uuid dev v).
Proof. repeat split. Qed.

(** ** The commands that the code creates *)

Lemma length_take (n : nat) (s : string) :
  String.length (take n s) = Nat.min n (String.length s).
Proof.
  revert s; induction n as [|n IH]; intros [|a r]; simpl; auto.
Qed.

(** The buffer of a command that [_init_command] creates has the length
    that the command records. *)
Lemma init_command_env_len (raw_cmd : raw_command) :
  raw_udev_env_len (cmd_dev (_init_command raw_cmd))
  = String.length (raw_udev_env (cmd_dev (_init_command raw_cmd))).
Proof.
  unfold _init_command.
  cbn [cmd_dev raw_udev_env_len raw_udev_env zeroed_device].
  rewrite length_take.
  assert (H : (Z.to_nat (wrap 64 (rc_len raw_cmd - sizeof_raw_command_header))
               <= String.length (rc_data raw_cmd))%nat).
  { unfold rc_len, wrap.
    replace (sizeof_raw_command_header + Z.of_nat (String.length (rc_data raw_cmd))
             - sizeof_raw_command_header)
      with (Z.of_nat (String.length (rc_data raw_cmd))) by lia.
    assert (Z.of_nat (String.length (rc_data raw_cmd)) mod 2 ^ 64
            <= Z.of_nat (String.length (rc_data raw_cmd)))
      by (apply Z.mod_le; lia).
    lia. }
  lia.
Qed.

(** The identify command of the code never returns a negative value,
    whatever the request. *)
Lemma identify_never_fails (id : string) (raw_cmd : raw_command) :
  exists r res' evs,
    _cmd_execute_identify _cmd_ident_phase_regs (mk_resource id (_init_command raw_cmd))
    = Some (r, res', evs)
    /\ 0 <= r.
Proof.
  destruct (identify_code (mk_resource id (_init_command raw_cmd))
                          (init_command_env_len raw_cmd)) as [cmd' [_ Hrun]].
  rewrite Hrun.
  destruct (malformedb _); do 3 eexists; (split; [reflexivity|lia]).
Qed.

(** The phase table has an entry for each of the six phases of the loop
    and none for the trigger-action phases. *)
Example phase_table_entries :
  map (fun phase => option_map name (nth_error _cmd_ident_phase_regs phase)) ident_phases
  = [ Some "ident"; Some "scan-pre"; Some "scan-core-current";
      Some "scan-core-next-basic"; Some "scan-core-next-extended"; Some "scan-post" ]
  /\ nth_error _cmd_ident_phase_regs CMD_IDENT_PHASE_TRIGGER_ACTION_CURRENT = None
  /\ nth_error _cmd_ident_phase_regs CMD_IDENT_PHASE_TRIGGER_ACTION_NEXT = None.
Proof. repeat split. Qed.

(** * Further properties of the code *)

(** ** The decoding as a fold over the entries *)

Lemma parse_loop_decode (fuel i : nat) (dev : device) :
  raw_udev_env_len dev = String.length (raw_udev_env dev) ->
  (raw_udev_env_len dev - i <= fuel)%nat ->
  _parse_cmd_nullstr_udev_env_loop fuel i dev
  = Some (decode_payload (drop i (raw_udev_env dev)) dev).
Proof.
  revert i dev; induction fuel as [|fuel IH]; intros i dev Hlen Hfuel.
  - simpl. destruct (Nat.ltb_spec i (raw_udev_env_len dev)); [lia|].
    rewrite drop_all by lia. reflexivity.
  - simpl. destruct (Nat.ltb_spec i (raw_udev_env_len dev)) as [Hi|Hi].
    2:{ rewrite drop_all by lia. reflexivity. }
    set (str := drop i (raw_udev_env dev)).
    assert (Hstr : String.length str = (raw_udev_env_len dev - i)%nat)
      by (unfold str; rewrite length_drop; lia).
    rewrite <- Hstr.
    destruct (memchr str NUL (String.length str)) as [delim|] eqn:Hm.
    + destruct (memchr_nul_some _ _ Hm) as [Hsplit Hd].
      assert (Hrest : drop (S delim) str = drop (i + delim + 1) (raw_udev_env dev)).
      { unfold str. rewrite drop_drop. f_equal. lia. }
      rewrite Hrest in Hsplit.
      unfold decode_payload, entries at 1, unterminated at 1. rewrite Hsplit.
      cbn [fst snd decode_entries].
      pose proof (device_add_field_env dev (take delim str)) as [He Hl].
      destruct (_device_add_field dev (take delim str)) as [r dev1].
      simpl in He, Hl.
      destruct (r <? 0).
      * reflexivity.
      * rewrite (IH (i + delim + 1)%nat dev1) by (try congruence; lia).
        unfold decode_payload. rewrite He. reflexivity.
    + unfold decode_payload, entries, unterminated.
      rewrite (memchr_nul_none _ Hm). simpl.
      destruct str; [simpl in Hstr; lia|reflexivity].
Qed.

Lemma parse_decode (cmd : command) :
  raw_udev_env_len (cmd_dev cmd) = String.length (raw_udev_env (cmd_dev cmd)) ->
  _parse_cmd_nullstr_udev_env cmd
  = Some (fst (decode_payload (raw_udev_env (cmd_dev cmd)) (cmd_dev cmd)),
          set_cmd_dev cmd
            (snd (decode_payload (raw_udev_env (cmd_dev cmd)) (cmd_dev cmd)))).
Proof.
  intros Hlen. unfold _parse_cmd_nullstr_udev_env.
  rewrite (parse_loop_decode _ 0 _ Hlen) by lia. simpl drop.
  destruct (decode_payload (raw_udev_env (cmd_dev cmd)) (cmd_dev cmd)). reflexivity.
Qed.

(** X1: The pointer loop of [_parse_cmd_nullstr_udev_env] computes the fold
    of [_device_add_field] over the NUL-terminated entries of the
    buffer, stopped with [-EINVAL] by the first entry that is refused
    and, after the entries, by a rest without NUL. *)
Theorem parse_is_decode_payload :
  forall cmd : command,
    raw_udev_env_len (cmd_dev cmd) = String.length (raw_udev_env (cmd_dev cmd)) ->
    _parse_cmd_nullstr_udev_env cmd
    = Some (fst (decode_payload (raw_udev_env (cmd_dev cmd)) (cmd_dev cmd)),
            set_cmd_dev cmd
              (snd (decode_payload (raw_udev_env (cmd_dev cmd)) (cmd_dev cmd)))).
Proof. exact parse_decode. Qed.

Lemma parse_is_decode_payload_witness :
  _parse_cmd_nullstr_udev_env empty_value_command
  = Some (fst (decode_payload (raw_udev_env (cmd_dev empty_value_command))
                              (cmd_dev empty_value_command)),
          set_cmd_dev empty_value_command
            (snd (decode_payload (raw_udev_env (cmd_dev empty_value_command))
                                 (cmd_dev empty_value_command)))).
Proof.
  apply parse_is_decode_payload. reflexivity.
Defined.

Lemma device_add_field_refused (dev : device) (key : string) :
  string_has "=" key = false -> _device_add_field dev key = (-1, dev).
Proof.
  intros H. apply strchr_eq_has in H. unfold _device_add_field. now rewrite H.
Qed.

Lemma device_add_field_accepted (dev : device) (key : string) :
  string_has "=" key = true -> fst (_device_add_field dev key) = 0.
Proof.
  intros H. rewrite device_add_field_result.
  destruct (strchr key "=") eqn:E; [reflexivity|].
  apply strchr_eq_has in E. congruence.
Qed.

(** X4: [_device_add_field] returns -1 exactly for an entry without '=',
    and then leaves the whole device as it is; for any other entry it
    returns 0; and it never touches the raw buffer nor its length. *)
Theorem device_add_field_refuses_only_without_equals :
  forall (dev : device) (key : string),
    (string_has "=" key = false -> _device_add_field dev key = (-1, dev))
    /\ (string_has "=" key = true -> fst (_device_add_field dev key) = 0)
    /\ (fst (_device_add_field dev key) = -1 \/ fst (_device_add_field dev key) = 0)
    /\ raw_udev_env (snd (_device_add_field dev key)) = raw_udev_env dev
    /\ raw_udev_env_len (snd (_device_add_field dev key)) = raw_udev_env_len dev.
Proof.
  intros dev key. split; [apply device_add_field_refused|].
  split; [apply device_add_field_accepted|]. split.
  - rewrite device_add_field_result. destruct (strchr key "="); auto.
  - apply device_add_field_env.
Qed.

Lemma device_add_field_refuses_witness :
  _device_add_field (zeroed_device "" 0) "MAJOR" = (-1, zeroed_device "" 0)
  /\ fst (_device_add_field (zeroed_device "" 0) "MAJOR=") = 0.
Proof.
  destruct (device_add_field_refuses_only_without_equals (zeroed_device "" 0) "MAJOR")
    as [Hno _].
  destruct (device_add_field_refuses_only_without_equals (zeroed_device "" 0) "MAJOR=")
    as [_ [Hyes _]].
  split; [apply Hno|apply Hyes]; reflexivity.
Defined.

Lemma decode_entries_accepted (es rest : list string) (dev : device) :
  Forall (fun e => string_has "=" e = true) es ->
  decode_entries (es ++ rest) dev = decode_entries rest (add_fields es dev).
Proof.
  intros H. revert dev. induction H as [|e es He Hes IH]; intros dev; simpl.
  - reflexivity.
  - pose proof (device_add_field_accepted dev e He) as H0.
    destruct (_device_add_field dev e) as [r dev']. simpl in H0. subst r.
    simpl. apply IH.
Qed.

Lemma decode_entries_all_accepted (es : list string) (dev : device) :
  Forall (fun e => string_has "=" e = true) es ->
  decode_entries es dev = (0, add_fields es dev).
Proof.
  intros H. pose proof (decode_entries_accepted es [] dev H) as H0.
  now rewrite app_nil_r in H0.
Qed.

(** X2: A payload whose entries all contain '=' and which ends with a NUL
    (or is empty) decodes with the result 0, and the device is the one
    obtained by giving the entries to [_device_add_field] in order, so
    that a later entry overrides an earlier one with the same key. *)
Theorem well_formed_payload_is_folded :
  forall cmd : command,
    raw_udev_env_len (cmd_dev cmd) = String.length (raw_udev_env (cmd_dev cmd)) ->
    Forall (fun e => string_has "=" e = true) (entries (raw_udev_env (cmd_dev cmd))) ->
    unterminated (raw_udev_env (cmd_dev cmd)) = EmptyString ->
    _parse_cmd_nullstr_udev_env cmd
    = Some (0, set_cmd_dev cmd
                 (add_fields (entries (raw_udev_env (cmd_dev cmd))) (cmd_dev cmd))).
Proof.
  intros cmd Hlen Hall Hrest. rewrite (parse_decode _ Hlen).
  unfold decode_payload.
  rewrite (decode_entries_all_accepted _ _ Hall), Hrest. reflexivity.
Qed.

Lemma well_formed_payload_witness :
  _parse_cmd_nullstr_udev_env
    (command_of_payload (payload_of ["MAJOR=8"; "MINOR=1"; "MAJOR=9"]))
  = Some (0, set_cmd_dev
               (command_of_payload (payload_of ["MAJOR=8"; "MINOR=1"; "MAJOR=9"]))
               (set_dev_major
                  (set_dev_minor
                     (set_dev_major (zeroed_device
                                       (payload_of ["MAJOR=8"; "MINOR=1"; "MAJOR=9"]) 24) 8)
                     1)
                  9)).
Proof.
  rewrite well_formed_payload_is_folded.
  - reflexivity.
  - reflexivity.
  - repeat constructor.
  - reflexivity.
Defined.

(** X3: When an entry without '=' stops the decoding, the fields set by the
    entries before it stay set: the device is not restored, and the
    entries after it are not looked at. *)
Theorem failed_decoding_keeps_earlier_fields :
  forall (cmd : command) (es more : list string) (bad : string),
    raw_udev_env_len (cmd_dev cmd) = String.length (raw_udev_env (cmd_dev cmd)) ->
    entries (raw_udev_env (cmd_dev cmd)) = es ++ bad :: more ->
    Forall (fun e => string_has "=" e = true) es ->
    string_has "=" bad = false ->
    _parse_cmd_nullstr_udev_env cmd
    = Some (- EINVAL, set_cmd_dev cmd (add_fields es (cmd_dev cmd))).
Proof.
  intros cmd es more bad Hlen Hent Hall Hbad.
  rewrite (parse_decode _ Hlen).
  unfold decode_payload. rewrite Hent, (decode_entries_accepted _ _ _ Hall).
  simpl. rewrite (device_add_field_refused _ _ Hbad). reflexivity.
Qed.

Lemma failed_decoding_keeps_witness :
  _parse_cmd_nullstr_udev_env
    (command_of_payload (payload_of ["MAJOR=8"; "FOO"; "MINOR=1"]))
  = Some (- EINVAL,
          set_cmd_dev (command_of_payload (payload_of ["MAJOR=8"; "FOO"; "MINOR=1"]))
            (set_dev_major
               (zeroed_device (payload_of ["MAJOR=8"; "FOO"; "MINOR=1"]) 20) 8)).
Proof.
  rewrite (failed_decoding_keeps_earlier_fields _ ["MAJOR=8"] ["MINOR=1"] "FOO").
  - reflexivity.
  - reflexivity.
  - reflexivity.
  - repeat constructor.
  - reflexivity.
Defined.

(** ** Which key an entry is taken for *)

(** X5: For an entry [k=v], the field that is set is that of the first
    recognised key, in the order ACTION, DEVNAME, DEVTYPE, MAJOR, MINOR,
    SEQNUM, SYNTH_UUID, of which [k] is a prefix (the key itself
    included), the base of SEQNUM being the length of [k]; when [k] is a
    prefix of none, nothing is set. *)
Theorem entry_is_taken_for_first_key_with_prefix :
  forall (dev : device) (k v : string),
    string_has "=" k = false ->
    string_has NUL k = false ->
    _device_add_field dev (k ++ String "=" v)
    = (0, match find (is_prefix k) recognised_keys with
          | Some key => apply_key key (String.length k) v dev
          | None => dev
          end).
Proof.
  intros dev k v Heq Hnul. unfold _device_add_field.
  pose proof (strchr_key k v Heq) as Hk. rewrite Hk, (strchr_eq_get _ _ Hk).
  simpl Ascii.eqb. cbv iota.
  rewrite !strncmp_key by assumption.
  assert (Hv : drop (S (String.length k)) (k ++ String "=" v) = v).
  { clear. induction k as [|a r IH]; simpl; auto. }
  rewrite Hv. unfold recognised_keys, find.
  repeat match goal with
         | |- context [if is_prefix k ?s then _ else _] => destruct (is_prefix k s)
         end; reflexivity.
Qed.

Lemma entry_is_taken_for_first_key_witness :
  _device_add_field (zeroed_device "" 0) "DEV=sda"
  = (0, set_dev_name (zeroed_device "" 0) "sda").
Proof.
  apply (entry_is_taken_for_first_key_with_prefix (zeroed_device "" 0) "DEV" "sda");
    reflexivity.
Defined.

Lemma unrelated_key_witness :
  _device_add_field (zeroed_device "" 0) "SUBSYSTEM=block" = (0, zeroed_device "" 0).
Proof.
  apply (unrelated_key_is_ignored (zeroed_device "" 0) "SUBSYSTEM" "block").
  - reflexivity.
  - reflexivity.
  - intros key Hin. simpl in Hin.
    repeat (destruct Hin as [<-|Hin]; [reflexivity|]). contradiction.
Defined.

(** ** Every frame gives a command within the table *)



(** ** The response to every request *)



(** X7: Whatever the phase table, an identify command whose payload does
    not decode returns 1 after [_init_device] returned -1 and logged the
    error: no phase is called. *)
Theorem undecodable_identify_returns_one :
  forall (phase_regs : list command_reg) (res : sid_resource command),
    raw_udev_env_len (cmd_dev (res_data res))
    = String.length (raw_udev_env (cmd_dev (res_data res))) ->
    malformed (raw_udev_env (cmd_dev (res_data res))) ->
    exists res0,
      _init_device res
      = Some (-1, res0, [ev_log_error_errno (res_id res) (- EINVAL) init_device_failure_msg])
      /\ _cmd_execute_identify phase_regs res
         = Some (1, res0,
                 [ev_log_error_errno (res_id res) (- EINVAL) init_device_failure_msg])
      /\ res_id res0 = res_id res
      /\ result_buf (res_data res0) = result_buf (res_data res).
Proof.
  intros phase_regs res Hlen Hmal. apply malformedb_spec in Hmal.
  destruct (parse_total _ Hlen) as [cmd' [Hrun [Hbuf _]]]. rewrite Hmal in Hrun.
  pose proof (init_device_run _ _ _ Hrun) as Hinit.
  eexists. split; [exact Hinit|]. split.
  - rewrite (identify_run _ _ _ _ _ Hinit). reflexivity.
  - split; [reflexivity|exact Hbuf].
Qed.

Lemma undecodable_identify_witness :
  exists res0,
    _init_device (mk_resource "1234/identify" (command_of_payload "FOO"))
    = Some (-1, res0, [ev_log_error_errno "1234/identify" (- EINVAL) init_device_failure_msg])
    /\ _cmd_execute_identify failing_scan_pre_regs
                             (mk_resource "1234/identify" (command_of_payload "FOO"))
       = Some (1, res0,
               [ev_log_error_errno "1234/identify" (- EINVAL) init_device_failure_msg])
    /\ res_id res0 = "1234/identify"
    /\ result_buf (res_data res0) = [].
Proof.
  apply (undecodable_identify_returns_one failing_scan_pre_regs
           (mk_resource "1234/identify" (command_of_payload "FOO"))).
  - reflexivity.
  - right. discriminate.
Defined.

(** ** The connection of the worker: waiting and cleaning up *)

Lemma worker_cleanup_run (iter_ok : bool) (send_ret : Z) (res : sid_resource worker) :
  _worker_cleanup iter_ok send_ret res
  = if iter_ok then
      Some (if send_ret =? 0 then -1 else 0, cleaned_up res,
            [ev_comms_send (wrk_comms_fd (res_data res))
                           (Some INTERNAL_COMMS_CMD_IDLE) (-1)])
    else Some (-1, res, []).
Proof.
  unfold _worker_cleanup, sid_resource_iter_create, bind, get_data, set_data, get_state,
    put_state, emit, ret, cleaned_up, sid_resource_get_data.
  destruct iter_ok; [|reflexivity].
  simpl. destruct (send_ret =? 0); reflexivity.
Qed.

(** X10: When the read would block or was interrupted (EAGAIN, EINTR), and
    when it gave data that do not complete the frame, the connection
    handler returns 0 and changes nothing: the commands, the event
    source of the connection and the descriptors stay, and nothing is
    sent to the observer. *)
Theorem incomplete_read_changes_nothing :
  forall (env : conn_env) (revents : Z) (res : sid_resource worker),
    Z.land revents EPOLLERR = 0 ->
    (0 < env_read env /\ env_complete env = false)
    \/ (env_read env < 0 /\ (env_errno env = EAGAIN \/ env_errno env = EINTR)) ->
    _on_worker_conn_event env revents res = Some (0, res, []).
Proof.
  intros env revents res Herr Hcase. unfold _on_worker_conn_event.
  rewrite Herr. simpl negb. cbv iota.
  destruct Hcase as [[Hread Hinc]|[Hread Herrno]].
  - destruct (Z.ltb_spec 0 (env_read env)); [|lia]. rewrite Hinc.
    destruct res. reflexivity.
  - destruct (Z.ltb_spec 0 (env_read env)); [lia|].
    destruct (Z.ltb_spec (env_read env) 0); [|lia].
    assert (Hb : (env_errno env =? EAGAIN) || (env_errno env =? EINTR) = true).
    { apply orb_true_iff. destruct Herrno as [->| ->]; [left|right]; apply Z.eqb_refl. }
    rewrite Hb. reflexivity.
Qed.

Lemma incomplete_read_witness :
  _on_worker_conn_event
    (mk_conn_env 1234 (-1) EAGAIN false false
                 (mk_raw_command (mk_header 1 CMD_VERSION 0) EmptyString) all_created true 1)
    1 busy_worker
  = Some (0, busy_worker, []).
Proof.
  apply incomplete_read_changes_nothing.
  - reflexivity.
  - right. split; [simpl; lia|left; reflexivity].
Defined.

(** The connection handler when no command is created. *)
Lemma conn_event_without_frame (env : conn_env) (revents : Z) (res : sid_resource worker) :
  _on_worker_conn_event env revents res
  = let idle := ev_comms_send (wrk_comms_fd (res_data res))
                              (Some INTERNAL_COMMS_CMD_IDLE) (-1) in
    let cleaned := if env_iter_ok env then cleaned_up res else res in
    let sent := if env_iter_ok env then [idle] else [] in
    if negb (Z.land revents EPOLLERR =? 0) then
      Some (-1, cleaned,
            [ev_log_error (res_id res)
               (if negb (Z.land revents EPOLLHUP =? 0)
                then "Peer connection closed prematurely."
                else "Connection error.")] ++ sent)
    else if 0 <? env_read env then _on_worker_conn_event env revents res
    else if (env_read env <? 0)
            && ((env_errno env =? EAGAIN) || (env_errno env =? EINTR))
         then Some (0, res, [])
         else Some (if negb (env_iter_ok env) then -1
                    else if env_send env =? 0 then -1
                    else if env_read env <? 0 then -1 else 0,
                    cleaned,
                    (if env_read env <? 0
                     then [ev_log_sys_error (res_id res) "buffer_read_msg"]
                     else []) ++ sent).
Proof.
  unfold _on_worker_conn_event at 1. cbv zeta.
  destruct (negb (Z.land revents EPOLLERR =? 0)) eqn:Herr.
  - destruct (env_iter_ok env), (negb (Z.land revents EPOLLHUP =? 0));
      (erewrite bind_run; [|reflexivity]);
      (erewrite bind_run;
       [|first [exact (worker_cleanup_run true _ _)|exact (worker_cleanup_run false _ _)]]);
      reflexivity.
  - destruct (0 <? env_read env) eqn:Hpos.
    + unfold _on_worker_conn_event. rewrite Herr, Hpos. reflexivity.
    + destruct ((env_read env <? 0)
                && ((env_errno env =? EAGAIN) || (env_errno env =? EINTR))).
      * reflexivity.
      * destruct (env_iter_ok env), (env_read env <? 0);
          (erewrite bind_run; [|reflexivity]);
          (erewrite bind_run;
           [|first [exact (worker_cleanup_run true _ _)
                   |exact (worker_cleanup_run false _ _)]]);
          try destruct (env_send env =? 0); reflexivity.
Qed.

(** X11: On EPOLLERR, on end of file and on a read error other than EAGAIN
    and EINTR, the handler calls [_worker_cleanup]. When the iterator
    over the children is created, every command child is destroyed, the
    event source of the connection is destroyed, and exactly one
    message, the byte IDLE without a descriptor, is sent on the control
    channel; the result is 0 only on end of file with a send that did
    not return 0, and -1 otherwise. When the iterator cannot be created
    the cleanup returns -1 at once: the worker is left as it is, its
    commands and the event source of its connection included, nothing
    is sent, and the handler returns -1. In both cases the descriptors
    of the worker are left as they are. *)
Theorem connection_end_cleans_up_and_reports_idle :
  forall (env : conn_env) (revents : Z) (res : sid_resource worker),
    Z.land revents EPOLLERR <> 0
    \/ env_read env = 0
    \/ (env_read env < 0 /\ env_errno env <> EAGAIN /\ env_errno env <> EINTR) ->
    exists r res' evs,
      _on_worker_conn_event env revents res = Some (r, res', evs)
      /\ (env_iter_ok env = true ->
          res' = cleaned_up res
          /\ wrk_commands (res_data res') = []
          /\ wrk_conn_es (res_data res') = false
          /\ comms_sent evs
             = [(wrk_comms_fd (res_data res), Some INTERNAL_COMMS_CMD_IDLE, -1)]
          /\ (r = 0 <->
              Z.land revents EPOLLERR = 0 /\ env_read env = 0 /\ env_send env <> 0))
      /\ (env_iter_ok env = false ->
          res' = res /\ comms_sent evs = [] /\ r = -1)
      /\ (r = 0 \/ r = -1)
      /\ wrk_conn_fd (res_data res') = wrk_conn_fd (res_data res)
      /\ wrk_comms_fd (res_data res') = wrk_comms_fd (res_data res)
      /\ res_id res' = res_id res.
Proof.
  intros env revents res Hcase.
  rewrite conn_event_without_frame. cbv zeta.
  destruct (Z.eqb_spec (Z.land revents EPOLLERR) 0) as [Herr|Herr]; simpl negb; cbv iota.
  - assert (Hn : env_read env <= 0)
      by (destruct Hcase as [Hc|[Hc|[Hc _]]]; [contradiction|lia|lia]).
    destruct (Z.ltb_spec 0 (env_read env)); [lia|].
    assert (Hretry : (env_read env <? 0)
                     && ((env_errno env =? EAGAIN) || (env_errno env =? EINTR)) = false).
    { destruct Hcase as [Hc|[Hc|[Hc [Hagain Hintr]]]]; [contradiction| |].
      - rewrite Hc. reflexivity.
      - apply andb_false_iff. right. apply orb_false_iff.
        split; apply Z.eqb_neq; assumption. }
    rewrite Hretry.
    do 3 eexists. split; [reflexivity|].
    destruct (env_iter_ok env); simpl negb; cbv iota.
    + split.
      { intros _. split; [reflexivity|]. split; [reflexivity|]. split; [reflexivity|].
        split.
        - destruct (env_read env <? 0); reflexivity.
        - destruct (Z.eqb_spec (env_send env) 0) as [Hs|Hs].
          + split; [discriminate|]. intros [_ [_ Hx]]. contradiction.
          + destruct (Z.ltb_spec (env_read env) 0).
            * split; [discriminate|]. intros [_ [Hx _]]. lia.
            * split; [intros _; repeat split; auto; lia|reflexivity]. }
      split; [discriminate|].
      split; [|auto].
      destruct (env_send env =? 0); [auto|]. destruct (env_read env <? 0); auto.
    + split; [discriminate|].
      split.
      { intros _. split; [reflexivity|]. split; [|reflexivity].
        destruct (env_read env <? 0); reflexivity. }
      auto.
  - do 3 eexists. split; [reflexivity|].
    destruct (env_iter_ok env).
    + split.
      { intros _. split; [reflexivity|]. split; [reflexivity|]. split; [reflexivity|].
        split; [reflexivity|]. split; [discriminate|]. intros [Hx _]. contradiction. }
      split; [discriminate|]. auto.
    + split; [discriminate|].
      split; [intros _; auto|]. auto.
Qed.

Lemma connection_end_witness :
  exists r res' evs,
    _on_worker_conn_event
      (mk_conn_env 1234 0 0 false false
                   (mk_raw_command (mk_header 1 CMD_VERSION 0) EmptyString) all_created
                   true 1)
      1 busy_worker
    = Some (r, res', evs)
    /\ res' = cleaned_up busy_worker
    /\ wrk_commands (res_data res') = []
    /\ wrk_conn_es (res_data res') = false
    /\ comms_sent evs = [(3, Some INTERNAL_COMMS_CMD_IDLE, -1)]
    /\ (r = 0 <-> Z.land 1 EPOLLERR = 0 /\ 0 = 0 /\ 1 <> 0).
Proof.
  destruct (connection_end_cleans_up_and_reports_idle
              (mk_conn_env 1234 0 0 false false
                           (mk_raw_command (mk_header 1 CMD_VERSION 0) EmptyString)
                           all_created true 1)
              1 busy_worker)
    as [r [res' [evs [Hrun [Hok _]]]]].
  - right. left. reflexivity.
  - exists r, res', evs. split; [exact Hrun|]. apply Hok. reflexivity.
Defined.

Example cleanup_without_iterator :
  _on_worker_conn_event
    (mk_conn_env 1234 0 0 false false
                 (mk_raw_command (mk_header 1 CMD_VERSION 0) EmptyString) all_created
                 false 1)
    1 busy_worker
  = Some (-1, busy_worker, []).
Proof. reflexivity. Qed.

(** ** The handshake between worker and observer *)

(** The worker's handler of the control channel in closed form. *)
Lemma worker_comms_event_run (rcv : recv_result) (es_ret send_ret : Z)
      (res : sid_resource worker) :
  _on_worker_comms_event rcv es_ret send_ret res
  = if recv_ret rcv <? 0 then Some (-1, res, [])
    else if recv_fd rcv =? -1 then Some (0, res, [])
    else
      let w := set_wrk_conn_fd (res_data res) (recv_fd rcv) in
      if es_ret <? 0 then
        Some (-1, mk_resource (res_id res) w,
              [ev_log_error (res_id res) "Failed to register new connection."])
      else
        Some (if send_ret =? 0 then -1 else 0,
              mk_resource (res_id res) (set_wrk_conn_es w true),
              [ev_comms_send (wrk_comms_fd (res_data res))
                             (Some INTERNAL_COMMS_CMD_RUNNING) (-1)]).
Proof.
  unfold _on_worker_comms_event.
  destruct (recv_ret rcv <? 0); [reflexivity|].
  destruct (recv_fd rcv =? -1); [reflexivity|]. simpl negb. cbv iota.
  destruct (es_ret <? 0), (send_ret =? 0); reflexivity.
Qed.

(** X12: The worker reports RUNNING exactly when it received a descriptor
    and registered it with its event loop; it then keeps the descriptor
    as its connection. Without a descriptor the worker is left as it is
    and 0 is returned. In no case are the commands of the worker
    touched or a descriptor sent back. *)
Theorem worker_reports_running_when_connected :
  forall (rcv : recv_result) (es_ret send_ret : Z) (res : sid_resource worker),
    exists r res' evs,
      _on_worker_comms_event rcv es_ret send_ret res = Some (r, res', evs)
      /\ (comms_sent evs
          = if (0 <=? recv_ret rcv) && negb (recv_fd rcv =? -1) && (0 <=? es_ret)
            then [(wrk_comms_fd (res_data res), Some INTERNAL_COMMS_CMD_RUNNING, -1)]
            else [])
      /\ (if (0 <=? recv_ret rcv) && negb (recv_fd rcv =? -1)
          then wrk_conn_fd (res_data res') = recv_fd rcv
          else res' = res)
      /\ (if (0 <=? recv_ret rcv) && negb (recv_fd rcv =? -1) && (0 <=? es_ret)
          then wrk_conn_es (res_data res') = true
          else wrk_conn_es (res_data res') = wrk_conn_es (res_data res))
      /\ wrk_commands (res_data res') = wrk_commands (res_data res)
      /\ wrk_comms_fd (res_data res') = wrk_comms_fd (res_data res)
      /\ (r = 0 <->
          0 <= recv_ret rcv /\ (recv_fd rcv = -1 \/ (0 <= es_ret /\ send_ret <> 0))).
Proof.
  intros rcv es_ret send_ret res. rewrite worker_comms_event_run.
  destruct (Z.ltb_spec (recv_ret rcv) 0) as [Hr|Hr].
  - destruct (Z.leb_spec 0 (recv_ret rcv)); [lia|].
    do 3 eexists. split; [reflexivity|]. simpl.
    repeat split; auto; try discriminate. lia.
  - destruct (Z.leb_spec 0 (recv_ret rcv)); [|lia].
    destruct (Z.eqb_spec (recv_fd rcv) (-1)) as [Hfd|Hfd].
    + do 3 eexists. split; [reflexivity|]. simpl. repeat split; auto.
    + cbv zeta. destruct (Z.ltb_spec es_ret 0) as [He|He].
      * destruct (Z.leb_spec 0 es_ret); [lia|].
        do 3 eexists. split; [reflexivity|]. simpl.
        repeat split; auto; try discriminate. lia.
      * destruct (Z.leb_spec 0 es_ret); [|lia].
        destruct (Z.eqb_spec send_ret 0) as [Hs|Hs];
          do 3 eexists; (split; [reflexivity|]); simpl;
          repeat split; auto; try discriminate; lia.
Qed.

Lemma observer_comms_event_run (rcv : recv_result) (now : Z) (res : sid_resource observer) :
  _on_observer_comms_event rcv now res
  = if recv_ret rcv <? 0 then Some (-1, res, [])
    else if recv_buf0 rcv =? INTERNAL_COMMS_CMD_RUNNING then
      Some (0, mk_resource (res_id res) (set_worker_state (res_data res) WORKER_RUNNING),
            [ev_log_debug (res_id res) running_msg])
    else if recv_buf0 rcv =? INTERNAL_COMMS_CMD_IDLE then
      Some (0, mk_resource (res_id res)
                 (set_worker_state
                    (set_idle_timeout_es (res_data res) (Some (idle_timer now)))
                    WORKER_IDLE),
            [ev_log_debug (res_id res) idle_msg])
    else Some (0, res, []).
Proof.
  unfold _on_observer_comms_event.
  destruct (recv_ret rcv <? 0); [reflexivity|].
  destruct (recv_buf0 rcv =? INTERNAL_COMMS_CMD_RUNNING); [reflexivity|].
  destruct (recv_buf0 rcv =? INTERNAL_COMMS_CMD_IDLE); [reflexivity|].
  destruct res. reflexivity.
Qed.

Lemma creation_log_sends_nothing (env : conn_env) (id : string) :
  comms_sent (creation_log env id) = [].
Proof.
  unfold creation_log, _init_command_hook.
  destruct (negb (ci_node_ok (env_create env))), (negb (ci_alloc_ok (env_create env))),
    (negb (ci_buf_ok (env_create env))), (env_short env || negb (ci_env_ok (env_create env))),
    (negb (ci_es_ok (env_create env))); reflexivity.
Qed.

(** What the connection handler sends and what it leaves of the event
    source of the connection: nothing is sent and the event source is
    as it was, or IDLE is sent once and the worker is cleaned up. *)
Lemma conn_event_sends (env : conn_env) (revents : Z) (res res' : sid_resource worker)
      (r : Z) (evs : list event) :
  _on_worker_conn_event env revents res = Some (r, res', evs) ->
  (comms_sent evs = []
   /\ wrk_conn_es (res_data res') = wrk_conn_es (res_data res))
  \/ (comms_sent evs = [(wrk_comms_fd (res_data res), Some INTERNAL_COMMS_CMD_IDLE, -1)]
      /\ res' = cleaned_up res).
Proof.
  intros Hrun. rewrite conn_event_without_frame in Hrun. cbv zeta in Hrun.
  destruct (Z.eqb_spec (Z.land revents EPOLLERR) 0) as [Herr|Herr]; simpl negb in Hrun;
    cbv iota in Hrun.
  - destruct (Z.ltb_spec 0 (env_read env)) as [Hpos|Hpos].
    + rewrite (conn_event_with_frame _ _ _ Herr Hpos) in Hrun.
      destruct (env_complete env); [destruct (command_created env)|];
        injection Hrun as <- <- <-; left; split; try reflexivity.
      unfold comms_sent. rewrite flat_map_app. simpl. rewrite app_nil_r.
      apply creation_log_sends_nothing.
    + destruct ((env_read env <? 0)
                && ((env_errno env =? EAGAIN) || (env_errno env =? EINTR))).
      * injection Hrun as <- <- <-. left. split; reflexivity.
      * injection Hrun as <- <- <-.
        destruct (env_iter_ok env).
        -- right. split; [|reflexivity]. destruct (env_read env <? 0); reflexivity.
        -- left. split; [|reflexivity]. destruct (env_read env <? 0); reflexivity.
  - injection Hrun as <- <- <-.
    destruct (env_iter_ok env).
    + right. split; reflexivity.
    + left. split; reflexivity.
Qed.

(** X13: What the worker sends on the control channel goes to its
    descriptor of the channel, without a descriptor attached, and is a
    byte that the observer acts upon, each sender having its own.
    [_on_worker_comms_event] sends nothing but RUNNING, and only once
    the event source of the connection is registered: the observer that
    receives it records RUNNING and leaves its idle timer as it is.
    [_worker_cleanup] and [_on_worker_conn_event] send nothing but
    IDLE, and only once the commands and the event source of the
    connection are destroyed: the observer that receives it records
    IDLE and arms the idle timer. *)
Theorem worker_messages_are_understood :
  forall (wres wres' : sid_resource worker) (ores : sid_resource observer)
         (evs : list event) (r now fd fd_sent : Z) (msg : option Z),
    In (fd, msg, fd_sent) (comms_sent evs) ->
    ((exists rcv es_ret send_ret,
         _on_worker_comms_event rcv es_ret send_ret wres = Some (r, wres', evs)) ->
     fd = wrk_comms_fd (res_data wres)
     /\ fd_sent = -1
     /\ msg = Some INTERNAL_COMMS_CMD_RUNNING
     /\ wrk_conn_es (res_data wres') = true
     /\ _on_observer_comms_event (mk_recv 1 INTERNAL_COMMS_CMD_RUNNING (-1)) now ores
        = Some (0,
                mk_resource (res_id ores)
                  (mk_observer (obs_worker_pid (res_data ores))
                               (obs_comms_fd (res_data ores))
                               (obs_comms_es (res_data ores))
                               (obs_child_es (res_data ores))
                               (idle_timeout_es (res_data ores)) WORKER_RUNNING),
                [ev_log_debug (res_id ores) running_msg]))
    /\ ((exists iter_ok send_ret,
            _worker_cleanup iter_ok send_ret wres = Some (r, wres', evs))
        \/ (exists env revents,
               _on_worker_conn_event env revents wres = Some (r, wres', evs)) ->
        fd = wrk_comms_fd (res_data wres)
        /\ fd_sent = -1
        /\ msg = Some INTERNAL_COMMS_CMD_IDLE
        /\ wrk_conn_es (res_data wres') = false
        /\ wrk_commands (res_data wres') = []
        /\ _on_observer_comms_event (mk_recv 1 INTERNAL_COMMS_CMD_IDLE (-1)) now ores
           = Some (0,
                   mk_resource (res_id ores)
                     (mk_observer (obs_worker_pid (res_data ores))
                                  (obs_comms_fd (res_data ores))
                                  (obs_comms_es (res_data ores))
                                  (obs_child_es (res_data ores))
                                  (Some (idle_timer now)) WORKER_IDLE),
                   [ev_log_debug (res_id ores) idle_msg])).
Proof.
  intros wres wres' ores evs r now fd fd_sent msg Hin. split.
  - intros [rcv [es_ret [send_ret Hrun]]].
    rewrite worker_comms_event_run in Hrun.
    destruct (recv_ret rcv <? 0); [injection Hrun as <- <- <-; contradiction|].
    destruct (recv_fd rcv =? -1); [injection Hrun as <- <- <-; contradiction|].
    cbv zeta in Hrun.
    destruct (es_ret <? 0); injection Hrun as <- <- <-; simpl in Hin.
    + contradiction.
    + destruct Hin as [Hin|[]]. injection Hin as <- <- <-.
      repeat split.
  - intros Hrun.
    assert (Hsent : comms_sent evs
                    = [(wrk_comms_fd (res_data wres), Some INTERNAL_COMMS_CMD_IDLE, -1)]
                    /\ wres' = cleaned_up wres).
    { destruct Hrun as [[iter_ok [send_ret Hrun]]|[env [revents Hrun]]].
      - rewrite worker_cleanup_run in Hrun.
        destruct iter_ok; injection Hrun as <- <- <-; [split; reflexivity|contradiction].
      - destruct (conn_event_sends _ _ _ _ _ _ Hrun) as [[Hs _]|Hs]; [|exact Hs].
        rewrite Hs in Hin. contradiction. }
    destruct Hsent as [Hs ->]. rewrite Hs in Hin.
    destruct Hin as [Hin|[]]. injection Hin as <- <- <-.
    repeat split.
Qed.

Lemma worker_messages_witness :
  3 = wrk_comms_fd (res_data busy_worker)
  /\ -1 = -1
  /\ Some INTERNAL_COMMS_CMD_IDLE = Some INTERNAL_COMMS_CMD_IDLE
  /\ wrk_conn_es (res_data (cleaned_up busy_worker)) = false
  /\ wrk_commands (res_data (cleaned_up busy_worker)) = []
  /\ _on_observer_comms_event (mk_recv 1 INTERNAL_COMMS_CMD_IDLE (-1)) 2000 an_observer
     = Some (0,
             mk_resource "4321"
               (mk_observer 4321 5 true true (Some (idle_timer 2000)) WORKER_IDLE),
             [ev_log_debug "4321" idle_msg]).
Proof.
  destruct (worker_messages_are_understood busy_worker (cleaned_up busy_worker) an_observer
              [ev_comms_send 3 (Some INTERNAL_COMMS_CMD_IDLE) (-1)] 0 2000
              3 (-1) (Some INTERNAL_COMMS_CMD_IDLE)) as [_ H].
  - left. reflexivity.
  - apply H. left. exists true, 1. reflexivity.
Defined.

(** ** The observer *)

(** X14: Whatever it receives, the observer's handler of the control channel
    keeps the pid and the descriptor of the worker and its two event
    sources; it sends no signal, closes nothing and sends nothing; it
    returns -1 exactly when the receive failed, and then changes
    nothing; and it never records INIT or FINI. *)
Theorem observer_comms_event_keeps_the_worker :
  forall (rcv : recv_result) (now : Z) (res : sid_resource observer),
    exists r res' evs,
      _on_observer_comms_event rcv now res = Some (r, res', evs)
      /\ res_id res' = res_id res
      /\ obs_worker_pid (res_data res') = obs_worker_pid (res_data res)
      /\ obs_comms_fd (res_data res') = obs_comms_fd (res_data res)
      /\ obs_comms_es (res_data res') = obs_comms_es (res_data res)
      /\ obs_child_es (res_data res') = obs_child_es (res_data res)
      /\ signals_sent evs = [] /\ closed_fds evs = [] /\ comms_sent evs = []
      /\ (r = -1 \/ r = 0)
      /\ (r = -1 <-> recv_ret rcv < 0)
      /\ (if recv_ret rcv <? 0 then res' = res /\ evs = [] else True)
      /\ (worker_state (res_data res') = worker_state (res_data res)
          \/ worker_state (res_data res') = WORKER_RUNNING
          \/ worker_state (res_data res') = WORKER_IDLE).
Proof.
  intros rcv now res. rewrite observer_comms_event_run.
  destruct (Z.ltb_spec (recv_ret rcv) 0).
  - do 3 eexists. split; [reflexivity|]. repeat split; auto; lia.
  - destruct (recv_buf0 rcv =? INTERNAL_COMMS_CMD_RUNNING);
      [|destruct (recv_buf0 rcv =? INTERNAL_COMMS_CMD_IDLE)];
      do 3 eexists; (split; [reflexivity|]); simpl;
      repeat split; auto; try discriminate; lia.
Qed.

Lemma accept_run (ubridge_id : string) (conn_fd send_ret : Z) (res : sid_resource observer) :
  _accept_connection_and_pass_to_worker ubridge_id conn_fd send_ret res
  = if conn_fd <? 0 then Some (-1, res, [ev_log_sys_error ubridge_id "accept"])
    else if send_ret <? 0 then
      Some (-1, res,
            [ev_comms_send (obs_comms_fd (res_data res)) None conn_fd;
             ev_log_sys_error ubridge_id "comms_unix_send";
             ev_close conn_fd])
    else
      Some (0, mk_resource (res_id res)
                 (set_worker_state (set_idle_timeout_es (res_data res) None) WORKER_INIT),
            [ev_comms_send (obs_comms_fd (res_data res)) None conn_fd;
             ev_close conn_fd;
             ev_log_debug (res_id res) init_msg]).
Proof.
  unfold _accept_connection_and_pass_to_worker.
  destruct (conn_fd <? 0).
  - destruct res. reflexivity.
  - erewrite bind_run; [|reflexivity].
    erewrite bind_run; [|reflexivity].
    destruct (send_ret <? 0); destruct res; reflexivity.
Qed.

(** X15: When [accept4] gave a descriptor it is sent once to the worker and
    closed exactly once in the parent, whether the send succeeded or
    not; when [accept4] failed nothing is sent or closed. The result is
    0 exactly when both calls succeeded, and then the observer records
    INIT with no idle timer; on either failure the result is -1 and the
    observer, its state and its idle timer included, is left as it
    is. *)
Theorem accepted_descriptor_is_closed_once :
  forall (ubridge_id : string) (conn_fd send_ret : Z) (res : sid_resource observer),
    exists r res' evs,
      _accept_connection_and_pass_to_worker ubridge_id conn_fd send_ret res
      = Some (r, res', evs)
      /\ closed_fds evs = (if conn_fd <? 0 then [] else [conn_fd])
      /\ comms_sent evs
         = (if conn_fd <? 0 then [] else [(obs_comms_fd (res_data res), None, conn_fd)])
      /\ signals_sent evs = []
      /\ (r = 0 <-> 0 <= conn_fd /\ 0 <= send_ret)
      /\ (r = 0 \/ r = -1)
      /\ (if (0 <=? conn_fd) && (0 <=? send_ret)
          then worker_state (res_data res') = WORKER_INIT
               /\ idle_timeout_es (res_data res') = None
               /\ obs_worker_pid (res_data res') = obs_worker_pid (res_data res)
               /\ obs_comms_fd (res_data res') = obs_comms_fd (res_data res)
          else res' = res).
Proof.
  intros ubridge_id conn_fd send_ret res. rewrite accept_run.
  destruct (Z.ltb_spec conn_fd 0).
  - destruct (Z.leb_spec 0 conn_fd); [lia|].
    do 3 eexists. split; [reflexivity|]. simpl.
    repeat split; auto; try discriminate; lia.
  - destruct (Z.leb_spec 0 conn_fd); [|lia].
    destruct (Z.ltb_spec send_ret 0).
    + destruct (Z.leb_spec 0 send_ret); [lia|].
      do 3 eexists. split; [reflexivity|]. simpl.
      repeat split; auto; try discriminate; lia.
    + destruct (Z.leb_spec 0 send_ret); [|lia].
      do 3 eexists. split; [reflexivity|]. simpl.
      repeat split; auto; try discriminate; lia.
Qed.

(** X16: A whole service of one connection, on any observer: after the
    connection is passed the observer records INIT and has no idle
    timer; the report RUNNING then leaves it RUNNING with no idle
    timer; the report IDLE at the time [now] leaves it IDLE with the
    timer armed at [now] + 5 s; and when this timer fires the observer
    records FINI and the only signal sent is SIGTERM to the pid that
    the observer had from the start. *)
Theorem service_cycle_of_an_observer :
  forall (ubridge_id : string) (conn_fd send_ret now : Z) (res : sid_resource observer),
    0 <= conn_fd ->
    0 <= send_ret ->
    exists res1 res2 res3 res4 ev1 ev2 ev3 ev4,
      _accept_connection_and_pass_to_worker ubridge_id conn_fd send_ret res
      = Some (0, res1, ev1)
      /\ worker_state (res_data res1) = WORKER_INIT
      /\ idle_timeout_es (res_data res1) = None
      /\ _on_observer_comms_event (mk_recv 1 INTERNAL_COMMS_CMD_RUNNING (-1)) now res1
         = Some (0, res2, ev2)
      /\ worker_state (res_data res2) = WORKER_RUNNING
      /\ idle_timeout_es (res_data res2) = None
      /\ _on_observer_comms_event (mk_recv 1 INTERNAL_COMMS_CMD_IDLE (-1)) now res2
         = Some (0, res3, ev3)
      /\ worker_state (res_data res3) = WORKER_IDLE
      /\ idle_timeout_es (res_data res3) = Some (idle_timer now)
      /\ _on_idle_task_timeout_event res3 = Some (0, res4, ev4)
      /\ worker_state (res_data res4) = WORKER_FINI
      /\ signals_sent (ev1 ++ ev2 ++ ev3 ++ ev4) = [(obs_worker_pid (res_data res), SIGTERM)]
      /\ obs_comms_fd (res_data res4) = obs_comms_fd (res_data res).
Proof.
  intros ubridge_id conn_fd send_ret now res Hfd Hsend.
  rewrite accept_run.
  destruct (Z.ltb_spec conn_fd 0); [lia|].
  destruct (Z.ltb_spec send_ret 0); [lia|].
  do 8 eexists.
  split; [reflexivity|]. split; [reflexivity|]. split; [reflexivity|].
  split; [reflexivity|]. split; [reflexivity|]. split; [reflexivity|].
  split; [reflexivity|]. split; [reflexivity|]. split; [reflexivity|].
  split; [reflexivity|]. split; [reflexivity|]. split; reflexivity.
Qed.

Lemma service_cycle_witness :
  exists res1 res2 res3 res4 ev1 ev2 ev3 ev4,
    _accept_connection_and_pass_to_worker "ubridge" 9 0 armed_observer
    = Some (0, res1, ev1)
    /\ worker_state (res_data res1) = WORKER_INIT
    /\ idle_timeout_es (res_data res1) = None
    /\ _on_observer_comms_event (mk_recv 1 INTERNAL_COMMS_CMD_RUNNING (-1)) 2000 res1
       = Some (0, res2, ev2)
    /\ worker_state (res_data res2) = WORKER_RUNNING
    /\ idle_timeout_es (res_data res2) = None
    /\ _on_observer_comms_event (mk_recv 1 INTERNAL_COMMS_CMD_IDLE (-1)) 2000 res2
       = Some (0, res3, ev3)
    /\ worker_state (res_data res3) = WORKER_IDLE
    /\ idle_timeout_es (res_data res3) = Some (idle_timer 2000)
    /\ _on_idle_task_timeout_event res3 = Some (0, res4, ev4)
    /\ worker_state (res_data res4) = WORKER_FINI
    /\ signals_sent (ev1 ++ ev2 ++ ev3 ++ ev4) = [(4321, SIGTERM)]
    /\ obs_comms_fd (res_data res4) = 5.
Proof.
  apply (service_cycle_of_an_observer "ubridge" 9 0 2000 armed_observer); lia.
Defined.

(** ** The ubridge: which observer gets a connection *)

Lemma worker_state_eqb_eq (a b : worker_state_t) :
  worker_state_eqb a b = true <-> a = b.
Proof. destruct a, b; simpl; split; intros H; try reflexivity; discriminate. Qed.

Lemma find_idle_loop_spec (l : list (sid_resource observer)) (i : nat) :
  match _find_observer_for_idle_worker_loop l i with
  | Some k =>
    (i <= k)%nat
    /\ (exists res, nth_error l (k - i) = Some res
                    /\ worker_state (res_data res) = WORKER_IDLE)
    /\ (forall j res', (j < k - i)%nat -> nth_error l j = Some res' ->
                       worker_state (res_data res') <> WORKER_IDLE)
  | None => forall res, In res l -> worker_state (res_data res) <> WORKER_IDLE
  end.
Proof.
  revert i; induction l as [|res rest IH]; intros i; simpl.
  - intros res [].
  - destruct (worker_state_eqb (worker_state (res_data res)) WORKER_IDLE) eqn:E.
    + apply worker_state_eqb_eq in E. split; [lia|]. rewrite Nat.sub_diag. split.
      * exists res. auto.
      * intros j res' Hj. lia.
    + assert (Hne : worker_state (res_data res) <> WORKER_IDLE).
      { intros H. apply worker_state_eqb_eq in H. congruence. }
      specialize (IH (S i)).
      destruct (_find_observer_for_idle_worker_loop rest (S i)) as [k|].
      * destruct IH as [Hle [[res0 [Hnth Hidle]] Hfirst]].
        split; [lia|].
        replace (k - i)%nat with (S (k - S i)) by lia. split.
        -- exists res0. auto.
        -- intros [|j] res' Hj Hnth'; simpl in Hnth'.
           ++ injection Hnth' as <-. exact Hne.
           ++ apply (Hfirst j); [lia|exact Hnth'].
      * intros res0 [<-|Hin]; auto.
Qed.

Lemma first_idle_spec (iter_ok : bool) (ubridge_res : sid_resource ubridge) :
  let l := ubr_observers (res_data ubridge_res) in
  match _find_observer_for_idle_worker iter_ok ubridge_res with
  | Some k =>
    iter_ok = true
    /\ (exists res, nth_error l k = Some res
                    /\ worker_state (res_data res) = WORKER_IDLE)
    /\ (forall j res', (j < k)%nat -> nth_error l j = Some res' ->
                       worker_state (res_data res') <> WORKER_IDLE)
  | None =>
    iter_ok = false
    \/ forall res, In res l -> worker_state (res_data res) <> WORKER_IDLE
  end.
Proof.
  intros l. unfold _find_observer_for_idle_worker, sid_resource_iter_create. fold l.
  destruct iter_ok; [|left; reflexivity].
  pose proof (find_idle_loop_spec l 0) as H.
  destruct (_find_observer_for_idle_worker_loop l 0) as [k|]; [|right; exact H].
  rewrite Nat.sub_0_r in H. tauto.
Qed.

(** X17: When the iterator over the children is created,
    [_find_observer_for_idle_worker] gives the first observer, in the
    order of creation, whose worker is IDLE, and nothing exactly when
    no observer has an IDLE worker. When the iterator cannot be created
    it gives nothing, whatever the observers. *)
Theorem first_idle_observer_is_found :
  forall (iter_ok : bool) (ubridge_res : sid_resource ubridge),
    let l := ubr_observers (res_data ubridge_res) in
    (iter_ok = false -> _find_observer_for_idle_worker iter_ok ubridge_res = None)
    /\ (iter_ok = true ->
        match _find_observer_for_idle_worker iter_ok ubridge_res with
        | Some k =>
          (exists res, nth_error l k = Some res
                       /\ worker_state (res_data res) = WORKER_IDLE)
          /\ (forall j res', (j < k)%nat -> nth_error l j = Some res' ->
                             worker_state (res_data res') <> WORKER_IDLE)
        | None => forall res, In res l -> worker_state (res_data res) <> WORKER_IDLE
        end).
Proof.
  intros iter_ok ubridge_res l. split.
  - intros ->. reflexivity.
  - intros ->. pose proof (first_idle_spec true ubridge_res) as H. fold l in H.
    destruct (_find_observer_for_idle_worker true ubridge_res) as [k|].
    + destruct H as [_ [Hk Hfirst]]. split; [exact Hk|exact Hfirst].
    + destruct H as [H|H]; [discriminate|exact H].
Qed.

Lemma first_idle_observer_witness :
  _find_observer_for_idle_worker false an_ubridge = None
  /\ (exists res, nth_error (ubr_observers (res_data an_ubridge)) 1 = Some res
                  /\ worker_state (res_data res) = WORKER_IDLE)
  /\ (forall j res', (j < 1)%nat ->
                     nth_error (ubr_observers (res_data an_ubridge)) j = Some res' ->
                     worker_state (res_data res') <> WORKER_IDLE).
Proof.
  split.
  - apply (first_idle_observer_is_found false an_ubridge). reflexivity.
  - apply (proj2 (first_idle_observer_is_found true an_ubridge) eq_refl).
Defined.

Example first_idle_observer_example :
  _find_observer_for_idle_worker true an_ubridge = Some 1%nat
  /\ _find_observer_for_idle_worker true a_busy_ubridge = None
  /\ _find_observer_for_idle_worker false an_ubridge = None.
Proof. repeat split. Qed.

Lemma length_replace_nth {A : Type} (i : nat) (x : A) (l : list A) :
  List.length (replace_nth i x l) = List.length l.
Proof.
  revert i; induction l as [|y rest IH]; intros [|i]; simpl; auto.
Qed.

Lemma nth_error_replace_nth_same {A : Type} (i : nat) (x y : A) (l : list A) :
  nth_error l i = Some y -> nth_error (replace_nth i x l) i = Some x.
Proof.
  revert i; induction l as [|z rest IH]; intros [|i]; simpl; try discriminate; auto.
Qed.

Lemma nth_error_replace_nth_other {A : Type} (i j : nat) (x : A) (l : list A) :
  j <> i -> nth_error (replace_nth i x l) j = nth_error l j.
Proof.
  revert i j; induction l as [|z rest IH]; intros [|i] [|j] H; simpl; auto;
    try contradiction.
Qed.

Lemma replace_nth_last {A : Type} (x y : A) (l : list A) :
  replace_nth (List.length l) y (l ++ [x]) = l ++ [y].
Proof. induction l as [|z rest IH]; simpl; [reflexivity|now rewrite IH]. Qed.

Lemma nth_error_last {A : Type} (x : A) (l : list A) :
  nth_error (l ++ [x]) (List.length l) = Some x.
Proof. induction l as [|z rest IH]; simpl; auto. Qed.

Lemma nth_error_app_other {A : Type} (y : A) (l : list A) (j : nat) :
  j <> List.length l -> nth_error (l ++ [y]) j = nth_error l j.
Proof.
  revert j; induction l as [|z rest IH]; intros [|j] H; simpl in *; auto;
    try contradiction.
  destruct j; reflexivity.
Qed.

(** The observer after a connection was passed to it. *)
Lemma accept_on_run (i : nat) (conn_fd send_ret : Z) (ubridge_res : sid_resource ubridge)
      (observer_res : sid_resource observer) :
  nth_error (ubr_observers (res_data ubridge_res)) i = Some observer_res ->
  accept_on i conn_fd send_ret ubridge_res
  = match _accept_connection_and_pass_to_worker (ID ubridge_res) conn_fd send_ret
                                                observer_res with
    | Some (r, observer_res', evs) =>
      Some (r, set_ubr_observers ubridge_res
                 (replace_nth i observer_res' (ubr_observers (res_data ubridge_res))),
            evs)
    | None => None
    end.
Proof. intros H. unfold accept_on. now rewrite H. Qed.

Lemma accept_on_success (i : nat) (conn_fd send_ret : Z)
      (ubridge_res ubridge_res' : sid_resource ubridge)
      (observer_res : sid_resource observer) (evs : list event) :
  nth_error (ubr_observers (res_data ubridge_res)) i = Some observer_res ->
  accept_on i conn_fd send_ret ubridge_res = Some (0, ubridge_res', evs) ->
  let chosen := mk_resource (res_id observer_res)
                  (set_worker_state (set_idle_timeout_es (res_data observer_res) None)
                                    WORKER_INIT) in
  ubr_observers (res_data ubridge_res')
  = replace_nth i chosen (ubr_observers (res_data ubridge_res))
  /\ In (ev_comms_send (obs_comms_fd (res_data observer_res)) None conn_fd) evs.
Proof.
  intros Hnth Hrun. rewrite (accept_on_run _ _ _ _ _ Hnth), accept_run in Hrun.
  destruct (conn_fd <? 0); [discriminate|].
  destruct (send_ret <? 0); [discriminate|].
  injection Hrun as <- <-. split; [reflexivity|]. left. reflexivity.
Qed.

(** When [_spawn_worker] gives an observer. *)
Lemma spawn_observer_inv (pid_to_string : Z -> string) (env : spawn_env)
      (ubridge_res ubridge_res' : sid_resource ubridge) (i : nat) (evs : list sys_event) :
  _spawn_worker pid_to_string env ubridge_res = (spawn_observer ubridge_res' i, evs) ->
  0 < sp_fork env
  /\ i = List.length (ubr_observers (res_data ubridge_res))
  /\ ubr_observers (res_data ubridge_res')
     = ubr_observers (res_data ubridge_res)
       ++ [mk_resource (pid_to_string (sp_fork env))
             (mk_observer (sp_fork env) (sp_comms_fd0 env) true true None WORKER_IDLE)]
  /\ res_id ubridge_res' = res_id ubridge_res
  /\ In (sys_ev (ev_close (sp_comms_fd1 env))) evs
  /\ In (sys_fork (sp_fork env)) evs
  /\ handler_events evs
     = [ev_log_debug (res_id ubridge_res)
          ("Spawned new worker process with PID " ++ string_of_int (sp_fork env) ++ ".");
        ev_close (sp_comms_fd1 env)]
       ++ (if sp_restore env <? 0
           then [ev_log_sys_error (res_id ubridge_res) "sigprocmask"] else []).
Proof.
  unfold _spawn_worker, _init_observer, _init_worker.
  destruct (sp_socketpair env <? 0); [discriminate|].
  destruct (sp_sigfillset env <? 0); [discriminate|].
  destruct (sp_sigprocmask env <? 0); [discriminate|].
  cbv zeta.
  destruct (Z.ltb_spec (sp_fork env) 0); [discriminate|].
  destruct (Z.eqb_spec (sp_fork env) 0) as [H0|H0].
  - destruct (negb (wi_alloc_ok (sp_worker_init env))); [discriminate|].
    destruct (negb (wi_sigterm_es_ok (sp_worker_init env))
              || negb (wi_sigint_es_ok (sp_worker_init env))); [discriminate|].
    destruct (negb (wi_comms_es_ok (sp_worker_init env))); [discriminate|].
    destruct (negb (wi_buf_ok (sp_worker_init env))); discriminate.
  - destruct (negb (oi_alloc_ok (sp_observer_init env))); [discriminate|].
    destruct (negb (oi_child_es_ok (sp_observer_init env))); [discriminate|].
    destruct (negb (oi_comms_es_ok (sp_observer_init env))); [discriminate|].
    intros [= <- <- <-]. split; [lia|]. split; [reflexivity|].
    split; [reflexivity|]. split; [reflexivity|].
    unfold spawn_out. simpl andb.
    destruct (Z.eqb_spec (sp_fork env) 0); [contradiction|]. simpl negb. cbv iota.
    split; [|split].
    + simpl. right. right. right. right. left. reflexivity.
    + simpl. right. right. left. reflexivity.
    + destruct (sp_restore env <? 0); reflexivity.
Qed.

Lemma spawn_not_after_found_null (pid_to_string : Z -> string) (env : spawn_env)
      (ubridge_res ubridge_res' : sid_resource ubridge) (evs : list sys_event) :
  _spawn_worker pid_to_string env ubridge_res = (spawn_null ubridge_res', evs) ->
  ubridge_res' = ubridge_res.
Proof.
  unfold _spawn_worker, _init_observer, _init_worker.
  destruct (sp_socketpair env <? 0); [now intros [= <- _]|].
  destruct (sp_sigfillset env <? 0); [now intros [= <- _]|].
  destruct (sp_sigprocmask env <? 0); [now intros [= <- _]|].
  cbv zeta.
  destruct (sp_fork env <? 0); [now intros [= <- _]|].
  destruct (sp_fork env =? 0).
  - destruct (negb (wi_alloc_ok (sp_worker_init env))); [discriminate|].
    destruct (negb (wi_sigterm_es_ok (sp_worker_init env))
              || negb (wi_sigint_es_ok (sp_worker_init env))); [discriminate|].
    destruct (negb (wi_comms_es_ok (sp_worker_init env))); [discriminate|].
    destruct (negb (wi_buf_ok (sp_worker_init env))); discriminate.
  - destruct (negb (oi_alloc_ok (sp_observer_init env))); [now intros [= <- _]|].
    destruct (negb (oi_child_es_ok (sp_observer_init env))); [now intros [= <- _]|].
    destruct (negb (oi_comms_es_ok (sp_observer_init env))); [now intros [= <- _]|].
    discriminate.
Qed.

Lemma handler_events_app (e1 e2 : list sys_event) :
  handler_events (e1 ++ e2) = handler_events e1 ++ handler_events e2.
Proof. apply flat_map_app. Qed.

Lemma handler_events_cons (e : event) (evs : list sys_event) :
  handler_events (sys_ev e :: evs) = e :: handler_events evs.
Proof. reflexivity. Qed.

Lemma handler_events_map (evs : list event) : handler_events (map sys_ev evs) = evs.
Proof. induction evs as [|e evs IH]; simpl; [reflexivity|now rewrite IH]. Qed.

Lemma mask_and_fork_calls_map (evs : list event) :
  mask_and_fork_calls (map sys_ev evs) = [].
Proof. induction evs as [|e evs IH]; simpl; auto. Qed.

(** X18: In the parent, a connection is only ever passed to a worker that is
    IDLE: when [_on_ubridge_interface_event] returns 0, exactly one
    observer changed; it now records INIT, has no idle timer, and the
    accepted descriptor was sent on its control channel. It is either
    the first of the old observers whose worker was IDLE, found with
    the iterator, and then no process is forked and the number of
    observers is the same; or, the search having found none, an
    observer created for the process that [fork] gave, put after the
    old ones, holding the first descriptor of the socket pair, the
    second being closed. The search finds none when no old observer has
    an IDLE worker, and also when the iterator cannot be created: a
    worker is then spawned although an old one may be IDLE. *)
Theorem connection_goes_to_an_idle_worker :
  forall (pid_to_string : Z -> string) (env : spawn_env) (iter_ok : bool)
         (conn_fd send_ret : Z)
         (ubridge_res ubridge_res' : sid_resource ubridge) (evs : list sys_event),
    _on_ubridge_interface_event pid_to_string env iter_ok conn_fd send_ret ubridge_res
    = Some (ub_return 0 ubridge_res', evs) ->
    let old := ubr_observers (res_data ubridge_res) in
    let new := ubr_observers (res_data ubridge_res') in
    exists (i : nat) (chosen : sid_resource observer),
      nth_error new i = Some chosen
      /\ worker_state (res_data chosen) = WORKER_INIT
      /\ idle_timeout_es (res_data chosen) = None
      /\ In (ev_comms_send (obs_comms_fd (res_data chosen)) None conn_fd)
            (handler_events evs)
      /\ (forall j, j <> i -> nth_error new j = nth_error old j)
      /\ ((exists before,
              iter_ok = true
              /\ nth_error old i = Some before
              /\ worker_state (res_data before) = WORKER_IDLE
              /\ obs_worker_pid (res_data chosen) = obs_worker_pid (res_data before)
              /\ obs_comms_fd (res_data chosen) = obs_comms_fd (res_data before)
              /\ (forall j res', (j < i)%nat -> nth_error old j = Some res' ->
                                 worker_state (res_data res') <> WORKER_IDLE)
              /\ List.length new = List.length old
              /\ mask_and_fork_calls evs = [])
          \/ (i = List.length old
              /\ new = old ++ [chosen]
              /\ (iter_ok = false
                  \/ forall res, In res old -> worker_state (res_data res) <> WORKER_IDLE)
              /\ 0 < sp_fork env
              /\ obs_worker_pid (res_data chosen) = sp_fork env
              /\ obs_comms_fd (res_data chosen) = sp_comms_fd0 env
              /\ In (sys_fork (sp_fork env)) evs
              /\ In (ev_close (sp_comms_fd1 env)) (handler_events evs))).
Proof.
  intros pid_to_string env iter_ok conn_fd send_ret ubridge_res ubridge_res' evs Hrun
         old new.
  unfold _on_ubridge_interface_event in Hrun.
  pose proof (first_idle_spec iter_ok ubridge_res) as Hfind. fold old in Hfind.
  destruct (_find_observer_for_idle_worker iter_ok ubridge_res) as [i|].
  - destruct Hfind as [Hiter [[before [Hnth Hidle]] Hfirst]].
    destruct (accept_on i conn_fd send_ret ubridge_res) as [[[r u'] evs']|] eqn:Hacc;
      [|discriminate].
    injection Hrun as -> -> <-.
    destruct (accept_on_success _ _ _ _ _ _ _ Hnth Hacc) as [Hnew Hsent].
    fold new old in Hnew.
    exists i. eexists. split; [rewrite Hnew; apply (nth_error_replace_nth_same _ _ _ _ Hnth)|].
    split; [reflexivity|]. split; [reflexivity|]. split.
    { simpl. right. rewrite handler_events_map. exact Hsent. }
    split.
    { intros j Hj. rewrite Hnew. now apply nth_error_replace_nth_other. }
    left. exists before. split; [exact Hiter|]. split; [exact Hnth|].
    split; [exact Hidle|].
    split; [reflexivity|]. split; [reflexivity|]. split; [exact Hfirst|]. split.
    + rewrite Hnew. apply length_replace_nth.
    + simpl. apply mask_and_fork_calls_map.
  - destruct (_spawn_worker pid_to_string env ubridge_res) as [out evs0] eqn:Hspawn.
    destruct out as [u0|u0 i|w|code]; try discriminate.
    + destruct (spawn_observer_inv _ _ _ _ _ _ Hspawn)
        as [Hpid [Hi [Hobs [_ [Hclose [Hfork Hevs0]]]]]].
      subst i.
      destruct (accept_on (List.length (ubr_observers (res_data ubridge_res)))
                          conn_fd send_ret u0) as [[[r u'] evs']|] eqn:Hacc;
        [|discriminate].
      injection Hrun as -> -> <-.
      assert (Hnth : nth_error (ubr_observers (res_data u0))
                               (List.length (ubr_observers (res_data ubridge_res)))
                     = Some (mk_resource (pid_to_string (sp_fork env))
                               (mk_observer (sp_fork env) (sp_comms_fd0 env) true true
                                            None WORKER_IDLE))).
      { rewrite Hobs. apply nth_error_last. }
      destruct (accept_on_success _ _ _ _ _ _ _ Hnth Hacc) as [Hnew Hsent].
      rewrite Hobs, replace_nth_last in Hnew.
      unfold new, old. rewrite Hnew.
      exists (List.length (ubr_observers (res_data ubridge_res))). eexists.
      split; [apply nth_error_last|].
      split; [reflexivity|]. split; [reflexivity|]. split.
      { rewrite !handler_events_cons, handler_events_app, handler_events_map.
        right. right. apply in_or_app. right. exact Hsent. }
      split.
      { intros j Hj. now apply nth_error_app_other. }
      right. split; [reflexivity|]. split; [reflexivity|].
      split; [exact Hfind|]. split; [exact Hpid|]. split; [reflexivity|].
      split; [reflexivity|]. split.
      { right. right. apply in_or_app. left. exact Hfork. }
      rewrite !handler_events_cons, handler_events_app, Hevs0.
      right. right. apply in_or_app. left. simpl. auto.
Qed.

Lemma connection_goes_to_an_idle_worker_witness :
  exists (i : nat) (chosen : sid_resource observer),
    nth_error
      [ mk_resource "100" (mk_observer 100 20 true true None WORKER_RUNNING);
        mk_resource "4321" (mk_observer 4321 5 true true None WORKER_INIT);
        mk_resource "300" (mk_observer 300 22 true true None WORKER_IDLE) ] i
    = Some chosen
    /\ worker_state (res_data chosen) = WORKER_INIT
    /\ idle_timeout_es (res_data chosen) = None.
Proof.
  destruct (connection_goes_to_an_idle_worker string_of_int (a_spawn_env 500) true 9 0
              an_ubridge
              (set_ubr_observers an_ubridge
                 [ mk_resource "100" (mk_observer 100 20 true true None WORKER_RUNNING);
                   mk_resource "4321" (mk_observer 4321 5 true true None WORKER_INIT);
                   mk_resource "300" (mk_observer 300 22 true true None WORKER_IDLE) ])
              _ eq_refl)
    as [i [chosen [Hnth [Hstate [Htimer _]]]]].
  exists i, chosen. auto.
Defined.

Example spawn_and_dispatch_example :
  option_map fst
    (_on_ubridge_interface_event string_of_int (a_spawn_env 500) true 9 0 a_busy_ubridge)
  = Some (ub_return 0
            (set_ubr_observers a_busy_ubridge
               [ mk_resource "100" (mk_observer 100 20 true true None WORKER_RUNNING);
                 mk_resource "500" (mk_observer 500 10 true true None WORKER_INIT) ])).
Proof. reflexivity. Qed.

(** Without an iterator a worker is spawned although the worker of an
    old observer is IDLE. *)
Example spawn_without_iterator :
  option_map fst
    (_on_ubridge_interface_event string_of_int (a_spawn_env 500) false 9 0 an_ubridge)
  = Some (ub_return 0
            (set_ubr_observers an_ubridge
               (ubr_observers (res_data an_ubridge)
                ++ [mk_resource "500" (mk_observer 500 10 true true None WORKER_INIT)]))).
Proof. reflexivity. Qed.

(** ** Spawning: the signal mask and the descriptors around [fork] *)

(** X19: In [_spawn_worker], [fork] is called only after the signals were
    blocked, and the mask is restored exactly when [fork] was called
    and the process is not the child: in the parent and when [fork]
    failed. Of its own calls of [close], the parent closes the second
    descriptor of the socket pair and nothing else; the child closes
    the first and then destroys the tree that it inherited (what the
    destroy hooks of that tree close is within that destruction); when
    [fork] failed or was not reached nothing is closed. The process is
    the child exactly when the outcome is a worker resource or an exit.
    The worker is a root with the pid of the child, the second
    descriptor, no connection and no commands. In the parent the
    outcome is NULL with the ubridge as it was, or the ubridge with its
    old observers in their order and, after them, the new one: the pid
    that [fork] gave, the first descriptor, IDLE, no idle timer. *)
Theorem signals_are_blocked_around_fork :
  forall (pid_to_string : Z -> string) (env : spawn_env)
         (ubridge_res : sid_resource ubridge),
    let out := fst (_spawn_worker pid_to_string env ubridge_res) in
    let evs := snd (_spawn_worker pid_to_string env ubridge_res) in
    let prepared := (0 <=? sp_socketpair env) && (0 <=? sp_sigfillset env) in
    mask_and_fork_calls evs
    = (if negb prepared then []
       else if sp_sigprocmask env <? 0 then [sys_sigprocmask_block (sp_sigprocmask env)]
       else if sp_fork env =? 0
            then [sys_sigprocmask_block (sp_sigprocmask env); sys_fork 0]
            else [sys_sigprocmask_block (sp_sigprocmask env); sys_fork (sp_fork env);
                  sys_sigprocmask_restore (sp_restore env)])
    /\ close_and_destroy_calls evs
       = (if prepared && (0 <=? sp_sigprocmask env) && (0 <=? sp_fork env)
          then if sp_fork env =? 0
               then [sys_ev (ev_close (sp_comms_fd0 env)); sys_destroy_tree (sp_destroy env)]
               else [sys_ev (ev_close (sp_comms_fd1 env))]
          else [])
    /\ (match out with
        | spawn_worker _ | spawn_exit _ => True
        | spawn_null _ | spawn_observer _ _ => False
        end
        <-> prepared && (0 <=? sp_sigprocmask env) && (sp_fork env =? 0) = true)
    /\ match out with
       | spawn_worker w =>
         w = mk_resource (pid_to_string (sp_getpid env))
                         (mk_worker (sp_comms_fd1 env) (-1) false [])
       | spawn_exit code => code = EXIT_FAILURE
       | spawn_null u => u = ubridge_res
       | spawn_observer u i =>
         i = List.length (ubr_observers (res_data ubridge_res))
         /\ u = mk_resource (res_id ubridge_res)
                  (mk_ubridge (ubr_socket_fd (res_data ubridge_res))
                              (ubr_es (res_data ubridge_res))
                              (ubr_observers (res_data ubridge_res)
                               ++ [mk_resource (pid_to_string (sp_fork env))
                                     (mk_observer (sp_fork env) (sp_comms_fd0 env)
                                                  true true None WORKER_IDLE)]))
       end.
Proof.
  intros pid_to_string env ubridge_res. cbv zeta.
  unfold _spawn_worker, _init_observer, _init_worker, spawn_out.
  destruct (Z.ltb_spec (sp_socketpair env) 0);
    [destruct (Z.leb_spec 0 (sp_socketpair env)); [lia|];
     simpl; repeat split; auto; try tauto; discriminate|].
  destruct (Z.leb_spec 0 (sp_socketpair env)); [|lia].
  destruct (Z.ltb_spec (sp_sigfillset env) 0);
    [destruct (Z.leb_spec 0 (sp_sigfillset env)); [lia|];
     simpl; repeat split; auto; try tauto; discriminate|].
  destruct (Z.leb_spec 0 (sp_sigfillset env)); [|lia].
  destruct (Z.ltb_spec (sp_sigprocmask env) 0);
    [destruct (Z.leb_spec 0 (sp_sigprocmask env)); [lia|];
     simpl; repeat split; auto; try tauto; discriminate|].
  destruct (Z.leb_spec 0 (sp_sigprocmask env)); [|lia].
  destruct (Z.ltb_spec (sp_fork env) 0).
  { destruct (Z.leb_spec 0 (sp_fork env)); [lia|].
    destruct (Z.eqb_spec (sp_fork env) 0); [lia|].
    destruct (sp_restore env <? 0);
      simpl; repeat split; auto; try tauto; discriminate. }
  destruct (Z.leb_spec 0 (sp_fork env)); [|lia].
  destruct (Z.eqb_spec (sp_fork env) 0) as [Hzero|Hzero].
  - destruct (sp_destroy env <? 0);
      destruct (negb (wi_alloc_ok (sp_worker_init env)));
      [| destruct (negb (wi_sigterm_es_ok (sp_worker_init env))
                   || negb (wi_sigint_es_ok (sp_worker_init env)));
         [| destruct (negb (wi_comms_es_ok (sp_worker_init env)));
            [| destruct (negb (wi_buf_ok (sp_worker_init env)))]]
       | | destruct (negb (wi_sigterm_es_ok (sp_worker_init env))
                     || negb (wi_sigint_es_ok (sp_worker_init env)));
           [| destruct (negb (wi_comms_es_ok (sp_worker_init env)));
              [| destruct (negb (wi_buf_ok (sp_worker_init env)))]]];
      simpl; repeat split; auto; now rewrite Hzero.
  - destruct (sp_restore env <? 0);
      destruct (negb (oi_alloc_ok (sp_observer_init env)));
      [| destruct (negb (oi_child_es_ok (sp_observer_init env)));
         [| destruct (negb (oi_comms_es_ok (sp_observer_init env)))]
       | | destruct (negb (oi_child_es_ok (sp_observer_init env)));
           [| destruct (negb (oi_comms_es_ok (sp_observer_init env)))]];
      simpl; repeat split; auto; try tauto; try discriminate.
Qed.

Lemma signals_are_blocked_witness :
  mask_and_fork_calls (snd (_spawn_worker string_of_int (a_spawn_env 500) an_ubridge))
  = [sys_sigprocmask_block 0; sys_fork 500; sys_sigprocmask_restore 0]
  /\ close_and_destroy_calls (snd (_spawn_worker string_of_int (a_spawn_env 0) an_ubridge))
     = [sys_ev (ev_close 10); sys_destroy_tree 0].
Proof.
  split.
  - apply (signals_are_blocked_around_fork string_of_int (a_spawn_env 500) an_ubridge).
  - apply (signals_are_blocked_around_fork string_of_int (a_spawn_env 0) an_ubridge).
Defined.

(** ** The exit of a worker *)

Lemma length_remove_nth {A : Type} (i : nat) (l : list A) (x : A) :
  nth_error l i = Some x -> List.length (remove_nth i l) = pred (List.length l).
Proof.
  revert i; induction l as [|y rest IH]; intros [|i]; simpl; try discriminate; auto.
  intros H. rewrite (IH _ H). destruct rest; [destruct i; discriminate|reflexivity].
Qed.

Lemma nth_error_remove_nth_before {A : Type} (i j : nat) (l : list A) :
  (j < i)%nat -> nth_error (remove_nth i l) j = nth_error l j.
Proof.
  revert i j; induction l as [|y rest IH]; intros [|i] [|j] H; simpl; auto; try lia.
  apply IH. lia.
Qed.

Lemma nth_error_remove_nth_after {A : Type} (i j : nat) (l : list A) :
  (i <= j)%nat -> nth_error (remove_nth i l) j = nth_error l (S j).
Proof.
  revert i j; induction l as [|y rest IH]; intros i j H.
  - destruct i, j; reflexivity.
  - destruct i as [|i].
    + reflexivity.
    + destruct j as [|j]; [lia|].
      change (nth_error (remove_nth i rest) j = nth_error rest (S j)).
      apply IH. lia.
Qed.

(** X20: Whatever the way the worker ended (exit, signal, dump or any other
    code), the handler of the child event returns 0 and destroys the
    observer of that worker and no other: the other observers keep
    their order and their data, the control channel of the destroyed
    observer is closed exactly once, and no signal is sent and no
    process is forked. *)
Theorem worker_exit_destroys_its_observer :
  forall (si_code si_status : Z) (i : nat) (ubridge_res : sid_resource ubridge)
         (observer_res : sid_resource observer),
    let old := ubr_observers (res_data ubridge_res) in
    nth_error old i = Some observer_res ->
    exists evs,
      _on_observer_child_event si_code si_status i ubridge_res
      = Some (0, set_ubr_observers ubridge_res (remove_nth i old), evs)
      /\ S (List.length (remove_nth i old)) = List.length old
      /\ (forall j, (j < i)%nat -> nth_error (remove_nth i old) j = nth_error old j)
      /\ (forall j, (i <= j)%nat -> nth_error (remove_nth i old) j = nth_error old (S j))
      /\ In (sys_destroy_observer (res_id observer_res)) evs
      /\ closed_fds (handler_events evs) = [obs_comms_fd (res_data observer_res)]
      /\ signals_sent (handler_events evs) = []
      /\ comms_sent (handler_events evs) = []
      /\ mask_and_fork_calls evs = [].
Proof.
  intros si_code si_status i ubridge_res observer_res old Hnth.
  unfold _on_observer_child_event. fold old. rewrite Hnth.
  eexists. split; [reflexivity|]. split.
  { rewrite (length_remove_nth _ _ _ Hnth).
    destruct old; [destruct i; discriminate|reflexivity]. }
  split; [intros j Hj; now apply nth_error_remove_nth_before|].
  split; [intros j Hj; now apply nth_error_remove_nth_after|].
  split; [right; left; reflexivity|].
  repeat split.
Qed.

Lemma worker_exit_witness :
  exists evs,
    _on_observer_child_event CLD_KILLED 15 1 an_ubridge
    = Some (0,
            set_ubr_observers an_ubridge
              [ mk_resource "100" (mk_observer 100 20 true true None WORKER_RUNNING);
                mk_resource "300" (mk_observer 300 22 true true None WORKER_IDLE) ],
            evs)
    /\ closed_fds (handler_events evs) = [5].
Proof.
  destruct (worker_exit_destroys_its_observer CLD_KILLED 15 1 an_ubridge armed_observer
              eq_refl) as [evs [Hrun [_ [_ [_ [_ [Hclosed _]]]]]]].
  exists evs. split; [exact Hrun|exact Hclosed].
Defined.

Example worker_exit_log :
  option_map (fun x => hd (sys_exit 0) (snd x))
             (_on_observer_child_event CLD_KILLED 15 1 an_ubridge)
  = Some (sys_ev (ev_log_debug "4321" "Worker 4321 terminated by signal 15.")).
Proof. reflexivity. Qed.

(** ** The worker state machine of an observer and its worker *)

Lemma bytes_sent_comms_sent (evs : list event) :
  bytes_sent evs
  = flat_map (fun m => match snd (fst m) with Some b => [b] | None => [] end)
             (comms_sent evs).
Proof.
  induction evs as [|e evs IH]; [reflexivity|].
  destruct e; simpl; try exact IH.
  destruct byte; simpl; now rewrite IH.
Qed.

(** What the connection handler sends: nothing, the event source of the
    connection being as it was, or IDLE, the event source being
    destroyed. *)
Lemma conn_event_bytes (env : conn_env) (revents : Z) (res res' : sid_resource worker)
      (r : Z) (evs : list event) :
  _on_worker_conn_event env revents res = Some (r, res', evs) ->
  (bytes_sent evs = [] /\ wrk_conn_es (res_data res') = wrk_conn_es (res_data res))
  \/ (bytes_sent evs = [INTERNAL_COMMS_CMD_IDLE] /\ wrk_conn_es (res_data res') = false).
Proof.
  intros Hrun. rewrite bytes_sent_comms_sent.
  destruct (conn_event_sends _ _ _ _ _ _ Hrun) as [[-> Hes]|[-> ->]].
  - left. split; [reflexivity|exact Hes].
  - right. split; reflexivity.
Qed.

Lemma service_inv_start (oenv : observer_init_env) (wenv : worker_init_env)
      (oid wid : string) (oks wks : kickstart) (o : observer) (w : worker)
      (oevs wevs : list event) :
  _init_observer oenv oid oks = (Some o, oevs) ->
  _init_worker wenv wid wks = (Some w, wevs) ->
  service_inv (mk_service (mk_resource oid o) (mk_resource wid w) [] []).
Proof.
  unfold _init_observer, _init_worker, service_inv.
  destruct (negb (oi_alloc_ok oenv)); [discriminate|].
  destruct (negb (oi_child_es_ok oenv)); [discriminate|].
  destruct (negb (oi_comms_es_ok oenv)); [discriminate|].
  intros [= <- _].
  destruct (negb (wi_alloc_ok wenv)); [discriminate|].
  destruct (negb (wi_sigterm_es_ok wenv) || negb (wi_sigint_es_ok wenv)); [discriminate|].
  destruct (negb (wi_comms_es_ok wenv)); [discriminate|].
  destruct (negb (wi_buf_ok wenv)); [discriminate|].
  intros [= <- _]. simpl. auto.
Qed.

Ltac service_cases :=
  repeat match goal with
         | H : _ /\ _ |- _ => destruct H
         | H : _ \/ _ |- _ => destruct H
         | H : exists _, _ |- _ => destruct H
         | H : _ :: _ = _ :: _ |- _ => injection H as ? ?
         | H : _ :: _ = [] |- _ => discriminate H
         | H : [] = _ :: _ |- _ => discriminate H
         end;
  subst; simpl in *; try discriminate; try congruence.

Lemma service_inv_step (s s' : service) :
  service_inv s -> service_step s s' -> service_inv s'.
Proof.
  intros Hinv Hstep. destruct Hstep as
      [ubridge_id conn_fd send_ret o o' w ds bs r evs Hidle Hrun
      |n b fd fd' es_ret send_ret o w w' ds bs delivered r evs Hn Hfd Hrun Hdel
      |env revents o w w' ds bs delivered r evs Hes Hrun Hdel
      |n b now o o' w ds bs r evs Hn Hrun
      |o o' w ds bs r evs Htimer Hrun
      |fd o w ds bs
      |b o w ds bs];
    unfold service_inv in *; cbn [svc_observer svc_worker svc_descriptors svc_bytes] in *.
  - rewrite Hidle in Hinv. destruct Hinv as [-> [-> Hc]].
    rewrite accept_run in Hrun.
    destruct (conn_fd <? 0); [injection Hrun as <- <- <-; rewrite Hidle; auto|].
    destruct (send_ret <? 0); [injection Hrun as <- <- <-; rewrite Hidle; auto|].
    injection Hrun as <- <- <-. simpl. split; [reflexivity|]. left. eauto.
  - rewrite worker_comms_event_run in Hrun. cbn [recv_ret recv_fd] in Hrun.
    destruct (Z.ltb_spec n 0); [lia|].
    destruct (Z.eqb_spec fd' (-1)); [lia|]. cbv zeta in Hrun.
    destruct (es_ret <? 0); injection Hrun as <- <- <-;
      destruct (worker_state (res_data o)); service_cases; auto 10.
  - destruct (conn_event_bytes _ _ _ _ _ _ Hrun) as [[Hsent Hsame]|[Hsent Hgone]];
      rewrite Hsent in Hdel.
    + assert (delivered = []) as -> by (destruct Hdel; assumption).
      rewrite app_nil_r, Hsame. exact Hinv.
    + rewrite Hgone.
      destruct (worker_state (res_data o)); service_cases; auto 10.
  - rewrite observer_comms_event_run in Hrun. cbn [recv_ret recv_buf0] in Hrun.
    destruct (Z.ltb_spec n 0); [lia|].
    destruct (worker_state (res_data o)) eqn:Hst; service_cases;
      injection Hrun as <- <- <-; simpl; auto 10.
  - unfold _on_idle_task_timeout_event, log_debug, bind, get_data, set_data, get_state,
      put_state, emit, ret, sid_resource_get_data in Hrun.
    injection Hrun as <- <- <-. simpl.
    destruct (worker_state (res_data o)); service_cases; auto.
  - destruct (worker_state (res_data o)); service_cases; auto 10.
  - destruct (worker_state (res_data o)); service_cases; auto 10.
Qed.

Lemma service_reachable_inv (s : service) : service_reachable s -> service_inv s.
Proof.
  induction 1 as [oenv wenv oid wid oks wks o w oevs wevs Ho Hw|s s' _ IH Hstep].
  - exact (service_inv_start _ _ _ _ _ _ _ _ _ _ Ho Hw).
  - exact (service_inv_step _ _ IH Hstep).
Qed.

(** Whatever the handlers were given, an observer that records INIT
    has no idle timer: INIT is set only where a connection is passed to
    the worker, which destroys the timer, and the timer is armed only
    where IDLE is set. *)
Lemma observer_init_has_no_timer (res : sid_resource observer) :
  observer_reachable res ->
  worker_state (res_data res) = WORKER_INIT ->
  idle_timeout_es (res_data res) = None.
Proof.
  induction 1 as [env id ks o evs Hinit
                 |ubridge_id conn_fd send_ret res res' r evs _ IH Hrun
                 |rcv now res res' r evs _ IH Hrun
                 |res res' r evs _ IH Hrun].
  - unfold _init_observer in Hinit.
    destruct (negb (oi_alloc_ok env)); [discriminate|].
    destruct (negb (oi_child_es_ok env)); [discriminate|].
    destruct (negb (oi_comms_es_ok env)); [discriminate|].
    injection Hinit as <- _. discriminate.
  - rewrite accept_run in Hrun.
    destruct (conn_fd <? 0); [injection Hrun as _ <- _; exact IH|].
    destruct (send_ret <? 0); [injection Hrun as _ <- _; exact IH|].
    injection Hrun as _ <- _. reflexivity.
  - rewrite observer_comms_event_run in Hrun.
    destruct (recv_ret rcv <? 0); [injection Hrun as _ <- _; exact IH|].
    destruct (recv_buf0 rcv =? INTERNAL_COMMS_CMD_RUNNING);
      [injection Hrun as _ <- _; discriminate|].
    destruct (recv_buf0 rcv =? INTERNAL_COMMS_CMD_IDLE);
      [injection Hrun as _ <- _; discriminate|].
    injection Hrun as _ <- _. exact IH.
  - unfold _on_idle_task_timeout_event, log_debug, bind, get_data, set_data, get_state,
      put_state, emit, ret, sid_resource_get_data in Hrun.
    injection Hrun as _ <- _. discriminate.
Qed.

(** C7: each step of the worker state machine is that of the table.
    - From INIT, whatever the handlers of the observer were given
      before: an observer that records INIT has no idle timer (it was
      cancelled when the connection was passed to the worker), and when
      it receives RUNNING it records RUNNING and no idle timer is
      armed.
    - RUNNING is on its way to an observer only while the observer
      records INIT: whenever the observer of a worker receives RUNNING
      it records RUNNING, and no idle timer is armed.
    - An observer that receives IDLE records IDLE and arms the idle
      timer on the monotonic clock, 5000000 microseconds after now.
    - An idle timer is armed only while the observer records IDLE, or
      FINI once it fired; when it fires the observer records FINI and
      SIGTERM is sent to the pid of the worker, and to nobody else. *)
Theorem worker_state_machine_matches_table :
  (forall (res : sid_resource observer) (rcv : recv_result) (now : Z),
      observer_reachable res ->
      worker_state (res_data res) = WORKER_INIT ->
      0 <= recv_ret rcv ->
      recv_buf0 rcv = INTERNAL_COMMS_CMD_RUNNING ->
      exists o',
        _on_observer_comms_event rcv now res
        = Some (0, o', [ev_log_debug (res_id res) running_msg])
        /\ worker_state (res_data o') = WORKER_RUNNING
        /\ idle_timeout_es (res_data o') = None)
  /\ (forall (s : service) (n now : Z) (rest : list Z),
         service_reachable s ->
         svc_bytes s = INTERNAL_COMMS_CMD_RUNNING :: rest ->
         0 <= n ->
         worker_state (res_data (svc_observer s)) = WORKER_INIT
         /\ idle_timeout_es (res_data (svc_observer s)) = None
         /\ exists o',
             _on_observer_comms_event (mk_recv n INTERNAL_COMMS_CMD_RUNNING (-1)) now
                                      (svc_observer s)
             = Some (0, o', [ev_log_debug (res_id (svc_observer s)) running_msg])
             /\ worker_state (res_data o') = WORKER_RUNNING
             /\ idle_timeout_es (res_data o') = None)
  /\ (forall (res : sid_resource observer) (rcv : recv_result) (now : Z),
         0 <= recv_ret rcv ->
         recv_buf0 rcv = INTERNAL_COMMS_CMD_IDLE ->
         exists o',
           _on_observer_comms_event rcv now res
           = Some (0, o', [ev_log_debug (res_id res) idle_msg])
           /\ worker_state (res_data o') = WORKER_IDLE
           /\ idle_timeout_es (res_data o')
              = Some (mk_timer CLOCK_MONOTONIC (wrap 64 (now + WORKER_IDLE_TIMEOUT_USEC)) 0)
           /\ (0 <= now < 2 ^ 64 - WORKER_IDLE_TIMEOUT_USEC ->
               wrap 64 (now + WORKER_IDLE_TIMEOUT_USEC) = now + 5000000))
  /\ (forall s : service,
         service_reachable s ->
         idle_timeout_es (res_data (svc_observer s)) <> None ->
         worker_state (res_data (svc_observer s)) = WORKER_IDLE
         \/ worker_state (res_data (svc_observer s)) = WORKER_FINI)
  /\ (forall res : sid_resource observer,
         exists o' evs,
           _on_idle_task_timeout_event res = Some (0, o', evs)
           /\ worker_state (res_data o') = WORKER_FINI
           /\ signals_sent evs = [(obs_worker_pid (res_data res), SIGTERM)]).
Proof.
  split; [|split; [|split; [|split]]].
  - intros res rcv now Hreach Hinit Hret Hbyte.
    pose proof (observer_init_has_no_timer _ Hreach Hinit) as Hnone.
    rewrite observer_comms_event_run, Hbyte.
    destruct (Z.ltb_spec (recv_ret rcv) 0); [lia|]. simpl.
    eexists. split; [reflexivity|]. split; [reflexivity|exact Hnone].
  - intros s n now rest Hreach Hbytes Hn.
    pose proof (service_reachable_inv _ Hreach) as Hinv.
    unfold service_inv in Hinv. rewrite Hbytes in Hinv.
    rewrite observer_comms_event_run. cbn [recv_ret recv_buf0].
    destruct (Z.ltb_spec n 0); [lia|].
    destruct (worker_state (res_data (svc_observer s))) eqn:Hst; service_cases.
    all: split; [reflexivity|]; split; [assumption|];
      eexists; split; [reflexivity|]; split; [reflexivity|]; assumption.
  - intros res rcv now Hret Hbyte.
    rewrite observer_comms_event_run, Hbyte.
    destruct (Z.ltb_spec (recv_ret rcv) 0); [lia|]. simpl.
    eexists. split; [reflexivity|]. split; [reflexivity|]. split; [reflexivity|].
    intros Hnow. unfold wrap, WORKER_IDLE_TIMEOUT_USEC in *.
    apply Z.mod_small. lia.
  - intros s Hreach Htimer.
    pose proof (service_reachable_inv _ Hreach) as Hinv.
    unfold service_inv in Hinv.
    destruct (worker_state (res_data (svc_observer s))); auto;
      destruct Hinv as [Hnone _]; contradiction.
  - intros res. do 2 eexists. split; [reflexivity|]. split; reflexivity.
Qed.

Lemma worker_state_machine_witness :
  (exists o',
      _on_observer_comms_event (mk_recv 1 INTERNAL_COMMS_CMD_RUNNING (-1)) 2000
                               an_init_observer
      = Some (0, o', [ev_log_debug "500" running_msg])
      /\ worker_state (res_data o') = WORKER_RUNNING
      /\ idle_timeout_es (res_data o') = None)
  /\ worker_state (res_data (svc_observer a_service_with_running_sent)) = WORKER_INIT
  /\ idle_timeout_es (res_data (svc_observer a_service_with_running_sent)) = None
  /\ exists o',
      _on_observer_comms_event (mk_recv 1 INTERNAL_COMMS_CMD_RUNNING (-1)) 2000
                               (svc_observer a_service_with_running_sent)
      = Some (0, o', [ev_log_debug "500" running_msg])
      /\ worker_state (res_data o') = WORKER_RUNNING
      /\ idle_timeout_es (res_data o') = None.
Proof.
  destruct worker_state_machine_matches_table as [Hrow [Hsvc _]].
  split.
  - apply (Hrow an_init_observer (mk_recv 1 INTERNAL_COMMS_CMD_RUNNING (-1)) 2000).
    + apply (obs_accept "ubridge" 9 0
               (mk_resource "500" (mk_observer 500 10 true true None WORKER_IDLE))
               an_init_observer 0
               [ev_comms_send 10 None 9; ev_close 9; ev_log_debug "500" init_msg]).
      * apply (obs_created (mk_observer_init_env true true true) "500"
                           (mk_kickstart 500 10)
                           (mk_observer 500 10 true true None WORKER_IDLE) []).
        reflexivity.
      * reflexivity.
    + reflexivity.
    + simpl. lia.
    + reflexivity.
  - apply (Hsvc a_service_with_running_sent 1 2000 []).
    + apply (reach_step
               (mk_service an_init_observer
                           (mk_resource "500" (mk_worker 11 (-1) false []))
                           [9] [])).
      * apply (reach_step a_new_service).
        -- apply (reach_start (mk_observer_init_env true true true)
                              (mk_worker_init_env true true true true true)
                              "500" "500" (mk_kickstart 500 10) (mk_kickstart 500 11)
                              (mk_observer 500 10 true true None WORKER_IDLE)
                              (mk_worker 11 (-1) false []) [] []); reflexivity.
        -- exact (step_accept "ubridge" 9 0
                    (mk_resource "500" (mk_observer 500 10 true true None WORKER_IDLE))
                    an_init_observer
                    (mk_resource "500" (mk_worker 11 (-1) false []))
                    [] [] 0
                    [ev_comms_send 10 None 9; ev_close 9; ev_log_debug "500" init_msg]
                    eq_refl eq_refl).
      * exact (step_worker_comms 0 0 9 8 0 1
                 an_init_observer
                 (mk_resource "500" (mk_worker 11 (-1) false []))
                 (mk_resource "500" (mk_worker 11 8 true []))
                 [] [] [INTERNAL_COMMS_CMD_RUNNING] 0
                 [ev_comms_send 11 (Some INTERNAL_COMMS_CMD_RUNNING) (-1)]
                 ltac:(lia) ltac:(lia) eq_refl (or_introl eq_refl)).
    + reflexivity.
    + lia.
Defined.
